(** * DentalSystem: the availability and conflict-resolution engine

    A shallow embedding of the scheduling routes of [app.py]
    ([agendar], [admin_novo_agendamento], [cancelar_agendamento],
    [atualizar_status_agendamento], [horarios_disponiveis]) over the tables
    declared in [models.py], followed by the properties of the engine. *)

From Stdlib Require Import ZArith String Ascii List Lia Bool.
From stdpp Require Import base option list gmap strings.
Import ListNotations.

#[local] Open Scope string_scope.
#[local] Open Scope list_scope.
#[local] Open Scope Z_scope.

(** ** Exceptions and outcomes of a computation *)

(** The Python exceptions the modelled routes can raise without catching
    them; Flask answers such a request with a 500 page. *)
Inductive excecao : Type :=
| ValueError      (* time.replace(hour=..., minute=...) out of range *)
| OverflowError   (* datetime + timedelta outside datetime.min .. datetime.max,
                     or an argument of time.replace beyond a C int *)
| IntegrityError. (* a constraint of the schema rejected by the store at commit *)

(** A computation returns, raises, or exhausts the iteration budget given to
    its [while] loops. *)
Inductive exec (A : Type) : Type :=
| Ret (a : A)
| Lanca (e : excecao)
| SemCombustivel.
Arguments Ret {A} a.
Arguments Lanca {A} e.
Arguments SemCombustivel {A}.

#[global] Instance exec_ret : MRet exec := fun A a => Ret a.

#[global] Instance exec_bind : MBind exec := fun A B k c =>
  match c with
  | Ret a => k a
  | Lanca e => Lanca e
  | SemCombustivel => SemCombustivel
  end.

(** ** datetime, date, time and timedelta

    Every datetime of the engine is naive and minute aligned: it comes from
    [strptime] with ['%Y-%m-%d %H:%M'], from [datetime.combine] of a date and
    an hour and minute, or from one of those plus [timedelta(minutes=n)].
    A datetime is the number of minutes since 0001-01-01 00:00
    ([datetime.min]); a date is its proleptic Gregorian ordinal, as
    [date.toordinal()] gives it (0001-01-01 is day 1). *)
Module PyTime.

Definition max_ordinal : Z := 3652059. (* date.max.toordinal(), 9999-12-31 *)

Definition dt_min : Z := 0.
Definition dt_max : Z := max_ordinal * 1440 - 1. (* 9999-12-31 23:59 *)


Definition in_range (t : Z) : bool := (dt_min <=? t) && (t <=? dt_max).

(** [t + timedelta(minutes=n)]; [None] stands for OverflowError ("date
    value out of range"), raised when the sum leaves the representable
    range. A [timedelta] too long to be built raises OverflowError as well,
    and is longer than that whole range, so the test on the sum covers it. *)
Definition dt_add (t n : Z) : option Z :=
  if in_range (t + n) then Some (t + n) else None.

(** The range of a C [int], to which [replace] converts its arguments. *)
Definition c_int (n : Z) : bool :=
  (-2147483648 <=? n) && (n <=? 2147483647).

(** [datetime.min.time().replace(hour=h, minute=m)], as minutes after
    midnight: OverflowError when an argument does not fit a C [int],
    ValueError when the hour is not in 0..23 or the minute not in 0..59. *)
Definition time_replace (h m : Z) : excecao + Z :=
  if negb (c_int h && c_int m) then inl OverflowError
  else if (0 <=? h) && (h <=? 23) && (0 <=? m) && (m <=? 59)
       then inr (60 * h + m) else inl ValueError.

(** [datetime.combine(d, t)] *)
Definition combine (d t : Z) : Z := (d - 1) * 1440 + t.

(** [dt.date()], and SQL's [date(column)] *)
Definition date_of (t : Z) : Z := t / 1440 + 1.

(** [d.weekday()], 0 = Monday ... 6 = Sunday *)
Definition weekday (d : Z) : Z := (d + 6) mod 7.

Definition digit (n : Z) : ascii := ascii_of_N (48 + Z.to_N n).

Definition two_digits (n : Z) : string :=
  String (digit (n / 10)) (String (digit (n mod 10)) EmptyString).

(** [dt.strftime('%H:%M')] *)
Definition strftime_HM (t : Z) : string :=
  let m := t mod 1440 in
  two_digits (m / 60) +:+ ":" +:+ two_digits (m mod 60).

End PyTime.

(** ** Strings

    A Python [str] whose code points are all below 256 is the [string] of
    those code points. *)
Module PyStr.

(** The characters [int()] strips at both ends, among the code points
    below 256. *)
Definition is_space (c : ascii) : bool :=
  let n := N_of_ascii c in
  (((9 <=? n) && (n <=? 13)) || (n =? 32) || (n =? 133) || (n =? 160))%N.

Definition digit_val (c : ascii) : option Z :=
  let n := N_of_ascii c in
  if ((48 <=? n) && (n <=? 57))%N then Some (Z.of_N n - 48) else None.

Fixpoint lstrip (l : list ascii) : list ascii :=
  match l with
  | c :: r => if is_space c then lstrip r else l
  | [] => []
  end.

Definition strip (l : list ascii) : list ascii :=
  rev (lstrip (rev (lstrip l))).

(** Decimal digits, with single underscores allowed between digits.
    [prev] tells whether the previous character was a digit. *)
Fixpoint digits (acc : Z) (prev : bool) (l : list ascii) : option Z :=
  match l with
  | [] => if prev then Some acc else None
  | c :: r =>
      match digit_val c with
      | Some d => digits (10 * acc + d) true r
      | None =>
          if Ascii.eqb c "_"%char && prev then digits acc false r else None
      end
  end.

(** [int(s)]; [None] stands for ValueError. (CPython also refuses, with
    ValueError, a numeral of more than 4300 digits; the columns parsed here
    hold five characters.) *)
Definition py_int (s : string) : option Z :=
  match strip (list_ascii_of_string s) with
  | c :: r =>
      if Ascii.eqb c "-"%char then option_map Z.opp (digits 0 false r)
      else if Ascii.eqb c "+"%char then digits 0 false r
      else digits 0 false (c :: r)
  | [] => None
  end.

(** [s.split(sep)] for a one-character separator; [cur] is the piece being
    read, reversed. *)
Fixpoint split_aux (sep : ascii) (cur : list ascii) (l : list ascii)
  : list string :=
  match l with
  | [] => [string_of_list_ascii (rev cur)]
  | c :: r =>
      if Ascii.eqb c sep
      then string_of_list_ascii (rev cur) :: split_aux sep [] r
      else split_aux sep (c :: cur) r
  end.

Definition split (sep : ascii) (s : string) : list string :=
  split_aux sep [] (list_ascii_of_string s).

(** [x in xs] for a list of string literals *)
Definition in_list (x : string) (xs : list string) : bool :=
  existsb (String.eqb x) xs.

(** [s or default] for a nullable string column *)
Definition or_str (s : option string) (default : string) : string :=
  match s with
  | Some (String c r) => String c r
  | Some EmptyString | None => default
  end.

End PyStr.

(** ** The tables of [models.py]

    Each model keeps the columns the scheduling routes read or write; the
    primary key [id] is the key of the table's map. *)

Module Servico.
Record t : Type := mk {
  duracao_minutos : Z;
  ativo : bool
}.
End Servico.

Module Dentista.
Record t : Type := mk {
  ativo : bool
}.
End Dentista.

Module Agendamento.
Record t : Type := mk {
  data_hora_inicio : Z;
  data_hora_fim : Z;
  status : string;  (* 'pendente', 'confirmado', 'cancelado', 'concluido' *)
  paciente_id : Z;
  dentista_id : Z;
  servico_id : Z
}.

Definition set_status (s : string) (a : t) : t :=
  mk (data_hora_inicio a) (data_hora_fim a) s
     (paciente_id a) (dentista_id a) (servico_id a).
End Agendamento.

(** Every column of [Configuracao] is nullable; the column defaults are
    applied by the store when a row is inserted, so the transient
    [Configuracao()] built when the table is empty has [None] everywhere. *)
Module Configuracao.
Record t : Type := mk {
  hora_inicio_manha : option string;
  hora_fim_manha : option string;
  hora_inicio_tarde : option string;
  hora_fim_tarde : option string;
  intervalo_consultas : option Z;
  segunda : option bool;
  terca : option bool;
  quarta : option bool;
  quinta : option bool;
  sexta : option bool;
  sabado : option bool;
  domingo : option bool
}.

(** [Configuracao()] *)
Definition novo : t :=
  mk None None None None None None None None None None None None.
End Configuracao.

Record DB : Type := mkDB {
  usuarios : gset Z;                       (* ids of the rows of [usuarios] *)
  servicos : gmap Z Servico.t;
  dentistas : gmap Z Dentista.t;
  agendamentos : gmap Z Agendamento.t;
  configuracoes : list Configuracao.t
}.

Definition com_agendamentos (ags : gmap Z Agendamento.t) (db : DB) : DB :=
  mkDB (usuarios db) (servicos db) (dentistas db) ags (configuracoes db).

(** [Agendamento.query.filter(...)]: the rows that satisfy the filter, in the
    order the store returns them. *)
Definition query_filter (f : Agendamento.t -> bool) (db : DB)
  : list (Z * Agendamento.t) :=
  List.filter (fun r => f r.2) (map_to_list (agendamentos db)).

(** [db.session.add(novo_agendamento); db.session.commit()]: the store
    enforces the three foreign keys of [Agendamento] and keeps the row under
    a key of its own choosing, the next value of the sequence of the table.
    The model takes an unused key; which one it is plays no part in a
    property: a request that names a stored row names it by the key the
    store returned for it. [None] stands for the IntegrityError of a rejected
    insert, which commits nothing. *)
Definition session_add_commit (a : Agendamento.t) (db : DB) : option (Z * DB) :=
  if bool_decide (Agendamento.paciente_id a ∈ usuarios db)
     && bool_decide (is_Some (dentistas db !! Agendamento.dentista_id a))
     && bool_decide (is_Some (servicos db !! Agendamento.servico_id a))
  then
    let id := fresh (dom (agendamentos db)) in
    Some (id, com_agendamentos (<[id := a]> (agendamentos db)) db)
  else None.

(** ** Requests and responses *)

(** The [data] and [hora] fields of a booking form. *)
Inductive data_hora_form : Type :=
| DH_falta             (* one of the two is missing or empty *)
| DH_invalida          (* strptime raises ValueError *)
| DH (inicio : Z).     (* datetime.strptime(f'{data} {hora}', '%Y-%m-%d %H:%M') *)

(** A booking form. An id field is [None] when it is missing or empty, and
    otherwise the integer its text stands for, within the 32-bit range of
    the id columns, as the forms offer them. The routes hand the text to the
    store as it is, and the store refuses any other text with an error of
    its own: such a request is outside this model, and the properties that
    turn on the answer to an id that does not resolve are stated for ids in
    that range. *)
Module Form.
Record t : Type := mk {
  servico_id : option Z;
  dentista_id : option Z;
  data_hora : data_hora_form
}.
End Form.

(** The flashed messages; the error kind of the specification each one
    stands for is given on the right. *)
Inductive mensagem : Type :=
| Preencha_campos_obrigatorios
| Data_ou_hora_invalida            (* InvalidDate *)
| Datas_passadas                   (* InvalidTime *)
| Servico_nao_encontrado           (* NotFound *)
| Horario_nao_disponivel           (* SlotTaken *)
| Agendamento_realizado (id : Z)   (* patient booking stored as row [id] *)
| Agendamento_criado (id : Z)      (* admin booking stored as row [id] *)
| Sem_permissao                    (* Forbidden *)
| Nao_pode_ser_cancelado           (* AlreadyTerminal *)
| Cancelado_com_sucesso
| Status_atualizado
| Status_invalido.                 (* InvalidStatus *)

Inductive resposta : Type :=
| Flash (m : mensagem)
| Http404                          (* get_or_404 found no row *)
| Http500 (e : excecao).           (* an exception left the route *)

(** ** The conflict check of the write path *)

Definition status_ativos : list string := ["pendente"; "confirmado"].

(** The filter of [agendar] and of [admin_novo_agendamento]:
    same practitioner, status pending or confirmed,
    [data_hora_inicio < data_hora_fim] of the request and
    [data_hora_fim > data_hora_inicio] of the request. *)
Definition filtro_conflito (dentista_id inicio fim : Z) (ag : Agendamento.t)
  : bool :=
  (Agendamento.dentista_id ag =? dentista_id)
  && PyStr.in_list (Agendamento.status ag) status_ativos
  && (Agendamento.data_hora_inicio ag <? fim)
  && (Agendamento.data_hora_fim ag >? inicio).

(** [Agendamento.query.filter(...).first()] *)
Definition conflito (dentista_id inicio fim : Z) (db : DB)
  : option (Z * Agendamento.t) :=
  head (query_filter (filtro_conflito dentista_id inicio fim) db).

(** ** The booking routes *)

(** POST to [agendar], submitted at [agora] by the logged-in user
    [current_user_id]. [agora] is [datetime.now()] truncated to the minute:
    the start is minute aligned, so [data_hora_inicio <= datetime.now()]
    holds exactly when the start is at or before that minute. *)
Definition agendar (agora current_user_id : Z) (form : Form.t) (db : DB)
  : resposta * DB :=
  match Form.servico_id form, Form.dentista_id form, Form.data_hora form with
  | Some servico_id, Some dentista_id, DH data_hora_inicio =>
      if data_hora_inicio <=? agora then (Flash Datas_passadas, db)
      else
        match servicos db !! servico_id with
        | None => (Flash Servico_nao_encontrado, db)
        | Some servico =>
            match PyTime.dt_add data_hora_inicio
                    (Servico.duracao_minutos servico) with
            | None => (Http500 OverflowError, db)
            | Some data_hora_fim =>
                match conflito dentista_id data_hora_inicio data_hora_fim db with
                | Some _ => (Flash Horario_nao_disponivel, db)
                | None =>
                    match session_add_commit
                            (Agendamento.mk data_hora_inicio data_hora_fim
                               "pendente" current_user_id dentista_id servico_id)
                            db with
                    | None => (Http500 IntegrityError, db)
                    | Some (id, db') => (Flash (Agendamento_realizado id), db')
                    end
                end
            end
        end
  | Some _, Some _, DH_invalida => (Flash Data_ou_hora_invalida, db)
  | _, _, _ => (Flash Preencha_campos_obrigatorios, db)
  end.

(** POST to [admin_novo_agendamento]; the patient is a field of the form. *)
Definition admin_novo_agendamento (paciente_id : option Z) (form : Form.t)
  (db : DB) : resposta * DB :=
  match paciente_id, Form.servico_id form, Form.dentista_id form,
        Form.data_hora form with
  | Some paciente_id, Some servico_id, Some dentista_id, DH data_hora_inicio =>
      match servicos db !! servico_id with
      | None => (Flash Servico_nao_encontrado, db)
      | Some servico =>
          match PyTime.dt_add data_hora_inicio
                  (Servico.duracao_minutos servico) with
          | None => (Http500 OverflowError, db)
          | Some data_hora_fim =>
              match conflito dentista_id data_hora_inicio data_hora_fim db with
              | Some _ => (Flash Horario_nao_disponivel, db)
              | None =>
                  match session_add_commit
                          (Agendamento.mk data_hora_inicio data_hora_fim
                             "confirmado" paciente_id dentista_id servico_id)
                          db with
                  | None => (Http500 IntegrityError, db)
                  | Some (id, db') => (Flash (Agendamento_criado id), db')
                  end
              end
          end
      end
  | Some _, Some _, Some _, DH_invalida => (Flash Data_ou_hora_invalida, db)
  | _, _, _, _ => (Flash Preencha_campos_obrigatorios, db)
  end.

(** ** Cancellation and status update *)

(** POST to [cancelar_agendamento] by the logged-in user. *)
Definition cancelar_agendamento (current_user_id id : Z) (db : DB)
  : resposta * DB :=
  match agendamentos db !! id with
  | None => (Http404, db)
  | Some agendamento =>
      if negb (Agendamento.paciente_id agendamento =? current_user_id)
      then (Flash Sem_permissao, db)
      else if PyStr.in_list (Agendamento.status agendamento)
                ["cancelado"; "concluido"]
      then (Flash Nao_pode_ser_cancelado, db)
      else
        (Flash Cancelado_com_sucesso,
         com_agendamentos
           (<[id := Agendamento.set_status "cancelado" agendamento]>
              (agendamentos db)) db)
  end.

(** POST to [atualizar_status_agendamento]; [novo_status] is
    [request.form.get('status')]. *)
Definition atualizar_status_agendamento (id : Z) (novo_status : option string)
  (db : DB) : resposta * DB :=
  match agendamentos db !! id with
  | None => (Http404, db)
  | Some agendamento =>
      match novo_status with
      | Some novo_status =>
          if PyStr.in_list novo_status ["confirmado"; "cancelado"; "concluido"]
          then
            (Flash Status_atualizado,
             com_agendamentos
               (<[id := Agendamento.set_status novo_status agendamento]>
                  (agendamentos db)) db)
          else (Flash Status_invalido, db)
      | None => (Flash Status_invalido, db)
      end
  end.

(** ** The availability route, [horarios_disponiveis] *)

(** The [data] argument of the request. *)
Inductive data_arg : Type :=
| Data_falta                       (* missing or empty *)
| Data_invalida                    (* strptime raises ValueError *)
| Data (data_selecionada : Z).     (* datetime.strptime(data, '%Y-%m-%d').date() *)

Inductive json : Type :=
| Erro_parametros_invalidos        (* 400 *)
| Erro_data_invalida               (* 400, InvalidDate *)
| Erro_servico_nao_encontrado      (* 404, NotFound *)
| Clinica_fechada                  (* {'horarios': [], 'mensagem': ...} *)
| Horarios (horarios : list string).

(** Truth value of an argument read with [type=int]. *)
Definition id_truthy (o : option Z) : bool :=
  match o with
  | Some n => negb (n =? 0)
  | None => false
  end.

(** [config.intervalo_consultas or 30] *)
Definition or_int (o : option Z) (default : Z) : Z :=
  match o with
  | Some n => if n =? 0 then default else n
  | None => default
  end.

(** The inner function [parse_hora]: any failure of the split, of the
    unpacking into two values or of [int] is caught and gives [(8, 0)]. *)
Definition parse_hora (hora_str : string) : Z * Z :=
  match PyStr.split ":" hora_str with
  | [h; m] =>
      match PyStr.py_int h, PyStr.py_int m with
      | Some h, Some m => (h, m)
      | _, _ => (8, 0)
      end
  | _ => (8, 0)
  end.

(** [dias_habilitados.get(dia_semana, False)] *)
Definition dias_habilitados (config : Configuracao.t) (dia_semana : Z)
  : option bool :=
  match dia_semana with
  | 0 => Configuracao.segunda config
  | 1 => Configuracao.terca config
  | 2 => Configuracao.quarta config
  | 3 => Configuracao.quinta config
  | 4 => Configuracao.sexta config
  | 5 => Configuracao.sabado config
  | 6 => Configuracao.domingo config
  | _ => Some false
  end.

(** Truth value of a nullable boolean column. *)
Definition bool_truthy (o : option bool) : bool :=
  match o with
  | Some b => b
  | None => false
  end.

(** [datetime.combine(data_selecionada,
      datetime.min.time().replace(hour=h, minute=m))]; an exception of
    [replace] leaves the route. *)
Definition hora_do_dia (data_selecionada : Z) (hm : Z * Z) : exec Z :=
  match PyTime.time_replace hm.1 hm.2 with
  | inr t => Ret (PyTime.combine data_selecionada t)
  | inl e => Lanca e
  end.

(** One shift:
    [while hora_atual < hora_final:
         horarios_base.append(hora_atual)
         hora_atual += timedelta(minutes=intervalo)]
    Each unit of [fuel] pays for one evaluation of the loop condition. *)
Fixpoint gera_turno (fuel : nat) (hora_atual hora_final intervalo : Z)
  (horarios_base : list Z) : exec (list Z) :=
  match fuel with
  | O => SemCombustivel
  | S fuel =>
      if hora_atual <? hora_final then
        match PyTime.dt_add hora_atual intervalo with
        | Some proxima =>
            gera_turno fuel proxima hora_final intervalo
              (horarios_base ++ [hora_atual])
        | None => Lanca OverflowError
        end
      else Ret horarios_base
  end.

(** [config.intervalo_consultas or 30] *)
Definition intervalo_efetivo (config : Configuracao.t) : Z :=
  or_int (Configuracao.intervalo_consultas config) 30.

(** The four [parse_hora(config.hora_... or '...')] of the route. *)
Definition inicio_manha (config : Configuracao.t) : Z * Z :=
  parse_hora (PyStr.or_str (Configuracao.hora_inicio_manha config) "08:00").
Definition fim_manha (config : Configuracao.t) : Z * Z :=
  parse_hora (PyStr.or_str (Configuracao.hora_fim_manha config) "12:00").
Definition inicio_tarde (config : Configuracao.t) : Z * Z :=
  parse_hora (PyStr.or_str (Configuracao.hora_inicio_tarde config) "14:00").
Definition fim_tarde (config : Configuracao.t) : Z * Z :=
  parse_hora (PyStr.or_str (Configuracao.hora_fim_tarde config) "18:00").

(** The candidate slots of a date: morning shift, then afternoon shift. *)
Definition gera_horarios_base (fuel : nat) (config : Configuracao.t)
  (data_selecionada : Z) : exec (list Z) :=
  let intervalo := intervalo_efetivo config in
  hora_atual ← hora_do_dia data_selecionada (inicio_manha config);
  hora_final_manha ← hora_do_dia data_selecionada (fim_manha config);
  horarios_base ← gera_turno fuel hora_atual hora_final_manha intervalo [];
  hora_atual ← hora_do_dia data_selecionada (inicio_tarde config);
  hora_final_tarde ← hora_do_dia data_selecionada (fim_tarde config);
  gera_turno fuel hora_atual hora_final_tarde intervalo horarios_base.

(** The filter of [agendamentos_dia]: same practitioner, status pending or
    confirmed, start on the selected date. *)
Definition filtro_dia (dentista_id data_selecionada : Z) (ag : Agendamento.t)
  : bool :=
  (Agendamento.dentista_id ag =? dentista_id)
  && PyStr.in_list (Agendamento.status ag) status_ativos
  && (PyTime.date_of (Agendamento.data_hora_inicio ag) =? data_selecionada).

(** The conflict loop of the read path:
    [for ag in agendamentos_dia:
         if horario < ag.data_hora_fim and hora_fim > ag.data_hora_inicio:
             conflito = True; break] *)
Fixpoint tem_conflito (horario hora_fim : Z)
  (agendamentos_dia : list Agendamento.t) : bool :=
  match agendamentos_dia with
  | [] => false
  | ag :: resto =>
      if (horario <? Agendamento.data_hora_fim ag)
         && (hora_fim >? Agendamento.data_hora_inicio ag)
      then true
      else tem_conflito horario hora_fim resto
  end.

(** [for horario in horarios_base: ...], appending the free slots to
    [horarios_disponiveis]. *)
Fixpoint filtra_horarios (duracao_minutos : Z)
  (agendamentos_dia : list Agendamento.t) (horarios_base : list Z)
  (horarios_disponiveis : list string) : exec (list string) :=
  match horarios_base with
  | [] => Ret horarios_disponiveis
  | horario :: resto =>
      match PyTime.dt_add horario duracao_minutos with
      | None => Lanca OverflowError
      | Some hora_fim =>
          if tem_conflito horario hora_fim agendamentos_dia
          then filtra_horarios duracao_minutos agendamentos_dia resto
                 horarios_disponiveis
          else filtra_horarios duracao_minutos agendamentos_dia resto
                 (horarios_disponiveis ++ [PyTime.strftime_HM horario])
      end
  end.

(** [Configuracao.query.first()], or a transient [Configuracao()] when the
    table is empty. *)
Definition config_atual (db : DB) : Configuracao.t :=
  default Configuracao.novo (head (configuracoes db)).

(** GET of [horarios_disponiveis]. *)
Definition horarios_disponiveis (fuel : nat) (dentista_id : option Z)
  (data : data_arg) (servico_id : option Z) (db : DB) : exec json :=
  match dentista_id, data, servico_id with
  | Some dentista_id', Data data_selecionada, Some servico_id' =>
      if negb (id_truthy dentista_id && id_truthy servico_id)
      then Ret Erro_parametros_invalidos
      else
        match servicos db !! servico_id' with
        | None => Ret Erro_servico_nao_encontrado
        | Some servico =>
            let config := config_atual db in
            let dia_semana := PyTime.weekday data_selecionada in
            if negb (bool_truthy (dias_habilitados config dia_semana))
            then Ret Clinica_fechada
            else
              horarios_base ← gera_horarios_base fuel config data_selecionada;
              let agendamentos_dia :=
                (query_filter (filtro_dia dentista_id' data_selecionada) db).*2 in
              horarios ← filtra_horarios (Servico.duracao_minutos servico)
                           agendamentos_dia horarios_base [];
              Ret (Horarios horarios)
        end
  | Some _, Data_invalida, Some _ =>
      if negb (id_truthy dentista_id && id_truthy servico_id)
      then Ret Erro_parametros_invalidos
      else Ret Erro_data_invalida
  | _, _, _ => Ret Erro_parametros_invalidos
  end.

(** ** A small clinic to run the routes on *)

Definition config_padrao : Configuracao.t :=
  Configuracao.mk (Some "08:00") (Some "12:00") (Some "14:00") (Some "18:00")
    (Some 30)
    (Some true) (Some true) (Some true) (Some true) (Some true)
    (Some false) (Some false).

Definition limpeza : Servico.t := Servico.mk 30 true.
Definition clareamento : Servico.t := Servico.mk 60 true.

Definition clinica : DB :=
  mkDB {[ 1; 2 ]} {[ 1 := limpeza; 2 := clareamento ]}
    {[ 1 := Dentista.mk true ]} ∅ [config_padrao].

(** Monday 2026-11-09 *)
Definition segunda_feira : Z := 739929.

Definition as_8h30 : Z := PyTime.combine segunda_feira (60 * 8 + 30).

(** Monday 2026-11-02 10:00, a week earlier, when the requests below are
    submitted. *)
Definition semana_anterior : Z := PyTime.combine (segunda_feira - 7) (60 * 10).

(** ** Vocabulary of the specification, operations and sample data

    The predicates in which the properties are stated, the exposed
    operations as a datatype, and the stores, calendars and traces the
    properties are evaluated on. *)

(** Half-open overlap of [[s1,e1)] and [[s2,e2)]. *)
Definition sobrepoe (s1 e1 s2 e2 : Z) : Prop := s1 < e2 /\ s2 < e1.

(** Status Pending or Confirmed. *)
Definition ativo (a : Agendamento.t) : Prop :=
  Agendamento.status a = "pendente" \/ Agendamento.status a = "confirmado".

(** Status Cancelled or Completed. *)
Definition terminal (a : Agendamento.t) : Prop :=
  Agendamento.status a = "cancelado" \/ Agendamento.status a = "concluido".

(** [a] is a row of the practitioner's conflict set. *)
Definition na_agenda (db : DB) (dentista_id : Z) (a : Agendamento.t) : Prop :=
  exists id, agendamentos db !! id = Some a
    /\ Agendamento.dentista_id a = dentista_id /\ ativo a.

(** A pending appointment of patient 1 in the small clinic. *)
Definition consulta_pendente : Agendamento.t :=
  Agendamento.mk as_8h30 (as_8h30 + 30) "pendente" 1 1 1.

Definition clinica_com_consulta : DB :=
  com_agendamentos {[ 7 := consulta_pendente ]} clinica.

Definition consulta_cancelada : Agendamento.t :=
  Agendamento.set_status "cancelado" consulta_pendente.

Definition clinica_com_cancelada : DB :=
  com_agendamentos {[ 7 := consulta_cancelada ]} clinica.

(** A complete form. *)
Definition pedido (servico_id dentista_id inicio : Z) : Form.t :=
  Form.mk (Some servico_id) (Some dentista_id) (DH inicio).

(** Monday 2026-11-09 09:00, half an hour after the requested start. *)
Definition as_9h : Z := as_8h30 + 30.


(** No two distinct pending or confirmed rows of one practitioner overlap. *)
Definition agenda_consistente (db : DB) : Prop :=
  forall i j a b,
    i <> j ->
    agendamentos db !! i = Some a ->
    agendamentos db !! j = Some b ->
    Agendamento.dentista_id a = Agendamento.dentista_id b ->
    ativo a -> ativo b ->
    ~ sobrepoe (Agendamento.data_hora_inicio a) (Agendamento.data_hora_fim a)
        (Agendamento.data_hora_inicio b) (Agendamento.data_hora_fim b).

(** The operations the engine exposes, and their effect on the store. *)
Inductive operacao : Type :=
| Op_agendar (agora current_user_id : Z) (form : Form.t)
| Op_admin_novo_agendamento (paciente_id : option Z) (form : Form.t)
| Op_cancelar_agendamento (current_user_id id : Z)
| Op_atualizar_status_agendamento (id : Z) (novo_status : option string).

Definition executa (op : operacao) (db : DB) : resposta * DB :=
  match op with
  | Op_agendar agora u form => agendar agora u form db
  | Op_admin_novo_agendamento p form => admin_novo_agendamento p form db
  | Op_cancelar_agendamento u id => cancelar_agendamento u id db
  | Op_atualizar_status_agendamento id s => atualizar_status_agendamento id s db
  end.

Definition executa_todas (ops : list operacao) (db : DB) : DB :=
  fold_left (fun db op => (executa op db).2) ops db.

(** An operation re-activates when it sets a row that is neither pending nor
    confirmed to Confirmed. *)
Definition reativa (op : operacao) (db : DB) : Prop :=
  match op with
  | Op_atualizar_status_agendamento id (Some s) =>
      s = "confirmado"
      /\ exists a, agendamentos db !! id = Some a /\ ~ ativo a
  | _ => False
  end.

(** A trace without re-activation, checked at each intermediate store. *)
Fixpoint sem_reativacao (ops : list operacao) (db : DB) : Prop :=
  match ops with
  | [] => True
  | op :: ops => ~ reativa op db /\ sem_reativacao ops (executa op db).2
  end.

(** The three requests that double-book a practitioner after a booking
    that the store keeps under [id]: the administrator cancels that
    appointment, another patient books the slot it left with the same form,
    and the administrator sets the first appointment back to Confirmed. *)
Definition reativacao (agora current_user_id : Z) (form : Form.t) (id : Z)
  : list operacao :=
  [ Op_atualizar_status_agendamento id (Some "cancelado");
    Op_agendar agora current_user_id form;
    Op_atualizar_status_agendamento id (Some "confirmado") ].

(** ** Two requests at a time

    [agendar] reads the store once, with the conflict query of lines
    272-277, and writes it once, with the commit of line 295. It takes no
    lock and sets no isolation level, and [Agendamento] declares no
    constraint on the intervals of a practitioner, so each of the two
    statements sees the rows committed before it and nothing keeps a second
    request from running between them. *)

(** [agendar] up to its conflict query: the answer, when the route returns
    there, or the row it goes on to insert. *)
Definition agendar_verifica (agora current_user_id : Z) (form : Form.t)
  (db : DB) : resposta + Agendamento.t :=
  match Form.servico_id form, Form.dentista_id form, Form.data_hora form with
  | Some servico_id, Some dentista_id, DH data_hora_inicio =>
      if data_hora_inicio <=? agora then inl (Flash Datas_passadas)
      else
        match servicos db !! servico_id with
        | None => inl (Flash Servico_nao_encontrado)
        | Some servico =>
            match PyTime.dt_add data_hora_inicio
                    (Servico.duracao_minutos servico) with
            | None => inl (Http500 OverflowError)
            | Some data_hora_fim =>
                match conflito dentista_id data_hora_inicio data_hora_fim db with
                | Some _ => inl (Flash Horario_nao_disponivel)
                | None =>
                    inr (Agendamento.mk data_hora_inicio data_hora_fim
                           "pendente" current_user_id dentista_id servico_id)
                end
            end
        end
  | Some _, Some _, DH_invalida => inl (Flash Data_ou_hora_invalida)
  | _, _, _ => inl (Flash Preencha_campos_obrigatorios)
  end.

(** The rest of [agendar]: [db.session.add(novo_agendamento)] and the
    commit. *)
Definition agendar_grava (novo_agendamento : Agendamento.t) (db : DB)
  : resposta * DB :=
  match session_add_commit novo_agendamento db with
  | None => (Http500 IntegrityError, db)
  | Some (id, db') => (Flash (Agendamento_realizado id), db')
  end.

(** Where a request to [agendar] stands. *)
Inductive andamento : Type :=
| Recebido (agora current_user_id : Z) (form : Form.t)
| Verificado (novo_agendamento : Agendamento.t)  (* the query found no row *)
| Respondido (r : resposta).

(** The next statement of a request, run on the store as it is then. *)
Definition passo (p : andamento) (db : DB) : andamento * DB :=
  match p with
  | Recebido agora current_user_id form =>
      match agendar_verifica agora current_user_id form db with
      | inl r => (Respondido r, db)
      | inr novo_agendamento => (Verificado novo_agendamento, db)
      end
  | Verificado novo_agendamento =>
      ((Respondido (agendar_grava novo_agendamento db).1),
       (agendar_grava novo_agendamento db).2)
  | Respondido r => (Respondido r, db)
  end.

(** Two requests served at the same time: [vez] tells, step after step,
    which of the two runs its next statement ([true] for the first). *)
Fixpoint intercala (vez : list bool) (p1 p2 : andamento) (db : DB)
  : andamento * andamento * DB :=
  match vez with
  | [] => (p1, p2, db)
  | true :: vez => intercala vez (passo p1 db).1 p2 (passo p1 db).2
  | false :: vez => intercala vez p1 (passo p2 db).1 (passo p2 db).2
  end.

(** ** The calendar in the words of the specification *)



(** The timestamps [inicio], [inicio + intervalo], [inicio + 2*intervalo],
    ... that are strictly below [fim], for a positive [intervalo]. *)
Definition slots_turno (inicio fim intervalo : Z) : list Z :=
  List.map (fun k => inicio + Z.of_nat k * intervalo)
    (seq 0 (Z.to_nat ((fim - inicio + intervalo - 1) / intervalo))).

Definition com_config (config : Configuracao.t) (db : DB) : DB :=
  mkDB (usuarios db) (servicos db) (dentistas db) (agendamentos db) [config].

Definition com_intervalo (n : option Z) (c : Configuracao.t) : Configuracao.t :=
  Configuracao.mk
    (Configuracao.hora_inicio_manha c) (Configuracao.hora_fim_manha c)
    (Configuracao.hora_inicio_tarde c) (Configuracao.hora_fim_tarde c)
    n
    (Configuracao.segunda c) (Configuracao.terca c) (Configuracao.quarta c)
    (Configuracao.quinta c) (Configuracao.sexta c) (Configuracao.sabado c)
    (Configuracao.domingo c).


(** The default calendar with a stored interval of minus thirty minutes. *)
Definition config_negativo : Configuracao.t :=
  com_intervalo (Some (-30)) config_padrao.

(** The smallest interval a 32-bit integer column stores. *)
Definition config_int_min : Configuracao.t :=
  com_intervalo (Some (-2147483648)) config_padrao.

(** A calendar whose shifts end before they start, with a negative
    interval. *)
Definition config_invertido : Configuracao.t :=
  Configuracao.mk (Some "12:00") (Some "08:00") (Some "18:00") (Some "14:00")
    (Some (-30))
    (Some true) (Some true) (Some true) (Some true) (Some true)
    (Some false) (Some false).

(** What the read path guarantees for a returned time [s]: it is the
    ['%H:%M'] of a candidate [h] of the requested date whose end
    [h + duracao] is representable and which overlaps no pending or
    confirmed appointment of the practitioner that starts on that date. *)
Definition livre_no_dia (db : DB) (did d duracao : Z) (s : string) (h : Z)
  : Prop :=
  PyTime.strftime_HM h = s
  /\ PyTime.date_of h = d
  /\ PyTime.dt_add h duracao = Some (h + duracao)
  /\ forall a, na_agenda db did a ->
       PyTime.date_of (Agendamento.data_hora_inicio a) = d ->
       ~ sobrepoe h (h + duracao)
           (Agendamento.data_hora_inicio a) (Agendamento.data_hora_fim a).

(** Every pending or confirmed appointment of the practitioner ends by
    midnight of the date it starts on. *)
Definition termina_no_dia (db : DB) (did : Z) : Prop :=
  forall a, na_agenda db did a ->
    Agendamento.data_hora_fim a
    <= PyTime.combine (PyTime.date_of (Agendamento.data_hora_inicio a)) 1440.

(** The small clinic with a Confirmed appointment of practitioner 1 on
    Monday from 09:00 to 09:30. *)
Definition clinica_9h : DB :=
  com_agendamentos
    {[ 3 := Agendamento.mk as_9h (as_9h + 30) "confirmado" 2 1 1 ]} clinica.

Definition grade_sem_9h : list string :=
  [ "08:00"; "08:30"; "09:30"; "10:00"; "10:30"; "11:00"; "11:30";
    "14:00"; "14:30"; "15:00"; "15:30"; "16:00"; "16:30"; "17:00"; "17:30" ].






(** A calendar whose morning shift is the first hour of the day. *)
Definition config_madrugada : Configuracao.t :=
  Configuracao.mk (Some "00:00") (Some "01:00") (Some "14:00") (Some "18:00")
    (Some 30)
    (Some true) (Some true) (Some true) (Some true) (Some true)
    (Some false) (Some false).

Definition meia_noite : Z := PyTime.combine segunda_feira 0.

(** Patient 1 books Sunday 23:45 with practitioner 1; the 30-minute
    appointment ends on Monday at 00:15. *)
Definition clinica_virada : DB :=
  (agendar semana_anterior 1 (pedido 1 1 (meia_noite - 15))
     (com_config config_madrugada clinica)).2.

From stdpp Require Import sorting.

#[local] Open Scope string_scope.
#[local] Open Scope list_scope.
#[local] Open Scope Z_scope.

(** * The other routes of [app.py]

    The routes that maintain services, practitioners and the calendar, the
    listing routes and [Agendamento.get_status_badge], over the same tables,
    and the routes of the user accounts ([login], [register] and the
    administrator's patient pages) over the table [usuarios]. *)

(** ** What the store and its driver accept

    The database is PostgreSQL (the default [SQLALCHEMY_DATABASE_URI]),
    reached through psycopg2. *)
Module Pg.

(** The range of an [Integer] column. *)
Definition int4 (n : Z) : bool :=
  (-2147483648 <=? n) && (n <=? 2147483647).

(** The driver refuses a string parameter that holds a NUL character. *)
Definition sem_nul (s : string) : bool :=
  forallb (fun c => negb (Ascii.eqb c "000"%char)) (list_ascii_of_string s).

Definition so_espacos (s : string) : bool :=
  forallb (fun c => Ascii.eqb c " "%char) (list_ascii_of_string s).

(** Storing [s] in a [String(n)] column: a value of at most [n] characters
    is stored as it is; a longer one is an error, unless the characters in
    excess are all spaces, in which case it is cut to [n] characters. [None]
    stands for the exception raised at commit. *)
Definition varchar (n : nat) (s : string) : option string :=
  if negb (sem_nul s) then None
  else if (String.length s <=? n)%nat then Some s
  else if so_espacos (String.substring n (String.length s - n) s)
       then Some (String.substring 0 n s)
       else None.

End Pg.

(** More of [str] and of the request. *)
Module PyForm.

(** The characters [str.strip()] removes, among the code points below
    256. *)
Definition is_space (c : ascii) : bool :=
  let n := N_of_ascii c in
  (((9 <=? n) && (n <=? 13)) || ((28 <=? n) && (n <=? 32))
   || (n =? 133) || (n =? 160))%N.

Fixpoint lstrip (l : list ascii) : list ascii :=
  match l with
  | c :: r => if is_space c then lstrip r else l
  | [] => []
  end.

(** [s.strip()] *)
Definition strip (s : string) : string :=
  string_of_list_ascii
    (rev (lstrip (rev (lstrip (list_ascii_of_string s))))).

(** [c in s] for a character [c] *)
Definition contains (c : ascii) (s : string) : bool :=
  existsb (Ascii.eqb c) (list_ascii_of_string s).

Definition conta_digitos (s : string) : nat :=
  length (List.filter (fun c => bool_decide (is_Some (PyStr.digit_val c)))
            (list_ascii_of_string s)).

(** [request.form.get(campo, default, type=int)]: the default when the
    field is missing and when [int] raises ValueError, which it also does
    for a numeral of more than 4300 digits. *)
Definition get_int (campo : option string) (default : Z) : Z :=
  match campo with
  | None => default
  | Some s =>
      if (4300 <? conta_digitos s)%nat then default
      else match PyStr.py_int s with
           | Some n => n
           | None => default
           end
  end.

End PyForm.

(** The answers of these routes. *)
Inductive aviso : Type :=
| Servico_cadastrado
| Servico_atualizado
| Servico_com_agendamentos       (* 'Não é possível excluir este serviço ...' *)
| Servico_excluido
| Dentista_atualizado
| Dentista_com_agendamentos      (* 'Não é possível excluir este dentista ...' *)
| Dentista_excluido
| Configuracoes_atualizadas.

Inductive resposta_admin : Type :=
| Aviso (m : aviso)
| Pagina                         (* a GET: the form is rendered *)
| Nao_encontrado                 (* get_or_404 found no row *)
| Erro_interno.                  (* the commit raised; nothing of it is stored *)

Definition com_servicos (svs : gmap Z Servico.t) (db : DB) : DB :=
  mkDB (usuarios db) svs (dentistas db) (agendamentos db) (configuracoes db).

Definition com_dentistas (ds : gmap Z Dentista.t) (db : DB) : DB :=
  mkDB (usuarios db) (servicos db) ds (agendamentos db) (configuracoes db).

Definition com_configuracoes (cs : list Configuracao.t) (db : DB) : DB :=
  mkDB (usuarios db) (servicos db) (dentistas db) (agendamentos db) cs.

(** ** Services *)

(** The fields of the service form. The price is converted with [float],
    and whether the result fits the [Numeric(10, 2)] column is taken as an
    input of the request. *)
Module FormServico.
Record t : Type := mk {
  nome : string;
  descricao : string;
  duracao_minutos : option string;
  preco_cabe : bool;
  ativo : bool                   (* 'ativo' in request.form *)
}.
End FormServico.

(** Whether the store accepts the columns of a service written from
    [form]. *)
Definition servico_cabe (form : FormServico.t) : bool :=
  bool_decide (is_Some (Pg.varchar 100 (PyForm.strip (FormServico.nome form))))
  && Pg.sem_nul (PyForm.strip (FormServico.descricao form))
  && Pg.int4 (PyForm.get_int (FormServico.duracao_minutos form) 30)
  && FormServico.preco_cabe form.

(** POST to [novo_servico]; the new row takes the column default
    [ativo=True]. *)
Definition novo_servico (form : FormServico.t) (db : DB)
  : resposta_admin * DB :=
  if servico_cabe form then
    let id := fresh (dom (servicos db)) in
    let servico :=
      Servico.mk (PyForm.get_int (FormServico.duracao_minutos form) 30) true in
    (Aviso Servico_cadastrado, com_servicos (<[id := servico]> (servicos db)) db)
  else (Erro_interno, db).

(** POST to [editar_servico]. *)
Definition editar_servico (id : Z) (form : FormServico.t) (db : DB)
  : resposta_admin * DB :=
  match servicos db !! id with
  | None => (Nao_encontrado, db)
  | Some _ =>
      if servico_cabe form then
        let servico :=
          Servico.mk (PyForm.get_int (FormServico.duracao_minutos form) 30)
            (FormServico.ativo form) in
        (Aviso Servico_atualizado,
         com_servicos (<[id := servico]> (servicos db)) db)
      else (Erro_interno, db)
  end.

(** [servico.agendamentos], the rows that reference the service. *)
Definition agendamentos_do_servico (id : Z) (db : DB)
  : list (Z * Agendamento.t) :=
  query_filter (fun ag => Agendamento.servico_id ag =? id) db.

(** POST to [excluir_servico]. *)
Definition excluir_servico (id : Z) (db : DB) : resposta_admin * DB :=
  match servicos db !! id with
  | None => (Nao_encontrado, db)
  | Some _ =>
      match agendamentos_do_servico id db with
      | _ :: _ => (Aviso Servico_com_agendamentos, db)
      | [] => (Aviso Servico_excluido, com_servicos (delete id (servicos db)) db)
      end
  end.

(** ** Practitioners *)

Module FormDentista.
Record t : Type := mk {
  nome : string;
  especialidade : string;
  ativo : bool                   (* 'ativo' in request.form *)
}.
End FormDentista.

(** POST to [editar_dentista]. *)
Definition editar_dentista (id : Z) (form : FormDentista.t) (db : DB)
  : resposta_admin * DB :=
  match dentistas db !! id with
  | None => (Nao_encontrado, db)
  | Some _ =>
      if bool_decide
           (is_Some (Pg.varchar 100 (PyForm.strip (FormDentista.nome form))))
         && bool_decide
              (is_Some (Pg.varchar 100
                          (PyForm.strip (FormDentista.especialidade form))))
      then
        (Aviso Dentista_atualizado,
         com_dentistas
           (<[id := Dentista.mk (FormDentista.ativo form)]> (dentistas db)) db)
      else (Erro_interno, db)
  end.

(** [dentista.agendamentos] *)
Definition agendamentos_do_dentista (id : Z) (db : DB)
  : list (Z * Agendamento.t) :=
  query_filter (fun ag => Agendamento.dentista_id ag =? id) db.

(** POST to [excluir_dentista]. *)
Definition excluir_dentista (id : Z) (db : DB) : resposta_admin * DB :=
  match dentistas db !! id with
  | None => (Nao_encontrado, db)
  | Some _ =>
      match agendamentos_do_dentista id db with
      | _ :: _ => (Aviso Dentista_com_agendamentos, db)
      | [] =>
          (Aviso Dentista_excluido, com_dentistas (delete id (dentistas db)) db)
      end
  end.

(** ** The calendar, [admin_configuracoes] *)

(** The fields of the calendar form; a time or the interval is [None] when
    the field is missing. *)
Module FormConfig.
Record t : Type := mk {
  nome_clinica : string;
  telefone_clinica : string;
  endereco_clinica : string;
  hora_inicio_manha : option string;
  hora_fim_manha : option string;
  hora_inicio_tarde : option string;
  hora_fim_tarde : option string;
  intervalo_consultas : option string;
  segunda : bool;                (* 'segunda' in request.form, and so on *)
  terca : bool;
  quarta : bool;
  quinta : bool;
  sexta : bool;
  sabado : bool;
  domingo : bool
}.
End FormConfig.

(** The row [Configuracao()] becomes when it is inserted: every column
    modelled here has a default. *)
Definition configuracao_inserida : Configuracao.t := config_padrao.

(** The table after [Configuracao.query.first()] and, when it found no row,
    the insert and commit of a new one. *)
Definition garante_configuracao (db : DB) : DB :=
  match configuracoes db with
  | [] => com_configuracoes [configuracao_inserida] db
  | _ :: _ => db
  end.

(** The row written from [form]; [None] when the store refuses a value. *)
Definition configuracao_do_form (form : FormConfig.t) : option Configuracao.t :=
  _ ← Pg.varchar 200 (PyForm.strip (FormConfig.nome_clinica form));
  _ ← Pg.varchar 20 (PyForm.strip (FormConfig.telefone_clinica form));
  _ ← Pg.varchar 300 (PyForm.strip (FormConfig.endereco_clinica form));
  him ← Pg.varchar 5 (default "08:00" (FormConfig.hora_inicio_manha form));
  hfm ← Pg.varchar 5 (default "12:00" (FormConfig.hora_fim_manha form));
  hit ← Pg.varchar 5 (default "14:00" (FormConfig.hora_inicio_tarde form));
  hft ← Pg.varchar 5 (default "18:00" (FormConfig.hora_fim_tarde form));
  let intervalo := PyForm.get_int (FormConfig.intervalo_consultas form) 30 in
  if Pg.int4 intervalo then
    Some (Configuracao.mk (Some him) (Some hfm) (Some hit) (Some hft)
            (Some intervalo)
            (Some (FormConfig.segunda form)) (Some (FormConfig.terca form))
            (Some (FormConfig.quarta form)) (Some (FormConfig.quinta form))
            (Some (FormConfig.sexta form)) (Some (FormConfig.sabado form))
            (Some (FormConfig.domingo form)))
  else None.

(** [admin_configuracoes]: a GET ([None]) or a POST of the form. The row
    created when the table is empty is committed before the form is read, so
    it stays when the update fails. The table is meant to hold one row
    ("Deve existir apenas um registro nesta tabela"). [first()] asks for no
    order: the list is in the order in which the store returns the rows, and
    the store keeps the new version of the row it updates after the rows it
    leaves untouched. *)
Definition admin_configuracoes (post : option FormConfig.t) (db : DB)
  : resposta_admin * DB :=
  let db1 := garante_configuracao db in
  match post with
  | None => (Pagina, db1)
  | Some form =>
      match configuracao_do_form form with
      | Some config =>
          (Aviso Configuracoes_atualizadas,
           com_configuracoes (tail (configuracoes db1) ++ [config]) db1)
      | None => (Erro_interno, db1)
      end
  end.

(** ** Every operation that writes to the store *)

Inductive operacao_admin : Type :=
| Op_rota (op : operacao)
| Op_novo_servico (form : FormServico.t)
| Op_editar_servico (id : Z) (form : FormServico.t)
| Op_excluir_servico (id : Z)
| Op_editar_dentista (id : Z) (form : FormDentista.t)
| Op_excluir_dentista (id : Z)
| Op_admin_configuracoes (post : option FormConfig.t).

Definition executa_admin (op : operacao_admin) (db : DB) : DB :=
  match op with
  | Op_rota op => (executa op db).2
  | Op_novo_servico form => (novo_servico form db).2
  | Op_editar_servico id form => (editar_servico id form db).2
  | Op_excluir_servico id => (excluir_servico id db).2
  | Op_editar_dentista id form => (editar_dentista id form db).2
  | Op_excluir_dentista id => (excluir_dentista id db).2
  | Op_admin_configuracoes post => (admin_configuracoes post db).2
  end.

Definition executa_admin_todas (ops : list operacao_admin) (db : DB) : DB :=
  fold_left (fun db op => executa_admin op db) ops db.

(** Every appointment references a patient, a practitioner and a service
    that exist. *)
Definition integridade_referencial (db : DB) : Prop :=
  forall id a, agendamentos db !! id = Some a ->
    Agendamento.paciente_id a ∈ usuarios db
    /\ is_Some (dentistas db !! Agendamento.dentista_id a)
    /\ is_Some (servicos db !! Agendamento.servico_id a).

(** ** [Agendamento.get_status_badge] *)

Definition badges : list (string * string) :=
  [ ("pendente", "warning"); ("confirmado", "success");
    ("cancelado", "danger"); ("concluido", "info") ].

(** [d.get(key, default)] for a dict written as its list of items *)
Fixpoint dict_get (d : list (string * string)) (key default : string)
  : string :=
  match d with
  | [] => default
  | (k, v) :: d => if String.eqb k key then v else dict_get d key default
  end.

Definition get_status_badge (a : Agendamento.t) : string :=
  dict_get badges (Agendamento.status a) "secondary".

(** The status is one of the four the model documents. *)
Definition status_conhecido (a : Agendamento.t) : Prop :=
  ativo a \/ terminal a.

(** A re-activation among all the operations, and a trace without one. *)
Definition reativa_admin (op : operacao_admin) (db : DB) : Prop :=
  match op with
  | Op_rota op => reativa op db
  | _ => False
  end.

Fixpoint sem_reativacao_admin (ops : list operacao_admin) (db : DB) : Prop :=
  match ops with
  | [] => True
  | op :: ops =>
      ~ reativa_admin op db /\ sem_reativacao_admin ops (executa_admin op db)
  end.

(** A service form that sets the duration to [n] minutes. *)
Definition form_servico_duracao (n : string) : FormServico.t :=
  FormServico.mk "Consulta" "" (Some n) true true.

(** The checkbox of the calendar form for a weekday, 0 = Monday. *)
Definition dia_do_form (form : FormConfig.t) (dia_semana : Z) : bool :=
  match dia_semana with
  | 0 => FormConfig.segunda form
  | 1 => FormConfig.terca form
  | 2 => FormConfig.quarta form
  | 3 => FormConfig.quinta form
  | 4 => FormConfig.sexta form
  | 5 => FormConfig.sabado form
  | 6 => FormConfig.domingo form
  | _ => false
  end.

(** A calendar form that leaves the times at their defaults and posts the
    interval [n]. *)
Definition form_config_intervalo (n : string) : FormConfig.t :=
  FormConfig.mk "DentalSystem" "" "" None None None None (Some n)
    true true true true true false false.

(** Reading back with [parse_hora] the ['%H:%M'] of minute [k] of a day. *)
Definition confere_ida_volta (k : nat) : bool :=
  bool_decide (parse_hora (PyTime.strftime_HM (Z.of_nat k))
               = (Z.of_nat k / 60, Z.of_nat k mod 60)).

(** ** The listing routes *)

(** [order_by(Agendamento.data_hora_inicio)] and its [.desc()]: the rows
    sorted by start; the order among rows of equal start is left to the
    store. *)
Definition inicio_le (r1 r2 : Z * Agendamento.t) : Prop :=
  Agendamento.data_hora_inicio r1.2 <= Agendamento.data_hora_inicio r2.2.

Definition inicio_ge (r1 r2 : Z * Agendamento.t) : Prop :=
  Agendamento.data_hora_inicio r2.2 <= Agendamento.data_hora_inicio r1.2.

#[global] Instance inicio_le_dec r1 r2 : Decision (inicio_le r1 r2).
Proof. unfold inicio_le. apply _. Defined.

#[global] Instance inicio_ge_dec r1 r2 : Decision (inicio_ge r1 r2).
Proof. unfold inicio_ge. apply _. Defined.

Definition order_by_inicio (l : list (Z * Agendamento.t))
  : list (Z * Agendamento.t) :=
  merge_sort inicio_le l.

Definition order_by_inicio_desc (l : list (Z * Agendamento.t))
  : list (Z * Agendamento.t) :=
  merge_sort inicio_ge l.

(** One minute, in the microseconds of [datetime.now()]. *)
Definition minuto_us : Z := 60000000.

(** [paciente_dashboard]: the next five appointments of the logged-in
    patient, the number of all their appointments and the number of the
    confirmed ones. [agora_us] is [datetime.now()] in microseconds since
    [datetime.min]. *)
Definition paciente_dashboard (agora_us current_user_id : Z) (db : DB)
  : list (Z * Agendamento.t) * nat * nat :=
  let agendamentos :=
    take 5
      (order_by_inicio
         (query_filter
            (fun ag =>
               (Agendamento.paciente_id ag =? current_user_id)
               && (Agendamento.data_hora_inicio ag * minuto_us >=? agora_us))
            db)) in
  let total_agendamentos :=
    length (query_filter
              (fun ag => Agendamento.paciente_id ag =? current_user_id) db) in
  let agendamentos_confirmados :=
    length (query_filter
              (fun ag =>
                 (Agendamento.paciente_id ag =? current_user_id)
                 && String.eqb (Agendamento.status ag) "confirmado") db) in
  (agendamentos, total_agendamentos, agendamentos_confirmados).

(** [meus_agendamentos]: every appointment of the logged-in patient, latest
    first. *)
Definition meus_agendamentos (current_user_id : Z) (db : DB)
  : list (Z * Agendamento.t) :=
  order_by_inicio_desc
    (query_filter
       (fun ag => Agendamento.paciente_id ag =? current_user_id) db).

(** [ver_paciente]: [None] stands for the 404 of [get_or_404]. *)
Definition ver_paciente (id : Z) (db : DB)
  : option (list (Z * Agendamento.t)) :=
  if bool_decide (id ∈ usuarios db)
  then Some (order_by_inicio_desc
               (query_filter (fun ag => Agendamento.paciente_id ag =? id) db))
  else None.

(** The [data] argument of [admin_agenda]. *)
Inductive filtro_data : Type :=
| FD_ausente                  (* no argument: today's date is used *)
| FD_vazia                    (* the empty string *)
| FD_invalida                 (* strptime raises ValueError, which is passed *)
| FD (data : Z).              (* datetime.strptime(data_filtro, '%Y-%m-%d').date() *)

(** The date [admin_agenda] filters on, if any; [hoje] is
    [datetime.now()]'s date. *)
Definition data_do_filtro (hoje : Z) (f : filtro_data) : option Z :=
  match f with
  | FD_ausente => Some hoje
  | FD_vazia | FD_invalida => None
  | FD d => Some d
  end.

(** An optional argument, taken as absent when it is the empty string. *)
Definition arg_truthy (o : option string) : option string :=
  match o with
  | Some (String c r) => Some (String c r)
  | Some EmptyString | None => None
  end.

(** The [dentista_id] argument of [admin_agenda], a string that the store
    compares with an integer column. *)
Inductive filtro_dentista : Type :=
| FDt_ausente                 (* missing or empty *)
| FDt_invalido                (* not the text of an integer: the store refuses it *)
| FDt (n : Z).                (* the text of the integer n *)

Definition filtro_agenda (data : option Z) (dentista : option Z)
  (status : option string) (ag : Agendamento.t) : bool :=
  match data with
  | Some d => PyTime.date_of (Agendamento.data_hora_inicio ag) =? d
  | None => true
  end
  && match dentista with
     | Some did => Agendamento.dentista_id ag =? did
     | None => true
     end
  && match status with
     | Some s => String.eqb (Agendamento.status ag) s
     | None => true
     end.

(** [admin_agenda]: the rows shown; [None] stands for the exception of the
    query, raised when the status argument holds a NUL character or the
    practitioner argument is not the text of a 32-bit integer. [hoje] is the
    date of [datetime.now()], of a four-digit year. *)
Definition admin_agenda (hoje : Z) (data_filtro : filtro_data)
  (dentista_filtro : filtro_dentista) (status_filtro : option string)
  (db : DB) : option (list (Z * Agendamento.t)) :=
  let status := arg_truthy status_filtro in
  let lista dentista :=
    if match status with Some s => Pg.sem_nul s | None => true end
    then Some (order_by_inicio
                 (query_filter
                    (filtro_agenda (data_do_filtro hoje data_filtro)
                       dentista status) db))
    else None in
  match dentista_filtro with
  | FDt_ausente => lista None
  | FDt_invalido => None
  | FDt n => if Pg.int4 n then lista (Some n) else None
  end.

(** ** Users: [Usuario], [login], [register] and the patient routes *)

Module Usuario.
Record t : Type := mk {
  nome : string;
  email : string;
  senha_hash : string;
  perfil : string;
  telefone : option string;
  cpf : option string;
  ativo : option bool
}.

(** [Usuario.is_admin] *)
Definition is_admin (u : t) : bool := String.eqb (perfil u) "admin".

Definition set_ativo (b : option bool) (u : t) : t :=
  mk (nome u) (email u) (senha_hash u) (perfil u) (telefone u) (cpf u) b.
End Usuario.

(** The table [usuarios], by primary key. *)
Abbreviation tabela_usuarios := (gmap Z Usuario.t) (only parsing).

(** werkzeug's [generate_password_hash] and [check_password_hash]. The salt
    that [generate_password_hash] draws is its first argument here. *)
Class Senhas : Type := {
  generate_password_hash : string -> string -> string;
  check_password_hash : string -> string -> bool
}.

(** [Usuario.query.filter_by(email=email).first()] *)
Definition usuario_por_email (email : string) (us : tabela_usuarios)
  : option (Z * Usuario.t) :=
  head (List.filter (fun r => String.eqb (Usuario.email r.2) email)
          (map_to_list us)).

Definition tem_cpf (cpf : string) (u : Usuario.t) : bool :=
  match Usuario.cpf u with
  | Some c => String.eqb c cpf
  | None => false
  end.

(** [Usuario.query.filter_by(cpf=cpf).first()] *)
Definition usuario_por_cpf (cpf : string) (us : tabela_usuarios)
  : option (Z * Usuario.t) :=
  head (List.filter (fun r => tem_cpf cpf r.2) (map_to_list us)).

Definition varchar_opcional (n : nat) (o : option string)
  : option (option string) :=
  match o with
  | Some s => s' ← Pg.varchar n s; Some (Some s')
  | None => Some None
  end.

(** The columns of a row of [usuarios] as the store keeps them; [None]
    stands for the exception raised for a value that does not fit its
    column. *)
Definition armazena_usuario (u : Usuario.t) : option Usuario.t :=
  nome ← Pg.varchar 100 (Usuario.nome u);
  email ← Pg.varchar 100 (Usuario.email u);
  senha_hash ← Pg.varchar 256 (Usuario.senha_hash u);
  perfil ← Pg.varchar 20 (Usuario.perfil u);
  telefone ← varchar_opcional 20 (Usuario.telefone u);
  cpf ← varchar_opcional 14 (Usuario.cpf u);
  Some (Usuario.mk nome email senha_hash perfil telefone cpf (Usuario.ativo u)).

(** The two [unique=True] columns of [Usuario]: no stored row has the email
    of [u], nor its CPF when it has one. *)
Definition unico (u : Usuario.t) (us : tabela_usuarios) : bool :=
  forallb
    (fun r =>
       negb (String.eqb (Usuario.email r.2) (Usuario.email u))
       && match Usuario.cpf u with
          | Some c => negb (tem_cpf c r.2)
          | None => true
          end)
    (map_to_list us).

Inductive erro_cadastro : Type :=
| Nome_curto              (* 'Nome deve ter pelo menos 3 caracteres.' *)
| Email_invalido          (* 'Email inválido.' *)
| Email_ja_cadastrado     (* 'Este email já está cadastrado.' *)
| Cpf_ja_cadastrado       (* 'Este CPF já está cadastrado.' *)
| Senha_curta             (* 'A senha deve ter pelo menos 6 caracteres.' *)
| Senhas_nao_conferem.    (* 'As senhas não conferem.' *)

Inductive resposta_cadastro : Type :=
| Redireciona_index               (* the visitor is already logged in *)
| Formulario                      (* a GET *)
| Erros (erros : list erro_cadastro)
| Cadastro_realizado
| Excecao_parametro               (* the driver refuses a query parameter *)
| Excecao_dados                   (* a value does not fit its column *)
| Excecao_unicidade.              (* IntegrityError of a unique column *)

(** [db.session.add(novo_usuario); db.session.commit()] *)
Definition insere_usuario (u : Usuario.t) (us : tabela_usuarios)
  : resposta_cadastro * tabela_usuarios :=
  match armazena_usuario u with
  | None => (Excecao_dados, us)
  | Some u' =>
      if unico u' us
      then (Cadastro_realizado, <[fresh (dom us) := u']> us)
      else (Excecao_unicidade, us)
  end.

(** The fields of the forms of [register] and [novo_paciente]; a missing
    field is the empty string, as [request.form.get(campo, '')] has it. *)
Module FormCadastro.
Record t : Type := mk {
  nome : string;
  email : string;
  telefone : string;
  cpf : string;
  senha : string;
  confirmar_senha : string
}.
End FormCadastro.

(** The validations of [register]; those of [novo_paciente] are the same
    without the last one ([confirmar = None]). [None] stands for the
    exception of a query whose parameter holds a NUL character. *)
Definition erros_cadastro (nome email cpf senha : string)
  (confirmar : option string) (us : tabela_usuarios)
  : option (list erro_cadastro) :=
  let erros_nome :=
    if String.eqb nome "" || (String.length nome <? 3)%nat
    then [Nome_curto] else [] in
  erros_email ←
    (if String.eqb email "" || negb (PyForm.contains "@" email)
     then Some [Email_invalido]
     else if negb (Pg.sem_nul email) then None
     else if bool_decide (is_Some (usuario_por_email email us))
          then Some [Email_ja_cadastrado]
          else Some []);
  erros_cpf ←
    (if String.eqb cpf "" then Some []
     else if negb (Pg.sem_nul cpf) then None
     else if bool_decide (is_Some (usuario_por_cpf cpf us))
          then Some [Cpf_ja_cadastrado]
          else Some []);
  let erros_senha :=
    if (String.length senha <? 6)%nat then [Senha_curta] else [] in
  let erros_confirmar :=
    match confirmar with
    | Some confirmar_senha =>
        if negb (String.eqb senha confirmar_senha)
        then [Senhas_nao_conferem] else []
    | None => []
    end in
  Some (erros_nome ++ erros_email ++ erros_cpf ++ erros_senha
        ++ erros_confirmar).

(** [Usuario(nome=..., perfil='paciente')] followed by [set_password]; the
    column default makes the row active. *)
Definition novo_usuario `{Senhas} (salt nome email telefone cpf senha : string)
  : Usuario.t :=
  Usuario.mk nome email (generate_password_hash salt senha) "paciente"
    (Some telefone)
    (if String.eqb cpf "" then None else Some cpf)
    (Some true).

Definition cadastra `{Senhas} (salt : string) (form : FormCadastro.t)
  (confirmar : option string) (us : tabela_usuarios)
  : resposta_cadastro * tabela_usuarios :=
  let nome := PyForm.strip (FormCadastro.nome form) in
  let email := PyForm.strip (FormCadastro.email form) in
  let telefone := PyForm.strip (FormCadastro.telefone form) in
  let cpf := PyForm.strip (FormCadastro.cpf form) in
  let senha := FormCadastro.senha form in
  match erros_cadastro nome email cpf senha confirmar us with
  | None => (Excecao_parametro, us)
  | Some [] =>
      insere_usuario (novo_usuario salt nome email telefone cpf senha) us
  | Some erros => (Erros erros, us)
  end.

(** [register]: [autenticado] is [current_user.is_authenticated], [post] the
    form of a POST. *)
Definition register `{Senhas} (autenticado : bool)
  (post : option FormCadastro.t) (salt : string) (us : tabela_usuarios)
  : resposta_cadastro * tabela_usuarios :=
  if autenticado then (Redireciona_index, us)
  else match post with
       | Some form =>
           cadastra salt form (Some (FormCadastro.confirmar_senha form)) us
       | None => (Formulario, us)
       end.

(** [novo_paciente], reached by an administrator. *)
Definition novo_paciente `{Senhas} (post : option FormCadastro.t)
  (salt : string) (us : tabela_usuarios)
  : resposta_cadastro * tabela_usuarios :=
  match post with
  | Some form => cadastra salt form None us
  | None => (Formulario, us)
  end.

Inductive resposta_login : Type :=
| Login_redireciona_index         (* the visitor is already logged in *)
| Login_formulario                (* a GET *)
| Login_ok (id : Z)               (* login_user(usuario) *)
| Conta_desativada                (* 'Sua conta está desativada. ...' *)
| Email_ou_senha_invalidos        (* 'Email ou senha inválidos.' *)
| Login_excecao.                  (* the driver refuses the query parameter *)

(** [login]; [post] holds the fields [email] and [senha] of a POST. *)
Definition login `{Senhas} (autenticado : bool)
  (post : option (string * string)) (us : tabela_usuarios) : resposta_login :=
  if autenticado then Login_redireciona_index
  else match post with
       | None => Login_formulario
       | Some (email_form, senha) =>
           let email := PyForm.strip email_form in
           if negb (Pg.sem_nul email) then Login_excecao
           else match usuario_por_email email us with
                | Some (id, usuario) =>
                    if check_password_hash (Usuario.senha_hash usuario) senha
                    then if negb (bool_truthy (Usuario.ativo usuario))
                         then Conta_desativada
                         else Login_ok id
                    else Email_ou_senha_invalidos
                | None => Email_ou_senha_invalidos
                end
       end.

(** [toggle_paciente_status]; [None] stands for the 404. *)
Definition toggle_paciente_status (id : Z) (us : tabela_usuarios)
  : option tabela_usuarios :=
  match us !! id with
  | Some paciente =>
      Some (<[id := Usuario.set_ativo
                      (Some (negb (bool_truthy (Usuario.ativo paciente))))
                      paciente]> us)
  | None => None
  end.

(** The form of [editar_paciente]. *)
Module FormPaciente.
Record t : Type := mk {
  nome : string;
  telefone : string;
  senha : string;
  ativo : bool                   (* 'ativo' in request.form *)
}.
End FormPaciente.

Inductive resposta_paciente : Type :=
| Paciente_atualizado (senha_atualizada : bool)
| Paciente_formulario
| Paciente_nao_encontrado
| Paciente_excecao.               (* the commit raised; nothing is stored *)

(** [editar_paciente]: the commit writes the three columns assigned, as the
    store keeps them, and [ativo]. *)
Definition editar_paciente `{Senhas} (id : Z) (post : option FormPaciente.t)
  (salt : string) (us : tabela_usuarios)
  : resposta_paciente * tabela_usuarios :=
  match us !! id with
  | None => (Paciente_nao_encontrado, us)
  | Some paciente =>
      match post with
      | None => (Paciente_formulario, us)
      | Some form =>
          let nome := PyForm.strip (FormPaciente.nome form) in
          let telefone := PyForm.strip (FormPaciente.telefone form) in
          let nova_senha := PyForm.strip (FormPaciente.senha form) in
          let troca :=
            negb (String.eqb nova_senha "")
            && (6 <=? String.length nova_senha)%nat in
          match
            nome' ← Pg.varchar 100 nome;
            telefone' ← Pg.varchar 20 telefone;
            senha_hash ←
              (if troca
               then Pg.varchar 256 (generate_password_hash salt nova_senha)
               else Some (Usuario.senha_hash paciente));
            Some (Usuario.mk nome' (Usuario.email paciente) senha_hash
                    (Usuario.perfil paciente) (Some telefone')
                    (Usuario.cpf paciente) (Some (FormPaciente.ativo form)))
          with
          | Some paciente' =>
              (Paciente_atualizado troca, <[id := paciente']> us)
          | None => (Paciente_excecao, us)
          end
      end
  end.

(** [admin_pacientes]: the rows listed. *)
Definition admin_pacientes (us : tabela_usuarios) : list (Z * Usuario.t) :=
  List.filter (fun r => String.eqb (Usuario.perfil r.2) "paciente")
    (map_to_list us).

(** [admin_required]: whether the decorated route is entered. *)
Definition admin_required (current_user : option Usuario.t) : bool :=
  match current_user with
  | Some u => Usuario.is_admin u
  | None => false
  end.

(** The requests that write to [usuarios]. *)
Inductive operacao_usuarios : Type :=
| Op_register (autenticado : bool) (post : option FormCadastro.t)
    (salt : string)
| Op_novo_paciente (post : option FormCadastro.t) (salt : string)
| Op_editar_paciente (id : Z) (post : option FormPaciente.t) (salt : string)
| Op_toggle_paciente_status (id : Z).

Definition executa_usuarios `{Senhas} (op : operacao_usuarios)
  (us : tabela_usuarios) : tabela_usuarios :=
  match op with
  | Op_register autenticado post salt => (register autenticado post salt us).2
  | Op_novo_paciente post salt => (novo_paciente post salt us).2
  | Op_editar_paciente id post salt => (editar_paciente id post salt us).2
  | Op_toggle_paciente_status id =>
      match toggle_paciente_status id us with
      | Some us' => us'
      | None => us
      end
  end.

Definition executa_usuarios_todas `{Senhas} (ops : list operacao_usuarios)
  (us : tabela_usuarios) : tabela_usuarios :=
  foldl (fun us op => executa_usuarios op us) us ops.

(** The unique constraints of [usuarios], as a property of a table. *)
Definition emails_unicos (us : tabela_usuarios) : Prop :=
  forall i j u v,
    us !! i = Some u -> us !! j = Some v ->
    Usuario.email u = Usuario.email v -> i = j.

(** A stand-in for werkzeug in the examples: the digest of a password is
    its first 32 characters, whatever the salt. *)
Definition senhas_exemplo : Senhas :=
  {| generate_password_hash := fun _ senha => String.substring 0 32 senha;
     check_password_hash :=
       fun pwhash senha => String.eqb pwhash (String.substring 0 32 senha) |}.

(** An administrator and a patient. *)
Definition usuarios_exemplo : tabela_usuarios :=
  {[ 1 := Usuario.mk "Admin" "admin@dental.com" "admin123" "admin"
            None None (Some true);
     2 := Usuario.mk "Ana Souza" "ana@email.com" "segredo1" "paciente"
            (Some "") None (Some true) ]}.

Definition form_bruno : FormCadastro.t :=
  FormCadastro.mk "Bruno Lima" " bruno@email.com " "" "" "senha123" "senha123".

(** ** Effects and examples *)

(** What a route of [executa] does to the store: nothing, one new row with
    an unused key accepted by the foreign keys, or a new status for one
    row. *)
Inductive efeito (db : DB) : DB -> Prop :=
| efeito_nada : efeito db db
| efeito_insere a id db' :
    session_add_commit a db = Some (id, db') ->
    ativo a ->
    efeito db db'
| efeito_status id a s :
    agendamentos db !! id = Some a ->
    s = "confirmado" \/ s = "cancelado" \/ s = "concluido" ->
    efeito db
      (com_agendamentos
         (<[id := Agendamento.set_status s a]> (agendamentos db)) db).

(** A session of the administrator: a service is created, service 1 is
    edited, the deletion of service 1 and of practitioner 1 is tried, the
    calendar is saved, and a patient books. *)
Definition form_servico_45 : FormServico.t :=
  FormServico.mk "Restauracao" "" (Some "45") true true.

Definition form_config_padrao : FormConfig.t :=
  FormConfig.mk "DentalSystem" "" "" (Some "08:00") (Some "12:00")
    (Some "14:00") (Some "18:00") (Some "30")
    true true true true true false false.

Definition sessao_admin : list operacao_admin :=
  [ Op_novo_servico form_servico_45;
    Op_editar_servico 1 form_servico_45;
    Op_excluir_servico 1;
    Op_excluir_dentista 1;
    Op_admin_configuracoes (Some form_config_padrao);
    Op_rota (Op_agendar semana_anterior 1 (pedido 1 1 as_8h30)) ].

(** The small clinic with a service of duration zero. *)
Definition clinica_duracao_zero : DB :=
  (novo_servico (form_servico_duracao "0") clinica).2.

(** * Properties *)

(** ** The library model on sample values *)

Example py_int_08 : PyStr.py_int "08" = Some 8.
Proof. reflexivity. Qed.
Example py_int_signed : PyStr.py_int " -1_0 " = Some (-10).
Proof. reflexivity. Qed.
Example py_int_bad : PyStr.py_int "1__0" = None /\ PyStr.py_int "8_" = None
  /\ PyStr.py_int "+" = None /\ PyStr.py_int "" = None.
Proof. repeat split; reflexivity. Qed.
Example split_hm : PyStr.split ":" "08:00" = ["08"; "00"].
Proof. reflexivity. Qed.
Example strftime_0805 : PyTime.strftime_HM (PyTime.combine 739929 (60 * 8 + 5)) = "08:05".
Proof. reflexivity. Qed.
Example weekday_monday : PyTime.weekday 739929 = 0.
Proof. reflexivity. Qed.

(** One step of a computation in [exec]. *)
Ltac exec_step := cbn [mbind exec_bind mret exec_ret] in *.

(** ** Helper lemmas on the string tests and the queries *)


Lemma dt_add_inv t n r :
  PyTime.dt_add t n = Some r ->
  r = t + n /\ PyTime.dt_min <= t + n <= PyTime.dt_max.
Proof.
  unfold PyTime.dt_add, PyTime.in_range.
  destruct (_ <=? _) eqn:E1; [|discriminate].
  destruct (_ <=? PyTime.dt_max) eqn:E2; [|discriminate]. simpl.
  intros H; inversion H. apply Z.leb_le in E1, E2. auto.
Qed.

Lemma in_list_ativos (s : string) :
  PyStr.in_list s status_ativos = true <-> s = "pendente" \/ s = "confirmado".
Proof.
  unfold PyStr.in_list, status_ativos; simpl.
  rewrite !orb_true_iff, !String.eqb_eq. intuition discriminate.
Qed.

Lemma in_list_terminais (s : string) :
  PyStr.in_list s ["cancelado"; "concluido"] = true
  <-> s = "cancelado" \/ s = "concluido".
Proof.
  unfold PyStr.in_list; simpl.
  rewrite !orb_true_iff, !String.eqb_eq. intuition discriminate.
Qed.

Lemma in_list_novos (s : string) :
  PyStr.in_list s ["confirmado"; "cancelado"; "concluido"] = true
  <-> s = "confirmado" \/ s = "cancelado" \/ s = "concluido".
Proof.
  unfold PyStr.in_list; simpl.
  rewrite !orb_true_iff, !String.eqb_eq. intuition discriminate.
Qed.

Lemma query_filter_elem (f : Agendamento.t -> bool) (db : DB) id a :
  (id, a) ∈ query_filter f db <-> agendamentos db !! id = Some a /\ f a = true.
Proof.
  unfold query_filter.
  rewrite list_elem_of_In, filter_In, <- list_elem_of_In, elem_of_map_to_list.
  reflexivity.
Qed.

Lemma head_is_Some_elem {A : Type} (l : list A) :
  is_Some (head l) <-> exists x, x ∈ l.
Proof.
  destruct l as [|x l]; simpl; split.
  - intros [y Hy]; discriminate.
  - intros [y Hy]. inversion Hy.
  - intros _. exists x. left.
  - intros _. eauto.
Qed.

Lemma filtro_conflito_true dentista_id inicio fim a :
  filtro_conflito dentista_id inicio fim a = true
  <-> Agendamento.dentista_id a = dentista_id /\ ativo a
      /\ sobrepoe inicio fim
           (Agendamento.data_hora_inicio a) (Agendamento.data_hora_fim a).
Proof.
  unfold filtro_conflito, ativo, sobrepoe.
  rewrite !andb_true_iff, in_list_ativos, Z.eqb_eq, Z.ltb_lt, Z.gtb_gt.
  intuition lia.
Qed.

Lemma conflito_is_Some dentista_id inicio fim db :
  is_Some (conflito dentista_id inicio fim db)
  <-> exists a, na_agenda db dentista_id a
        /\ sobrepoe inicio fim
             (Agendamento.data_hora_inicio a) (Agendamento.data_hora_fim a).
Proof.
  unfold conflito, na_agenda. rewrite head_is_Some_elem. split.
  - intros [[id a] H]. apply query_filter_elem in H as [Hl Hf].
    apply filtro_conflito_true in Hf as (Hd & Ha & Ho). eauto 6.
  - intros (a & (id & Hl & Hd & Ha) & Ho). exists (id, a).
    apply query_filter_elem. split; [done|].
    apply filtro_conflito_true. auto.
Qed.

Lemma conflito_None dentista_id inicio fim db :
  conflito dentista_id inicio fim db = None
  <-> forall a, na_agenda db dentista_id a ->
        ~ sobrepoe inicio fim
            (Agendamento.data_hora_inicio a) (Agendamento.data_hora_fim a).
Proof.
  rewrite eq_None_not_Some, conflito_is_Some. split.
  - intros H a Ha Ho. apply H. eauto.
  - intros H (a & Ha & Ho). exact (H a Ha Ho).
Qed.

Lemma tem_conflito_true horario hora_fim (ags : list Agendamento.t) :
  tem_conflito horario hora_fim ags = true
  <-> exists a, a ∈ ags
        /\ sobrepoe horario hora_fim
             (Agendamento.data_hora_inicio a) (Agendamento.data_hora_fim a).
Proof.
  unfold sobrepoe. induction ags as [|ag ags IH]; simpl.
  - split; [discriminate|]. intros (a & Ha & _). inversion Ha.
  - destruct (horario <? Agendamento.data_hora_fim ag) eqn:E1;
      destruct (hora_fim >? Agendamento.data_hora_inicio ag) eqn:E2; simpl;
      rewrite ?Z.ltb_lt, ?Z.ltb_ge, ?Z.gtb_gt in E1, E2.
    1: { split; [|done]. intros _. exists ag. split; [left|lia]. }
    all: rewrite IH; split;
      [ intros (a & Ha & Ho); exists a; split; [by right|done]
      | intros (a & Ha & Ho); apply elem_of_cons in Ha as [->|Ha];
        [ rewrite ?Z.gtb_ltb, ?Z.ltb_ge in E2; lia | eauto ] ].
Qed.

(** The rows of the four routes that write appointments. *)
Lemma session_add_commit_inv a db id db' :
  session_add_commit a db = Some (id, db') ->
  Agendamento.paciente_id a ∈ usuarios db
  /\ is_Some (dentistas db !! Agendamento.dentista_id a)
  /\ is_Some (servicos db !! Agendamento.servico_id a)
  /\ id = fresh (dom (agendamentos db))
  /\ agendamentos db !! id = None
  /\ db' = com_agendamentos (<[id := a]> (agendamentos db)) db.
Proof.
  unfold session_add_commit.
  destruct (bool_decide (Agendamento.paciente_id a ∈ usuarios db)) eqn:E1;
    [|discriminate].
  destruct (bool_decide (is_Some (dentistas db !! _))) eqn:E2; [|discriminate].
  destruct (bool_decide (is_Some (servicos db !! _))) eqn:E3; [|discriminate].
  simpl. intros H; inversion H; subst.
  apply bool_decide_eq_true in E1, E2, E3.
  repeat split; try done.
  apply not_elem_of_dom. apply is_fresh.
Qed.

Lemma agendar_sucesso agora u sid did t id db db' :
  agendar agora u (pedido sid did t) db
  = (Flash (Agendamento_realizado id), db') ->
  exists sv fim,
    agora < t
    /\ servicos db !! sid = Some sv
    /\ PyTime.dt_add t (Servico.duracao_minutos sv) = Some fim
    /\ fim = t + Servico.duracao_minutos sv
    /\ conflito did t fim db = None
    /\ session_add_commit (Agendamento.mk t fim "pendente" u did sid) db
       = Some (id, db').
Proof.
  unfold agendar, pedido; simpl.
  destruct (Z.leb_spec t agora) as [Hle|Hgt]; [discriminate|].
  destruct (servicos db !! sid) as [sv|]; [|discriminate].
  destruct (PyTime.dt_add t _) as [fim|] eqn:Ha; [|discriminate].
  destruct (conflito did t fim db) eqn:Hc; [discriminate|].
  destruct (session_add_commit _ db) as [[id' db'']|] eqn:Hadd; [|discriminate].
  intros H; inversion H; subst id' db''.
  exists sv, fim. apply dt_add_inv in Ha as Hfim. destruct Hfim as [Hfim _].
  subst fim. repeat split; try done; lia.
Qed.

(** ** The conflict check (C4) *)

(** C4. The conflict check reports a conflict exactly when some appointment
    [a] of the list it is given satisfies [candidateStart < a.end] and
    [a.start < candidateEnd]: this holds for the loop of the read path over
    any list, and the query of the write path finds a row exactly when such
    an appointment is in the practitioner's pending or confirmed rows. Against
    the empty list the check is false, and an appointment that only touches
    the candidate ([candidateStart = a.end] or [candidateEnd = a.start]) is
    never the reason for a conflict. *)
Theorem conflict_check_half_open :
  (forall s e (existing : list Agendamento.t),
      tem_conflito s e existing = true
      <-> exists a, a ∈ existing
            /\ s < Agendamento.data_hora_fim a
            /\ Agendamento.data_hora_inicio a < e)
  /\ (forall dentista_id s e db,
      is_Some (conflito dentista_id s e db)
      <-> exists a, na_agenda db dentista_id a
            /\ s < Agendamento.data_hora_fim a
            /\ Agendamento.data_hora_inicio a < e)
  /\ (forall s e, tem_conflito s e [] = false)
  /\ (forall a e existing,
      tem_conflito (Agendamento.data_hora_fim a) e (a :: existing)
      = tem_conflito (Agendamento.data_hora_fim a) e existing)
  /\ (forall a s existing,
      tem_conflito s (Agendamento.data_hora_inicio a) (a :: existing)
      = tem_conflito s (Agendamento.data_hora_inicio a) existing)
  /\ (forall a e, tem_conflito (Agendamento.data_hora_fim a) e [a] = false)
  /\ (forall a s, tem_conflito s (Agendamento.data_hora_inicio a) [a] = false)
  /\ (forall a e,
      filtro_conflito (Agendamento.dentista_id a)
        (Agendamento.data_hora_fim a) e a = false)
  /\ (forall a s,
      filtro_conflito (Agendamento.dentista_id a)
        s (Agendamento.data_hora_inicio a) a = false).
Proof.
  repeat apply conj.
  - intros. apply tem_conflito_true.
  - intros. apply conflito_is_Some.
  - reflexivity.
  - intros. simpl. rewrite Z.ltb_irrefl. reflexivity.
  - intros. simpl. rewrite Z.gtb_ltb, Z.ltb_irrefl, andb_false_r. reflexivity.
  - intros. simpl. rewrite Z.ltb_irrefl. reflexivity.
  - intros. simpl. rewrite Z.gtb_ltb, Z.ltb_irrefl, andb_false_r. reflexivity.
  - intros. unfold filtro_conflito.
    rewrite Z.gtb_ltb, Z.ltb_irrefl, andb_false_r. reflexivity.
  - intros. unfold filtro_conflito.
    rewrite Z.ltb_irrefl, andb_false_r, andb_false_l. reflexivity.
Qed.

(** ** Cancellation by the patient (C8) *)

Lemma cancelar_forbidden u id a db :
  agendamentos db !! id = Some a ->
  Agendamento.paciente_id a <> u ->
  cancelar_agendamento u id db = (Flash Sem_permissao, db).
Proof.
  intros Hl Hu. unfold cancelar_agendamento. rewrite Hl.
  apply Z.eqb_neq in Hu. rewrite Hu. reflexivity.
Qed.

Lemma cancelar_terminal u id a db :
  agendamentos db !! id = Some a ->
  Agendamento.paciente_id a = u ->
  terminal a ->
  cancelar_agendamento u id db = (Flash Nao_pode_ser_cancelado, db).
Proof.
  intros Hl Hu Ht. unfold cancelar_agendamento. rewrite Hl.
  apply Z.eqb_eq in Hu. rewrite Hu. cbn [negb].
  apply in_list_terminais in Ht. rewrite Ht. reflexivity.
Qed.

Lemma cancelar_ok u id a db :
  agendamentos db !! id = Some a ->
  Agendamento.paciente_id a = u ->
  ~ terminal a ->
  cancelar_agendamento u id db
  = (Flash Cancelado_com_sucesso,
     com_agendamentos
       (<[id := Agendamento.set_status "cancelado" a]> (agendamentos db)) db).
Proof.
  intros Hl Hu Ht. unfold cancelar_agendamento. rewrite Hl.
  apply Z.eqb_eq in Hu. rewrite Hu. cbn [negb].
  destruct (PyStr.in_list (Agendamento.status a) ["cancelado"; "concluido"])
    eqn:E; [|reflexivity].
  apply in_list_terminais in E. contradiction.
Qed.

Lemma terminal_dec (a : Agendamento.t) : {terminal a} + {~ terminal a}.
Proof.
  destruct (PyStr.in_list (Agendamento.status a) ["cancelado"; "concluido"])
    eqn:E.
  - left. by apply in_list_terminais.
  - right. intros H. apply in_list_terminais in H. congruence.
Defined.

(** C8. For an appointment [a] stored under [id] and a requesting patient
    [u]: if [u] does not own [a] the call fails with Forbidden and the store,
    hence the status, is unchanged; otherwise, if the status is already
    Cancelled or Completed it fails with AlreadyTerminal and the store is
    unchanged; otherwise it succeeds and the row becomes [a] with status
    Cancelled, every other row being untouched. A second call by the owner
    always fails with AlreadyTerminal and changes nothing. *)
Theorem cancel_contract (db : DB) (u id : Z) (a : Agendamento.t)
  (Hrow : agendamentos db !! id = Some a) :
  (Agendamento.paciente_id a <> u ->
     cancelar_agendamento u id db = (Flash Sem_permissao, db))
  /\ (Agendamento.paciente_id a = u -> terminal a ->
     cancelar_agendamento u id db = (Flash Nao_pode_ser_cancelado, db))
  /\ (Agendamento.paciente_id a = u -> ~ terminal a ->
     exists db',
       cancelar_agendamento u id db = (Flash Cancelado_com_sucesso, db')
       /\ agendamentos db' !! id
          = Some (Agendamento.set_status "cancelado" a)
       /\ forall j, j <> id -> agendamentos db' !! j = agendamentos db !! j)
  /\ (Agendamento.paciente_id a = u ->
     let db1 := (cancelar_agendamento u id db).2 in
     cancelar_agendamento u id db1 = (Flash Nao_pode_ser_cancelado, db1)).
Proof.
  repeat apply conj.
  - intros Hu. by eapply cancelar_forbidden.
  - intros Hu Ht. by eapply cancelar_terminal.
  - intros Hu Ht. eexists. split; [by eapply cancelar_ok|]. simpl. split.
    + apply lookup_insert_eq.
    + intros j Hj. by apply lookup_insert_ne.
  - intros Hu. destruct (terminal_dec a) as [Ht|Ht].
    + rewrite (cancelar_terminal u id a db Hrow Hu Ht). simpl.
      by eapply cancelar_terminal.
    + rewrite (cancelar_ok u id a db Hrow Hu Ht). simpl.
      eapply (cancelar_terminal u id (Agendamento.set_status "cancelado" a)).
      * simpl. apply lookup_insert_eq.
      * exact Hu.
      * left. reflexivity.
Qed.

Lemma cancel_contract_witness :
  agendamentos clinica_com_consulta !! 7 = Some consulta_pendente
  /\ cancelar_agendamento 2 7 clinica_com_consulta
     = (Flash Sem_permissao, clinica_com_consulta)
  /\ (let db1 := (cancelar_agendamento 1 7 clinica_com_consulta).2 in
      cancelar_agendamento 1 7 db1 = (Flash Nao_pode_ser_cancelado, db1)).
Proof.
  assert (Hrow : agendamentos clinica_com_consulta !! 7 = Some consulta_pendente)
    by reflexivity.
  pose proof (cancel_contract clinica_com_consulta 2 7 consulta_pendente Hrow)
    as (H1 & _).
  pose proof (cancel_contract clinica_com_consulta 1 7 consulta_pendente Hrow)
    as (_ & _ & _ & H4).
  split; [exact Hrow|]. split.
  - apply H1. simpl. lia.
  - apply H4. reflexivity.
Defined.

(** ** Status update by the administrator (C9) *)

Lemma atualizar_status_ok id a s db :
  agendamentos db !! id = Some a ->
  s = "confirmado" \/ s = "cancelado" \/ s = "concluido" ->
  atualizar_status_agendamento id (Some s) db
  = (Flash Status_atualizado,
     com_agendamentos
       (<[id := Agendamento.set_status s a]> (agendamentos db)) db).
Proof.
  intros Hl Hs. unfold atualizar_status_agendamento. rewrite Hl.
  apply in_list_novos in Hs. rewrite Hs. reflexivity.
Qed.

(** What the route does with a stored appointment. Whatever its current
    status (Cancelled and Completed included), a status update to Confirmed,
    Cancelled or Completed succeeds and stores the requested status, leaving
    every other row untouched; a request with any other status, or with
    none, fails with InvalidStatus and leaves the store unchanged. The
    update never fails because the appointment is terminal. *)
Lemma set_status_unconditional (db : DB) (id : Z) (a : Agendamento.t)
  (Hrow : agendamentos db !! id = Some a) :
  (forall s, s = "confirmado" \/ s = "cancelado" \/ s = "concluido" ->
     exists db',
       atualizar_status_agendamento id (Some s) db
       = (Flash Status_atualizado, db')
       /\ agendamentos db' !! id = Some (Agendamento.set_status s a)
       /\ forall j, j <> id -> agendamentos db' !! j = agendamentos db !! j)
  /\ (forall s, ~ (s = "confirmado" \/ s = "cancelado" \/ s = "concluido") ->
     atualizar_status_agendamento id (Some s) db = (Flash Status_invalido, db))
  /\ atualizar_status_agendamento id None db = (Flash Status_invalido, db)
  /\ (forall o, (atualizar_status_agendamento id o db).1
                <> Flash Nao_pode_ser_cancelado).
Proof.
  repeat apply conj.
  - intros s Hs. eexists. split; [by apply atualizar_status_ok|]. simpl. split.
    + apply lookup_insert_eq.
    + intros j Hj. by apply lookup_insert_ne.
  - intros s Hs. unfold atualizar_status_agendamento. rewrite Hrow.
    destruct (PyStr.in_list s _) eqn:E; [|reflexivity].
    apply in_list_novos in E. contradiction.
  - unfold atualizar_status_agendamento. by rewrite Hrow.
  - intros o. unfold atualizar_status_agendamento. rewrite Hrow.
    destruct o as [s|]; [destruct (PyStr.in_list s _)|]; simpl; discriminate.
Qed.

(** C9 fails in the code. [atualizar_status_agendamento] tests the requested
    status and never the current one: for an appointment that is Cancelled
    or Completed, a request for Confirmed, Cancelled or Completed is
    answered as a success, not with AlreadyTerminal, and the requested
    status is stored; after a request for Confirmed the appointment is among
    the active ones of its practitioner again. [cancelar_agendamento], the
    patient's route to the same column, has the guard: called by the owner
    on the same appointment it answers AlreadyTerminal and stores
    nothing. *)
Theorem set_status_leaves_terminal (db : DB) (id : Z) (a : Agendamento.t)
  (Hrow : agendamentos db !! id = Some a)
  (Hterm : terminal a) :
  (forall s, s = "confirmado" \/ s = "cancelado" \/ s = "concluido" ->
     (atualizar_status_agendamento id (Some s) db).1 = Flash Status_atualizado
     /\ agendamentos (atualizar_status_agendamento id (Some s) db).2 !! id
        = Some (Agendamento.set_status s a))
  /\ ativo (Agendamento.set_status "confirmado" a)
  /\ cancelar_agendamento (Agendamento.paciente_id a) id db
     = (Flash Nao_pode_ser_cancelado, db).
Proof.
  split; [|split].
  - intros s Hs. rewrite (atualizar_status_ok id a s db Hrow Hs). simpl.
    split; [reflexivity|]. apply lookup_insert_eq.
  - right. reflexivity.
  - by apply (cancelar_terminal _ id a).
Qed.

Lemma set_status_leaves_terminal_witness :
  agendamentos clinica_com_cancelada !! 7 = Some consulta_cancelada
  /\ terminal consulta_cancelada
  /\ (atualizar_status_agendamento 7 (Some "confirmado")
        clinica_com_cancelada).1 = Flash Status_atualizado
  /\ agendamentos (atualizar_status_agendamento 7 (Some "confirmado")
                     clinica_com_cancelada).2 !! 7
     = Some (Agendamento.set_status "confirmado" consulta_cancelada).
Proof.
  assert (Hrow : agendamentos clinica_com_cancelada !! 7
                 = Some consulta_cancelada) by reflexivity.
  assert (Hterm : terminal consulta_cancelada) by (left; reflexivity).
  split; [exact Hrow|]. split; [exact Hterm|].
  apply (proj1 (set_status_leaves_terminal clinica_com_cancelada 7
                  consulta_cancelada Hrow Hterm) "confirmado").
  left. reflexivity.
Defined.

(** ** Validation in the booking routes (C6, C7) *)

Lemma agendar_rejects_past agora u sid did inicio db :
  inicio <= agora ->
  agendar agora u (pedido sid did inicio) db = (Flash Datas_passadas, db).
Proof.
  intros H. unfold agendar, pedido; simpl.
  apply Z.leb_le in H. rewrite H. reflexivity.
Qed.

(** Whatever the request, a booking route that does not answer with its
    success message leaves the store as it was. *)
Lemma agendar_no_partial_write agora u form db :
  (forall id, (agendar agora u form db).1 <> Flash (Agendamento_realizado id)) ->
  (agendar agora u form db).2 = db.
Proof.
  unfold agendar.
  destruct (Form.servico_id form), (Form.dentista_id form),
    (Form.data_hora form); simpl; try reflexivity.
  destruct (_ <=? _); [reflexivity|].
  destruct (servicos db !! _); [|reflexivity].
  destruct (PyTime.dt_add _ _); [|reflexivity].
  destruct (conflito _ _ _ _); [reflexivity|].
  destruct (session_add_commit _ _) as [[id db']|]; [|reflexivity].
  intros H. exfalso. by apply (H id).
Qed.

Lemma admin_no_partial_write p form db :
  (forall id, (admin_novo_agendamento p form db).1
              <> Flash (Agendamento_criado id)) ->
  (admin_novo_agendamento p form db).2 = db.
Proof.
  unfold admin_novo_agendamento.
  destruct p, (Form.servico_id form), (Form.dentista_id form),
    (Form.data_hora form); simpl; try reflexivity.
  destruct (servicos db !! _); [|reflexivity].
  destruct (PyTime.dt_add _ _); [|reflexivity].
  destruct (conflito _ _ _ _); [reflexivity|].
  destruct (session_add_commit _ _) as [[id db']|]; [|reflexivity].
  intros H. exfalso. by apply (H id).
Qed.

(** C6 holds on the patient path and fails on the admin path: for the same
    form, whose start 08:30 is half an hour before the submission time 09:00,
    [agendar] answers InvalidTime and stores nothing, while
    [admin_novo_agendamento], which never reads the clock, stores a Confirmed
    appointment that starts in the past. *)
Theorem admin_books_past_start :
  as_8h30 <= as_9h
  /\ agendar as_9h 1 (pedido 1 1 as_8h30) clinica
     = (Flash Datas_passadas, clinica)
  /\ (admin_novo_agendamento (Some 1) (pedido 1 1 as_8h30) clinica).1
     = Flash (Agendamento_criado 0)
  /\ agendamentos
       (admin_novo_agendamento (Some 1) (pedido 1 1 as_8h30) clinica).2 !! 0
     = Some (Agendamento.mk as_8h30 as_9h "confirmado" 1 1 1).
Proof.
  split; [unfold as_9h; lia|]. split; [|split].
  - apply agendar_rejects_past. unfold as_9h; lia.
  - vm_compute. reflexivity.
  - vm_compute. reflexivity.
Qed.









(** ** The agenda invariant (C1) *)

Lemma sobrepoe_sym s1 e1 s2 e2 : sobrepoe s1 e1 s2 e2 <-> sobrepoe s2 e2 s1 e1.
Proof. unfold sobrepoe. tauto. Qed.

Lemma agenda_consistente_insert_novo db a :
  agenda_consistente db ->
  (forall b, na_agenda db (Agendamento.dentista_id a) b ->
     ~ sobrepoe (Agendamento.data_hora_inicio a) (Agendamento.data_hora_fim a)
         (Agendamento.data_hora_inicio b) (Agendamento.data_hora_fim b)) ->
  agenda_consistente
    (com_agendamentos
       (<[fresh (dom (agendamentos db)) := a]> (agendamentos db)) db).
Proof.
  intros Hinv Hfree i j x y Hij Hi Hj Hd Hx Hy. simpl in Hi, Hj.
  set (k := fresh (dom (agendamentos db))) in *.
  assert (Hk : agendamentos db !! k = None)
    by (apply not_elem_of_dom; apply is_fresh).
  destruct (decide (i = k)) as [->|Hik]; destruct (decide (j = k)) as [->|Hjk].
  - done.
  - rewrite lookup_insert_eq in Hi. rewrite lookup_insert_ne in Hj by done.
    inversion Hi; subst x. apply Hfree. exists j. auto.
  - rewrite lookup_insert_eq in Hj. rewrite lookup_insert_ne in Hi by done.
    inversion Hj; subst y. rewrite sobrepoe_sym. apply Hfree. exists i. auto.
  - rewrite lookup_insert_ne in Hi, Hj by done.
    exact (Hinv i j x y Hij Hi Hj Hd Hx Hy).
Qed.

(** Rewriting the status of one row keeps the invariant when the new status
    is not active, or when the row was active already. *)
Lemma agenda_consistente_set_status db id a s :
  agenda_consistente db ->
  agendamentos db !! id = Some a ->
  (ativo (Agendamento.set_status s a) -> ativo a) ->
  agenda_consistente
    (com_agendamentos
       (<[id := Agendamento.set_status s a]> (agendamentos db)) db).
Proof.
  intros Hinv Hl Hs i j x y Hij Hi Hj Hd Hx Hy. simpl in Hi, Hj.
  destruct (decide (i = id)) as [->|Hik]; destruct (decide (j = id)) as [->|Hjk].
  - done.
  - rewrite lookup_insert_eq in Hi. rewrite lookup_insert_ne in Hj by done.
    inversion Hi; subst x. simpl in *. eapply (Hinv id j a y); eauto.
  - rewrite lookup_insert_eq in Hj. rewrite lookup_insert_ne in Hi by done.
    inversion Hj; subst y. simpl in *. eapply (Hinv i id x a); eauto.
  - rewrite lookup_insert_ne in Hi, Hj by done.
    exact (Hinv i j x y Hij Hi Hj Hd Hx Hy).
Qed.

Lemma session_add_commit_Some a db id db' :
  session_add_commit a db = Some (id, db') ->
  db' = com_agendamentos
          (<[fresh (dom (agendamentos db)) := a]> (agendamentos db)) db.
Proof.
  unfold session_add_commit. destruct (_ && _); [|discriminate].
  intros H. by inversion H.
Qed.

Lemma agendar_preserva agora u form db :
  agenda_consistente db -> agenda_consistente (agendar agora u form db).2.
Proof.
  intros Hinv. unfold agendar.
  destruct (Form.servico_id form) as [sid|], (Form.dentista_id form) as [did|],
    (Form.data_hora form) as [| |t]; try exact Hinv.
  destruct (t <=? agora); [exact Hinv|].
  destruct (servicos db !! sid) as [sv|]; [|exact Hinv].
  destruct (PyTime.dt_add _ _) as [fim|]; [|exact Hinv].
  destruct (conflito did t fim db) eqn:Hc; [exact Hinv|].
  destruct (session_add_commit _ _) as [[id db']|] eqn:Hadd; [|exact Hinv].
  apply session_add_commit_Some in Hadd as ->. cbn [snd].
  apply agenda_consistente_insert_novo; [exact Hinv|].
  simpl. by apply conflito_None.
Qed.

Lemma admin_novo_agendamento_preserva p form db :
  agenda_consistente db ->
  agenda_consistente (admin_novo_agendamento p form db).2.
Proof.
  intros Hinv. unfold admin_novo_agendamento.
  destruct p as [pid|], (Form.servico_id form) as [sid|],
    (Form.dentista_id form) as [did|],
    (Form.data_hora form) as [| |t]; try exact Hinv.
  destruct (servicos db !! sid) as [sv|]; [|exact Hinv].
  destruct (PyTime.dt_add _ _) as [fim|]; [|exact Hinv].
  destruct (conflito did t fim db) eqn:Hc; [exact Hinv|].
  destruct (session_add_commit _ _) as [[id db']|] eqn:Hadd; [|exact Hinv].
  apply session_add_commit_Some in Hadd as ->. cbn [snd].
  apply agenda_consistente_insert_novo; [exact Hinv|].
  simpl. by apply conflito_None.
Qed.

Lemma cancelar_agendamento_preserva u id db :
  agenda_consistente db -> agenda_consistente (cancelar_agendamento u id db).2.
Proof.
  intros Hinv. unfold cancelar_agendamento.
  destruct (agendamentos db !! id) as [a|] eqn:Hl; [|exact Hinv].
  destruct (negb _); [exact Hinv|].
  destruct (PyStr.in_list _ _); [exact Hinv|]. cbn [snd].
  apply agenda_consistente_set_status; [done..|].
  intros [H|H]; discriminate H.
Qed.

Lemma atualizar_status_preserva id s db :
  agenda_consistente db ->
  ~ reativa (Op_atualizar_status_agendamento id s) db ->
  agenda_consistente (atualizar_status_agendamento id s db).2.
Proof.
  intros Hinv Hre. unfold atualizar_status_agendamento.
  destruct (agendamentos db !! id) as [a|] eqn:Hl; [|exact Hinv].
  destruct s as [s|]; [|exact Hinv].
  destruct (PyStr.in_list s _) eqn:Hs; [|exact Hinv]. cbn [snd].
  apply agenda_consistente_set_status; [done..|].
  apply in_list_novos in Hs. intros Hat.
  destruct (in_list_ativos (Agendamento.status a)) as [_ Hdec].
  destruct (PyStr.in_list (Agendamento.status a) status_ativos) eqn:Ea.
  - by apply in_list_ativos.
  - exfalso. apply Hre. simpl. split.
    + destruct Hat as [Hat|Hat]; simpl in Hat; [|done].
      destruct Hs as [->|[->| ->]]; discriminate.
    + exists a. split; [done|]. intros Ha. apply in_list_ativos in Ha.
      congruence.
Qed.

(** Every operation other than a re-activation keeps the agenda
    consistent. *)
Lemma executa_preserva op db :
  agenda_consistente db -> ~ reativa op db ->
  agenda_consistente (executa op db).2.
Proof.
  intros Hinv Hre. destruct op; simpl.
  - by apply agendar_preserva.
  - by apply admin_novo_agendamento_preserva.
  - by apply cancelar_agendamento_preserva.
  - by apply atualizar_status_preserva.
Qed.

Lemma executa_todas_preserva ops db :
  agenda_consistente db -> sem_reativacao ops db ->
  agenda_consistente (executa_todas ops db).
Proof.
  revert db. induction ops as [|op ops IH]; intros db Hinv Hops; simpl.
  - exact Hinv.
  - destruct Hops as [Hop Hops]. apply IH; [|exact Hops].
    by apply executa_preserva.
Qed.

(** C1 fails through the status update. After any booking of a service of
    positive duration that the patient route has stored, under the key [id]
    the store gave it, three more requests reach an inconsistent agenda from
    a consistent one: the administrator sets the appointment to Cancelled,
    another patient books the same practitioner and start, which is accepted
    since the slot is free again, and the administrator sets the first
    appointment back to Confirmed, which the route accepts without running
    the conflict check. The practitioner then has a Confirmed and a Pending
    appointment over the same interval. *)
Theorem reactivation_double_books
  (agora u u' sid did t id : Z) (sv : Servico.t) (db db1 : DB)
  (Hinv : agenda_consistente db)
  (Hsv : servicos db !! sid = Some sv)
  (Hdur : 0 < Servico.duracao_minutos sv)
  (Hu' : u' ∈ usuarios db)
  (Hbook : agendar agora u (pedido sid did t) db
           = (Flash (Agendamento_realizado id), db1)) :
  let db4 := executa_todas (reativacao agora u' (pedido sid did t) id) db1 in
  let fim := t + Servico.duracao_minutos sv in
  agenda_consistente db1
  /\ (exists id',
        id' <> id
        /\ agendamentos db4 !! id
           = Some (Agendamento.mk t fim "confirmado" u did sid)
        /\ agendamentos db4 !! id'
           = Some (Agendamento.mk t fim "pendente" u' did sid))
  /\ ~ agenda_consistente db4.
Proof.
  intros db4 fim.
  assert (Hinv1 : agenda_consistente db1).
  { pose proof (agendar_preserva agora u (pedido sid did t) db Hinv) as H.
    by rewrite Hbook in H. }
  split; [exact Hinv1|].
  apply agendar_sucesso in Hbook
    as (sv' & fim' & Hfut & Hsv' & Hadd & Hfim & Hconf & Hins).
  rewrite Hsv in Hsv'. inversion Hsv'; subst sv'. clear Hsv'.
  fold fim in Hfim. subst fim'.
  apply session_add_commit_inv in Hins as (Hu & Hd & Hs & -> & Hfresh & ->).
  simpl in Hd, Hs.
  set (a := Agendamento.mk t fim "pendente" u did sid) in *.
  set (k := fresh (dom (agendamentos db))) in *.
  set (ac := Agendamento.set_status "cancelado" a).
  set (db2 := com_agendamentos (<[k := ac]> (agendamentos db)) db).
  assert (Hle : (t <=? agora) = false) by (apply Z.leb_gt; lia).
  assert (Hc2 : conflito did t fim db2 = None).
  { apply conflito_None. intros b (j & Hj & Hbd & Hba).
    unfold db2 in Hj. simpl in Hj.
    destruct (decide (j = k)) as [->|Hne].
    - rewrite lookup_insert_eq in Hj. inversion Hj; subst b.
      destruct Hba as [Hba|Hba]; discriminate Hba.
    - rewrite lookup_insert_ne in Hj by done.
      apply conflito_None with (a := b) in Hconf; [done|]. exists j. auto. }
  set (a' := Agendamento.mk t fim "pendente" u' did sid).
  set (k' := fresh (dom (agendamentos db2))).
  assert (Hadd2 : session_add_commit a' db2
                  = Some (k', com_agendamentos
                                (<[k' := a']> (agendamentos db2)) db2)).
  { unfold session_add_commit. simpl.
    rewrite (bool_decide_eq_true_2 _ Hu'), (bool_decide_eq_true_2 _ Hd),
      (bool_decide_eq_true_2 _ Hs). reflexivity. }
  assert (Hk' : k' <> k).
  { intros Heq. apply (is_fresh (dom (agendamentos db2))). fold k'.
    rewrite Heq. apply elem_of_dom. unfold db2. simpl.
    rewrite lookup_insert_eq. eauto. }
  set (ar := Agendamento.mk t fim "confirmado" u did sid).
  set (db1 := com_agendamentos (<[k := a]> (agendamentos db)) db) in *.
  assert (S1 : atualizar_status_agendamento k (Some "cancelado") db1
               = (Flash Status_atualizado, db2)).
  { rewrite (atualizar_status_ok k a "cancelado" db1);
      [|apply lookup_insert_eq|by right; left].
    unfold db2, db1, com_agendamentos. simpl. by rewrite insert_insert_eq. }
  set (db3 := com_agendamentos (<[k' := a']> (agendamentos db2)) db2) in *.
  assert (S2 : agendar agora u' (pedido sid did t) db2
               = (Flash (Agendamento_realizado k'), db3)).
  { unfold agendar, pedido; simpl. rewrite Hle.
    change (servicos db2) with (servicos db). rewrite Hsv, Hadd, Hc2.
    fold a'. rewrite Hadd2. reflexivity. }
  assert (S3 : atualizar_status_agendamento k (Some "confirmado") db3
               = (Flash Status_atualizado,
                  com_agendamentos (<[k := ar]> (agendamentos db3)) db3)).
  { rewrite (atualizar_status_ok k ac "confirmado" db3); [reflexivity| |by left].
    unfold db3, db2. simpl. rewrite lookup_insert_ne by done.
    apply lookup_insert_eq. }
  assert (Hdb4 : db4 = com_agendamentos (<[k := ar]> (agendamentos db3)) db3).
  { unfold db4, reativacao, executa_todas. cbn [fold_left executa].
    rewrite S1. cbn [snd]. rewrite S2. cbn [snd]. by rewrite S3. }
  assert (H0 : agendamentos db4 !! k = Some ar).
  { rewrite Hdb4. simpl. apply lookup_insert_eq. }
  assert (H1 : agendamentos db4 !! k' = Some a').
  { rewrite Hdb4. simpl. rewrite lookup_insert_ne by done.
    apply lookup_insert_eq. }
  split; [exists k'; done|].
  intros Hinv4.
  apply (Hinv4 k k' ar a' ltac:(done) H0 H1); simpl.
  - reflexivity.
  - right; reflexivity.
  - left; reflexivity.
  - unfold sobrepoe, fim. lia.
Qed.

Lemma clinica_consistente : agenda_consistente clinica.
Proof.
  intros i j a b _ Hi. simpl in Hi. rewrite lookup_empty in Hi. discriminate.
Qed.

Lemma reactivation_double_books_witness :
  agenda_consistente clinica
  /\ exists id db1,
       agendar semana_anterior 1 (pedido 1 1 as_8h30) clinica
       = (Flash (Agendamento_realizado id), db1)
       /\ ~ agenda_consistente
            (executa_todas
               (reativacao semana_anterior 2 (pedido 1 1 as_8h30) id) db1).
Proof.
  split; [exact clinica_consistente|].
  assert (Hu' : 2 ∈ usuarios clinica) by (vm_compute; set_solver).
  assert (Hbook : agendar semana_anterior 1 (pedido 1 1 as_8h30) clinica
                  = (Flash (Agendamento_realizado 0),
                     (agendar semana_anterior 1 (pedido 1 1 as_8h30)
                        clinica).2)) by (vm_compute; reflexivity).
  eexists _, _. split; [exact Hbook|].
  exact (proj2 (proj2 (reactivation_double_books semana_anterior 1 2 1 1
                         as_8h30 _ limpeza clinica _ clinica_consistente
                         eq_refl eq_refl Hu' Hbook))).
Defined.

(** Two bookings one after the other: once a booking of a service of
    positive duration has succeeded, the same request submitted again for
    that practitioner is refused with SlotTaken and stores nothing. *)
Lemma agendar_twice_slot_taken agora u u' sid did inicio sv id db db' :
  servicos db !! sid = Some sv ->
  0 < Servico.duracao_minutos sv ->
  agendar agora u (pedido sid did inicio) db
  = (Flash (Agendamento_realizado id), db') ->
  agendar agora u' (pedido sid did inicio) db'
  = (Flash Horario_nao_disponivel, db').
Proof.
  intros Hsv Hdur. unfold agendar, pedido; simpl.
  destruct (inicio <=? agora); [discriminate|]. rewrite Hsv.
  destruct (PyTime.dt_add inicio _) as [fim|] eqn:Ha; [|discriminate].
  destruct (conflito did inicio fim db); [discriminate|].
  destruct (session_add_commit _ db) as [[id' db'']|] eqn:Hadd; [|discriminate].
  intros H; inversion H; subst id' db''.
  apply session_add_commit_Some in Hadd as ->. simpl. rewrite Hsv, Ha.
  apply dt_add_inv in Ha as [-> _].
  destruct (conflito did inicio (inicio + _) _) eqn:Hc; [reflexivity|].
  exfalso. apply eq_None_not_Some in Hc. apply Hc.
  apply conflito_is_Some. eexists. split.
  - exists (fresh (dom (agendamentos db))). simpl.
    split; [apply lookup_insert_eq|]. split; [reflexivity|]. by left.
  - unfold sobrepoe. simpl. lia.
Qed.

(** ** Two bookings at the same time (C3) *)

(** A request served alone takes its two steps one after the other, and
    that is the route. *)
Lemma passo_passo_agendar agora u form db :
  (passo (passo (Recebido agora u form) db).1
         (passo (Recebido agora u form) db).2)
  = (Respondido (agendar agora u form db).1, (agendar agora u form db).2).
Proof.
  unfold passo, agendar_verifica, agendar_grava, agendar.
  destruct (Form.servico_id form) as [sid|], (Form.dentista_id form) as [did|],
    (Form.data_hora form) as [| |t]; try reflexivity.
  destruct (t <=? agora); [reflexivity|].
  destruct (servicos db !! sid) as [sv|]; [|reflexivity].
  destruct (PyTime.dt_add _ _) as [fim|]; [|reflexivity].
  destruct (conflito did t fim db); [reflexivity|]. simpl.
  destruct (session_add_commit _ _) as [[id db']|]; reflexivity.
Qed.

(** C3 fails in the code. Take a store with a consistent agenda and a
    request that [agendar], served alone, answers with a booking of a
    service of positive duration. When a second patient sends the same form
    and each request runs its conflict query before the other has committed,
    both queries find no row, both inserts are accepted, both patients are
    told that the booking was made, and the practitioner has two Pending
    appointments over the same interval. Served one after the other, the
    second request is refused with SlotTaken. *)
Theorem concurrent_bookings_both_succeed
  (agora u1 u2 sid did t id1 : Z) (sv : Servico.t) (db db1 : DB)
  (Hinv : agenda_consistente db)
  (Hsv : servicos db !! sid = Some sv)
  (Hdur : 0 < Servico.duracao_minutos sv)
  (Hu2 : u2 ∈ usuarios db)
  (Hbook : agendar agora u1 (pedido sid did t) db
           = (Flash (Agendamento_realizado id1), db1)) :
  let p1 := Recebido agora u1 (pedido sid did t) in
  let p2 := Recebido agora u2 (pedido sid did t) in
  let fim := t + Servico.duracao_minutos sv in
  (exists id2 db2,
     intercala [true; false; true; false] p1 p2 db
     = (Respondido (Flash (Agendamento_realizado id1)),
        Respondido (Flash (Agendamento_realizado id2)), db2)
     /\ id2 <> id1
     /\ agendamentos db2 !! id1
        = Some (Agendamento.mk t fim "pendente" u1 did sid)
     /\ agendamentos db2 !! id2
        = Some (Agendamento.mk t fim "pendente" u2 did sid)
     /\ ~ agenda_consistente db2)
  /\ intercala [true; true; false; false] p1 p2 db
     = (Respondido (Flash (Agendamento_realizado id1)),
        Respondido (Flash Horario_nao_disponivel), db1).
Proof.
  intros p1 p2 fim. split.
  - apply agendar_sucesso in Hbook
      as (sv' & fim' & Hfut & Hsv' & Hadd & Hfim & Hconf & Hins).
    rewrite Hsv in Hsv'. inversion Hsv'; subst sv'. clear Hsv'.
    fold fim in Hfim. subst fim'.
    assert (Hle : (t <=? agora) = false) by (apply Z.leb_gt; lia).
    set (a1 := Agendamento.mk t fim "pendente" u1 did sid) in *.
    set (a2 := Agendamento.mk t fim "pendente" u2 did sid).
    assert (Hv : forall u, agendar_verifica agora u (pedido sid did t) db
                           = inr (Agendamento.mk t fim "pendente" u did sid)).
    { intros u. unfold agendar_verifica, pedido. simpl.
      rewrite Hle, Hsv, Hadd, Hconf. reflexivity. }
    apply session_add_commit_inv in Hins as Hins'.
    destruct Hins' as (Hu & Hd & Hs & Hid & Hfresh & Hdb1).
    simpl in Hd, Hs.
    subst db1.
    set (dbA := com_agendamentos (<[id1 := a1]> (agendamentos db)) db) in *.
    set (k2 := fresh (dom (agendamentos dbA))).
    assert (Hadd2 : session_add_commit a2 dbA
                    = Some (k2, com_agendamentos
                                  (<[k2 := a2]> (agendamentos dbA)) dbA)).
    { unfold session_add_commit. simpl.
      rewrite (bool_decide_eq_true_2 _ Hu2), (bool_decide_eq_true_2 _ Hd),
        (bool_decide_eq_true_2 _ Hs). reflexivity. }
    assert (H1 : agendamentos dbA !! id1 = Some a1).
    { simpl. apply lookup_insert_eq. }
    assert (Hk2 : k2 <> id1).
    { intros Heq. apply (is_fresh (dom (agendamentos dbA))). fold k2.
      rewrite Heq. apply elem_of_dom. eauto. }
    exists k2, (com_agendamentos (<[k2 := a2]> (agendamentos dbA)) dbA).
    split; [|split; [exact Hk2|split; [|split]]].
    + unfold p1, p2. simpl. rewrite !Hv. simpl.
      unfold agendar_grava. fold a1. rewrite Hins. simpl.
      fold a2. rewrite Hadd2. reflexivity.
    + simpl. rewrite lookup_insert_ne by done. exact H1.
    + simpl. apply lookup_insert_eq.
    + intros Hinv2.
      apply (Hinv2 id1 k2 a1 a2); simpl.
      * done.
      * rewrite lookup_insert_ne by done. exact H1.
      * apply lookup_insert_eq.
      * reflexivity.
      * left; reflexivity.
      * left; reflexivity.
      * unfold sobrepoe, fim. lia.
  - unfold p1, p2.
    change (intercala [true; true; false; false]
              (Recebido agora u1 (pedido sid did t))
              (Recebido agora u2 (pedido sid did t)) db)
      with (intercala [false; false]
              (passo (passo (Recebido agora u1 (pedido sid did t)) db).1
                     (passo (Recebido agora u1 (pedido sid did t)) db).2).1
              (Recebido agora u2 (pedido sid did t))
              (passo (passo (Recebido agora u1 (pedido sid did t)) db).1
                     (passo (Recebido agora u1 (pedido sid did t)) db).2).2).
    rewrite passo_passo_agendar, Hbook. cbn [fst snd].
    change (intercala [false; false]
              (Respondido (Flash (Agendamento_realizado id1)))
              (Recebido agora u2 (pedido sid did t)) db1)
      with (Respondido (Flash (Agendamento_realizado id1)),
            (passo (passo (Recebido agora u2 (pedido sid did t)) db1).1
                   (passo (Recebido agora u2 (pedido sid did t)) db1).2).1,
            (passo (passo (Recebido agora u2 (pedido sid did t)) db1).1
                   (passo (Recebido agora u2 (pedido sid did t)) db1).2).2).
    rewrite passo_passo_agendar.
    rewrite (agendar_twice_slot_taken agora u1 u2 sid did t sv id1 db db1
               Hsv Hdur Hbook).
    reflexivity.
Qed.

Lemma concurrent_bookings_both_succeed_witness :
  agenda_consistente clinica
  /\ exists id1 id2 db2,
       intercala [true; false; true; false]
         (Recebido semana_anterior 1 (pedido 1 1 as_8h30))
         (Recebido semana_anterior 2 (pedido 1 1 as_8h30)) clinica
       = (Respondido (Flash (Agendamento_realizado id1)),
          Respondido (Flash (Agendamento_realizado id2)), db2)
       /\ ~ agenda_consistente db2.
Proof.
  split; [exact clinica_consistente|].
  assert (Hu2 : 2 ∈ usuarios clinica) by (vm_compute; set_solver).
  assert (Hbook : agendar semana_anterior 1 (pedido 1 1 as_8h30) clinica
                  = (Flash (Agendamento_realizado 0),
                     (agendar semana_anterior 1 (pedido 1 1 as_8h30)
                        clinica).2)) by (vm_compute; reflexivity).
  destruct (proj1 (concurrent_bookings_both_succeed semana_anterior 1 2 1 1
                     as_8h30 _ limpeza clinica _ clinica_consistente
                     eq_refl eq_refl Hu2 Hbook))
    as (id2 & db2 & H & _ & _ & _ & Hn).
  eexists _, id2, db2. split; [exact H|exact Hn].
Defined.

(** ** Slot generation (C5, C10) *)

Lemma slots_turno_nil inicio fim intervalo :
  0 < intervalo -> fim <= inicio -> slots_turno inicio fim intervalo = [].
Proof.
  intros Hi Hle. unfold slots_turno.
  assert ((fim - inicio + intervalo - 1) / intervalo <= 0) as Hq.
  { apply Z.lt_succ_r. apply Z.div_lt_upper_bound; lia. }
  replace (Z.to_nat _) with 0%nat by lia. reflexivity.
Qed.

Lemma slots_turno_cons inicio fim intervalo :
  0 < intervalo -> inicio < fim ->
  slots_turno inicio fim intervalo
  = inicio :: slots_turno (inicio + intervalo) fim intervalo.
Proof.
  intros Hi Hlt. unfold slots_turno.
  replace (fim - inicio + intervalo - 1)
    with ((fim - (inicio + intervalo) + intervalo - 1) + 1 * intervalo) by lia.
  rewrite Z.div_add by lia.
  assert (0 <= (fim - (inicio + intervalo) + intervalo - 1) / intervalo) as Hq.
  { apply Z.div_pos; lia. }
  rewrite Z2Nat.inj_add by lia. rewrite Nat.add_comm. simpl.
  f_equal; [lia|].
  rewrite <- seq_shift, map_map. apply map_ext. intros k. lia.
Qed.

(** Membership: exactly the multiples of the interval after [inicio] that
    are strictly below [fim]. *)
Lemma slots_turno_elem inicio fim intervalo x :
  0 < intervalo ->
  (x ∈ slots_turno inicio fim intervalo
   <-> exists k, 0 <= k /\ x = inicio + k * intervalo /\ x < fim).
Proof.
  intros Hi. unfold slots_turno.
  rewrite list_elem_of_In, in_map_iff.
  set (q := (fim - inicio + intervalo - 1) / intervalo).
  assert (Hq : forall k, 0 <= k -> (k < q <-> inicio + k * intervalo < fim)).
  { intros k Hk. unfold q. split; intros H.
    - assert (k + 1 <= (fim - inicio + intervalo - 1) / intervalo) as H' by lia.
      apply (Z.mul_le_mono_nonneg_l _ _ intervalo) in H'; [|lia].
      pose proof (Z.mul_div_le (fim - inicio + intervalo - 1) intervalo Hi).
      nia.
    - assert (k + 1 <= (fim - inicio + intervalo - 1) / intervalo) as H'
        by (apply Z.div_le_lower_bound; [lia|nia]).
      lia. }
  split.
  - intros (k & <- & Hk). apply in_seq in Hk. exists (Z.of_nat k).
    split; [lia|]. split; [reflexivity|]. apply Hq; lia.
  - intros (k & Hk & -> & Hlt). exists (Z.to_nat k). split; [f_equal; lia|].
    apply in_seq. apply Hq in Hlt; lia.
Qed.

(** More fuel does not change a result that needed no more. *)
Lemma gera_turno_mono fuel extra hora_atual hora_final intervalo acc :
  gera_turno fuel hora_atual hora_final intervalo acc <> SemCombustivel ->
  gera_turno (fuel + extra) hora_atual hora_final intervalo acc
  = gera_turno fuel hora_atual hora_final intervalo acc.
Proof.
  revert hora_atual acc.
  induction fuel as [|fuel IH]; intros hora_atual acc H; simpl in *.
  - done.
  - destruct (hora_atual <? hora_final); [|reflexivity].
    destruct (PyTime.dt_add hora_atual intervalo); [|reflexivity].
    by apply IH.
Qed.

(** With a positive interval the loop of a shift ends: a fuel above the
    distance to the end of the shift is never exhausted. *)
Lemma gera_turno_total fuel hora_atual hora_final intervalo acc :
  0 < intervalo ->
  (Z.to_nat (hora_final - hora_atual) < fuel)%nat ->
  gera_turno fuel hora_atual hora_final intervalo acc <> SemCombustivel.
Proof.
  intros Hi. revert hora_atual acc.
  induction fuel as [|fuel IH]; intros hora_atual acc Hf; simpl; [lia|].
  destruct (hora_atual <? hora_final) eqn:E; [|discriminate].
  apply Z.ltb_lt in E.
  destruct (PyTime.dt_add hora_atual intervalo) as [p|] eqn:Ha; [|discriminate].
  apply dt_add_inv in Ha as [-> _]. apply IH. lia.
Qed.


(** With a negative interval a shift that is entered is never left through
    its loop condition: no fuel makes the loop return. *)
Lemma gera_turno_neg_never_returns fuel hora_atual hora_final intervalo acc l :
  intervalo < 0 -> hora_atual < hora_final ->
  gera_turno fuel hora_atual hora_final intervalo acc <> Ret l.
Proof.
  intros Hi. revert hora_atual acc.
  induction fuel as [|fuel IH]; intros hora_atual acc Hlt; simpl; [discriminate|].
  apply Z.ltb_lt in Hlt as E. rewrite E.
  destruct (PyTime.dt_add hora_atual intervalo) as [p|] eqn:Ha; [|discriminate].
  apply dt_add_inv in Ha as [-> _]. apply IH. lia.
Qed.

(** It steps backwards until the subtraction leaves the range of datetime,
    and the addition raises OverflowError. *)
Lemma gera_turno_neg_overflows hora_atual hora_final intervalo :
  intervalo < 0 -> hora_atual < hora_final ->
  exists fuel, forall acc,
    gera_turno fuel hora_atual hora_final intervalo acc = Lanca OverflowError.
Proof.
  intros Hi.
  assert (forall n hora_atual, (Z.to_nat hora_atual <= n)%nat ->
            hora_atual < hora_final ->
            exists fuel, forall acc,
              gera_turno fuel hora_atual hora_final intervalo acc
              = Lanca OverflowError) as H.
  { induction n as [|n IH]; intros t Hn Hlt.
    - exists 1%nat. intros acc. simpl.
      apply Z.ltb_lt in Hlt as E. rewrite E.
      destruct (PyTime.dt_add t intervalo) as [p|] eqn:Ha; [|reflexivity].
      apply dt_add_inv in Ha as [_ [Hlo _]]. unfold PyTime.dt_min in Hlo. lia.
    - destruct (PyTime.dt_add t intervalo) as [p|] eqn:Ha.
      + apply dt_add_inv in Ha as Hp. destruct Hp as [-> [Hlo _]].
        unfold PyTime.dt_min in Hlo.
        destruct (IH (t + intervalo)) as [fuel Hfuel]; [lia|lia|].
        exists (S fuel). intros acc. simpl.
        apply Z.ltb_lt in Hlt as E. rewrite E, Ha. apply Hfuel.
      + exists 1%nat. intros acc. simpl.
        apply Z.ltb_lt in Hlt as E. rewrite E, Ha. reflexivity. }
  intros Hlt. exact (H (Z.to_nat hora_atual) hora_atual (le_n _) Hlt).
Qed.

(** A shift whose start is not below its end is skipped, whatever the
    interval. *)
Lemma gera_turno_skip fuel hora_atual hora_final intervalo acc :
  hora_final <= hora_atual ->
  gera_turno (S fuel) hora_atual hora_final intervalo acc = Ret acc.
Proof.
  intros H. simpl. apply Z.ltb_ge in H. rewrite H. reflexivity.
Qed.


Lemma hora_do_dia_inv d hm t :
  hora_do_dia d hm = Ret t ->
  exists m, 0 <= m <= 1439 /\ t = PyTime.combine d m
    /\ PyTime.time_replace hm.1 hm.2 = inr m.
Proof.
  unfold hora_do_dia.
  destruct (PyTime.time_replace hm.1 hm.2) as [e|m] eqn:E; [discriminate|].
  intros H; inversion H; subst t. exists m. split; [|done].
  unfold PyTime.time_replace in E.
  destruct (negb _); [discriminate|].
  destruct (_ && _) eqn:Eb; [|discriminate]. inversion E; subst m.
  rewrite !andb_true_iff, !Z.leb_le in Eb. lia.
Qed.

Lemma hora_do_dia_cases d hm :
  (exists e, hora_do_dia d hm = Lanca e) \/ exists t, hora_do_dia d hm = Ret t.
Proof.
  unfold hora_do_dia. destruct (PyTime.time_replace _ _); eauto.
Qed.


(** With a positive interval the generation ends for every configuration
    and date: it returns or raises. *)
Lemma gera_horarios_base_total fuel config d :
  0 < intervalo_efetivo config -> (1440 < fuel)%nat ->
  gera_horarios_base fuel config d <> SemCombustivel.
Proof.
  intros Hi Hf. unfold gera_horarios_base.
  destruct (hora_do_dia_cases d (inicio_manha config)) as [[e ->]|[t1 H1]];
    [discriminate|].
  destruct (hora_do_dia_cases d (fim_manha config)) as [[e ->]|[t2 H2]];
    [rewrite H1; discriminate|].
  rewrite H1, H2. exec_step.
  apply hora_do_dia_inv in H1 as (m1 & ? & -> & _).
  apply hora_do_dia_inv in H2 as (m2 & ? & -> & _).
  pose proof (gera_turno_total fuel (PyTime.combine d m1) (PyTime.combine d m2)
                (intervalo_efetivo config) [] Hi) as Hm.
  destruct (gera_turno fuel _ _ _ []) as [base| |];
    [|discriminate|exfalso; apply Hm; [unfold PyTime.combine; lia|done]].
  exec_step.
  destruct (hora_do_dia_cases d (inicio_tarde config)) as [[e ->]|[t3 H3]];
    [discriminate|].
  destruct (hora_do_dia_cases d (fim_tarde config)) as [[e ->]|[t4 H4]];
    [rewrite H3; discriminate|].
  rewrite H3, H4. exec_step.
  apply hora_do_dia_inv in H3 as (m3 & ? & -> & _).
  apply hora_do_dia_inv in H4 as (m4 & ? & -> & _).
  apply gera_turno_total; [done|unfold PyTime.combine; lia].
Qed.

(** The generation for a configuration whose four shift bounds are valid
    times of day. *)
Section Turnos.

Variables (config : Configuracao.t) (d ini_m fim_m ini_t fim_t : Z).
Hypothesis H_ini_m : hora_do_dia d (inicio_manha config) = Ret ini_m.
Hypothesis H_fim_m : hora_do_dia d (fim_manha config) = Ret fim_m.
Hypothesis H_ini_t : hora_do_dia d (inicio_tarde config) = Ret ini_t.
Hypothesis H_fim_t : hora_do_dia d (fim_tarde config) = Ret fim_t.

Let intervalo := intervalo_efetivo config.

Lemma gera_horarios_base_turnos fuel :
  gera_horarios_base fuel config d
  = (horarios_base ← gera_turno fuel ini_m fim_m intervalo [];
     gera_turno fuel ini_t fim_t intervalo horarios_base).
Proof.
  unfold gera_horarios_base. rewrite H_ini_m, H_fim_m. exec_step.
  destruct (gera_turno fuel ini_m fim_m _ []); [|reflexivity..]. exec_step.
  rewrite H_ini_t, H_fim_t. reflexivity.
Qed.


Lemma gera_horarios_base_neg_never_returns fuel l :
  intervalo < 0 ->
  ini_m < fim_m \/ ini_t < fim_t ->
  gera_horarios_base fuel config d <> Ret l.
Proof.
  intros Hi Hent. rewrite gera_horarios_base_turnos.
  destruct (gera_turno fuel ini_m fim_m _ []) as [base| |] eqn:Em;
    [|discriminate..].
  exec_step. destruct Hent as [Hm|Ht].
  - exfalso. by eapply gera_turno_neg_never_returns.
  - by apply gera_turno_neg_never_returns.
Qed.

Lemma gera_horarios_base_neg_overflows :
  intervalo < 0 ->
  ini_m < fim_m \/ ini_t < fim_t ->
  exists fuel0, forall fuel, (fuel0 <= fuel)%nat ->
    gera_horarios_base fuel config d = Lanca OverflowError.
Proof.
  intros Hi Hent.
  destruct (Z.lt_ge_cases ini_m fim_m) as [Hm|Hm].
  - destruct (gera_turno_neg_overflows ini_m fim_m _ Hi Hm) as [f0 Hf0].
    exists f0. intros fuel Hf. rewrite gera_horarios_base_turnos.
    replace fuel with (f0 + (fuel - f0))%nat by lia.
    rewrite gera_turno_mono by (rewrite Hf0; discriminate).
    rewrite Hf0. reflexivity.
  - destruct Hent as [?|Ht]; [lia|].
    destruct (gera_turno_neg_overflows ini_t fim_t _ Hi Ht) as [f0 Hf0].
    exists (S f0). intros fuel Hf. rewrite gera_horarios_base_turnos.
    destruct fuel as [|fuel]; [lia|].
    rewrite gera_turno_skip by lia. exec_step.
    replace (S fuel) with (f0 + (S fuel - f0))%nat by lia.
    rewrite gera_turno_mono by (rewrite Hf0; discriminate).
    apply Hf0.
Qed.

Lemma gera_horarios_base_skip fuel :
  fim_m <= ini_m -> fim_t <= ini_t ->
  gera_horarios_base (S fuel) config d = Ret [].
Proof.
  intros Hm Ht. rewrite gera_horarios_base_turnos.
  rewrite gera_turno_skip by lia. exec_step.
  by rewrite gera_turno_skip by lia.
Qed.

End Turnos.

(** *** The route around the generation *)

Lemma filtra_horarios_total duracao ags base acc :
  filtra_horarios duracao ags base acc <> SemCombustivel.
Proof.
  revert acc. induction base as [|h base IH]; intros acc; simpl; [discriminate|].
  destruct (PyTime.dt_add h duracao); [|discriminate].
  destruct (tem_conflito _ _ _); apply IH.
Qed.

(** On a date the calendar marks open, for ids that are given and a
    service that resolves, the route is the generation of the candidates
    followed by the filter against the appointments of the day. *)
Lemma horarios_disponiveis_aberta fuel did d sid sv db :
  did <> 0 -> sid <> 0 ->
  servicos db !! sid = Some sv ->
  bool_truthy (dias_habilitados (config_atual db) (PyTime.weekday d)) = true ->
  horarios_disponiveis fuel (Some did) (Data d) (Some sid) db
  = (horarios_base ← gera_horarios_base fuel (config_atual db) d;
     horarios ← filtra_horarios (Servico.duracao_minutos sv)
                  (query_filter (filtro_dia did d) db).*2 horarios_base [];
     Ret (Horarios horarios)).
Proof.
  intros Hd Hs Hsv Hdia. unfold horarios_disponiveis. simpl.
  apply Z.eqb_neq in Hd, Hs. rewrite Hd, Hs, Hsv, Hdia. reflexivity.
Qed.

Lemma horarios_disponiveis_total fuel did data sid db :
  0 < intervalo_efetivo (config_atual db) -> (1440 < fuel)%nat ->
  horarios_disponiveis fuel did data sid db <> SemCombustivel.
Proof.
  intros Hi Hf. unfold horarios_disponiveis.
  destruct did as [did|], data as [| |d], sid as [sid|]; try discriminate.
  - destruct (negb _); discriminate.
  - destruct (negb _); [discriminate|].
    destruct (servicos db !! sid) as [sv|]; [|discriminate].
    destruct (negb _); [discriminate|].
    pose proof (gera_horarios_base_total fuel (config_atual db) d Hi Hf) as Hg.
    destruct (gera_horarios_base fuel (config_atual db) d) as [base| |];
      [|discriminate|done].
    exec_step.
    pose proof (filtra_horarios_total (Servico.duracao_minutos sv)
                  (query_filter (filtro_dia did d) db).*2 base []) as Hfl.
    destruct (filtra_horarios _ _ _ _); [discriminate..|done].
Qed.

(** Reading back the ['%H:%M'] of a minute of the day. *)
Lemma ida_volta_todos : forallb confere_ida_volta (seq 0 1440) = true.
Proof. vm_compute. reflexivity. Qed.

Lemma strftime_HM_mod t :
  PyTime.strftime_HM t = PyTime.strftime_HM (t mod 1440).
Proof. unfold PyTime.strftime_HM. by rewrite Z.mod_mod. Qed.

Lemma parse_hora_strftime t :
  parse_hora (PyTime.strftime_HM t) = (t mod 1440 / 60, t mod 1440 mod 60).
Proof.
  rewrite strftime_HM_mod.
  pose proof (Z.mod_pos_bound t 1440 ltac:(lia)) as Hm.
  set (m := t mod 1440) in *.
  pose proof ida_volta_todos as Hall.
  rewrite forallb_forall in Hall.
  specialize (Hall (Z.to_nat m)).
  unfold confere_ida_volta in Hall. rewrite Z2Nat.id in Hall by lia.
  apply bool_decide_eq_true in Hall; [done|].
  apply in_seq. lia.
Qed.

Lemma hora_do_dia_strftime t :
  hora_do_dia (PyTime.date_of t) (parse_hora (PyTime.strftime_HM t)) = Ret t.
Proof.
  rewrite parse_hora_strftime. unfold hora_do_dia. simpl.
  pose proof (Z.mod_pos_bound t 1440 ltac:(lia)) as Hm.
  set (m := t mod 1440) in *.
  assert (0 <= m / 60 <= 23) as Hh.
  { split; [apply Z.div_pos; lia|].
    apply Z.lt_succ_r. apply Z.div_lt_upper_bound; lia. }
  pose proof (Z.mod_pos_bound m 60 ltac:(lia)) as Hmin.
  unfold PyTime.time_replace, PyTime.c_int.
  replace (negb _) with false.
  2:{ symmetry. apply negb_false_iff.
      rewrite !andb_true_iff, !Z.leb_le. lia. }
  replace (_ && _ && _ && _) with true.
  2:{ symmetry. rewrite !andb_true_iff, !Z.leb_le. lia. }
  f_equal. unfold PyTime.combine, PyTime.date_of.
  pose proof (Z.div_mod m 60 ltac:(lia)).
  pose proof (Z.div_mod t 1440 ltac:(lia)). unfold m in *. lia.
Qed.

Lemma strftime_HM_inj t t' :
  PyTime.date_of t' = PyTime.date_of t ->
  PyTime.strftime_HM t' = PyTime.strftime_HM t -> t' = t.
Proof.
  intros Hd Hs. pose proof (hora_do_dia_strftime t') as H1.
  pose proof (hora_do_dia_strftime t) as H2.
  rewrite Hd, Hs, H2 in H1. by inversion H1.
Qed.






Lemma intervalo_efetivo_nonzero config : intervalo_efetivo config <> 0.
Proof.
  unfold intervalo_efetivo, or_int.
  destruct (Configuracao.intervalo_consultas config) as [n|]; [|lia].
  destruct (Z.eqb_spec n 0); lia.
Qed.

(** C10, as the code has it. A missing or zero interval is replaced by 30
    and any other stored interval is used as it is. With a positive
    effective interval the generation, and the whole availability route,
    end for every configuration, date and request: 1441 evaluations of each
    loop condition are never exhausted. With a negative effective interval
    and valid shift bounds: if a shift has its start strictly below its end,
    the generation never returns a list, since the cursor of that shift only
    moves backwards and stays below the end of the shift at every test; the
    loop ends all the same, when the subtraction leaves the range of
    datetime and raises OverflowError. If neither shift has its start below
    its end, both loops are skipped and the generation returns no
    candidate. *)
Theorem slot_generation_totality
  (config : Configuracao.t) (d ini_m fim_m ini_t fim_t : Z)
  (H1 : hora_do_dia d (inicio_manha config) = Ret ini_m)
  (H2 : hora_do_dia d (fim_manha config) = Ret fim_m)
  (H3 : hora_do_dia d (inicio_tarde config) = Ret ini_t)
  (H4 : hora_do_dia d (fim_tarde config) = Ret fim_t) :
  (forall c, intervalo_efetivo (com_intervalo None c) = 30
             /\ intervalo_efetivo (com_intervalo (Some 0) c) = 30)
  /\ (forall c n, n <> 0 -> intervalo_efetivo (com_intervalo (Some n) c) = n)
  /\ (forall c d' fuel, 0 < intervalo_efetivo c -> (1440 < fuel)%nat ->
        gera_horarios_base fuel c d' <> SemCombustivel)
  /\ (forall db fuel did data sid,
        0 < intervalo_efetivo (config_atual db) -> (1440 < fuel)%nat ->
        horarios_disponiveis fuel did data sid db <> SemCombustivel)
  /\ (intervalo_efetivo config < 0 -> ini_m < fim_m \/ ini_t < fim_t ->
        (forall fuel l, gera_horarios_base fuel config d <> Ret l)
        /\ exists fuel0, forall fuel, (fuel0 <= fuel)%nat ->
             gera_horarios_base fuel config d = Lanca OverflowError)
  /\ (fim_m <= ini_m -> fim_t <= ini_t ->
        forall fuel, gera_horarios_base (S fuel) config d = Ret []).
Proof.
  repeat apply conj.
  - intros c. split; reflexivity.
  - intros c n Hn. unfold intervalo_efetivo, com_intervalo, or_int; simpl.
    apply Z.eqb_neq in Hn. by rewrite Hn.
  - intros c d' fuel Hi Hf. by apply gera_horarios_base_total.
  - intros db fuel did data sid Hi Hf. by apply horarios_disponiveis_total.
  - intros Hi Hent. split.
    + intros fuel l. by eapply gera_horarios_base_neg_never_returns.
    + by eapply gera_horarios_base_neg_overflows.
  - intros Hm Ht fuel. by eapply gera_horarios_base_skip.
Qed.

Lemma slot_generation_totality_witness :
  intervalo_efetivo config_negativo < 0
  /\ (forall fuel l, gera_horarios_base fuel config_negativo segunda_feira
                     <> Ret l)
  /\ exists fuel0, forall fuel, (fuel0 <= fuel)%nat ->
       gera_horarios_base fuel config_negativo segunda_feira
       = Lanca OverflowError.
Proof.
  assert (Hneg : intervalo_efetivo config_negativo < 0) by reflexivity.
  split; [exact Hneg|].
  refine (proj1 (proj2 (proj2 (proj2 (proj2
    (slot_generation_totality config_negativo segunda_feira
       (PyTime.combine segunda_feira 480) (PyTime.combine segunda_feira 720)
       (PyTime.combine segunda_feira 840) (PyTime.combine segunda_feira 1080)
       _ _ _ _))))) Hneg _).
  - reflexivity.
  - reflexivity.
  - reflexivity.
  - reflexivity.
  - left. reflexivity.
Defined.

(** C10 as stated fails: a negative interval does not make the loops run
    forever. With the default shifts the first subtraction already leaves
    the range of datetime and the route ends with OverflowError; with shifts
    that end before they start the loops are skipped and the route answers
    with an empty list. *)
Lemma negative_interval_does_not_loop_forever :
  intervalo_efetivo config_int_min = -2147483648
  /\ gera_horarios_base 2 config_int_min segunda_feira = Lanca OverflowError
  /\ horarios_disponiveis 2 (Some 1) (Data segunda_feira) (Some 1)
       (com_config config_int_min clinica) = Lanca OverflowError
  /\ intervalo_efetivo config_invertido = -30
  /\ gera_horarios_base 1 config_invertido segunda_feira = Ret []
  /\ horarios_disponiveis 1 (Some 1) (Data segunda_feira) (Some 1)
       (com_config config_invertido clinica) = Ret (Horarios []).
Proof. repeat split; vm_compute; reflexivity. Qed.

(** ** Read path against write path (C2) *)

Lemma gera_turno_Ret_pos fuel hora_atual hora_final intervalo acc l :
  0 < intervalo ->
  gera_turno fuel hora_atual hora_final intervalo acc = Ret l ->
  l = acc ++ slots_turno hora_atual hora_final intervalo.
Proof.
  intros Hi. revert hora_atual acc.
  induction fuel as [|fuel IH]; intros hora_atual acc; simpl; [discriminate|].
  destruct (Z.ltb_spec hora_atual hora_final) as [Hlt|Hge].
  - destruct (PyTime.dt_add hora_atual intervalo) as [p|] eqn:Ha; [|discriminate].
    apply dt_add_inv in Ha as [-> _]. intros H. apply IH in H as ->.
    rewrite (slots_turno_cons hora_atual) by lia.
    rewrite <- app_assoc. reflexivity.
  - intros H; inversion H; subst l.
    rewrite slots_turno_nil by lia. by rewrite app_nil_r.
Qed.

Lemma gera_turno_Ret_neg fuel hora_atual hora_final intervalo acc l :
  intervalo < 0 ->
  gera_turno fuel hora_atual hora_final intervalo acc = Ret l ->
  l = acc.
Proof.
  intros Hi H.
  destruct (Z.lt_ge_cases hora_atual hora_final) as [Hlt|Hge].
  - exfalso. by eapply gera_turno_neg_never_returns.
  - destruct fuel as [|fuel]; [discriminate|].
    rewrite gera_turno_skip in H by lia. by inversion H.
Qed.

(** Whatever the interval, the candidates the loop adds lie between the
    start and the end of the shift. *)
Lemma gera_turno_Ret_elem fuel hora_atual hora_final intervalo acc l x :
  intervalo <> 0 ->
  gera_turno fuel hora_atual hora_final intervalo acc = Ret l ->
  x ∈ l -> x ∈ acc \/ hora_atual <= x < hora_final.
Proof.
  intros Hi H Hx.
  destruct (Z.lt_ge_cases 0 intervalo) as [Hpos|Hneg].
  - apply gera_turno_Ret_pos in H as ->; [|done].
    apply elem_of_app in Hx as [Hx|Hx]; [by left|right].
    apply slots_turno_elem in Hx as (k & Hk & -> & Hlt); [|done]. nia.
  - apply gera_turno_Ret_neg in H as ->; [|lia]. by left.
Qed.

Lemma gera_horarios_base_Ret_in_day fuel config d base h :
  gera_horarios_base fuel config d = Ret base ->
  h ∈ base ->
  PyTime.combine d 0 <= h < PyTime.combine d 1440.
Proof.
  unfold gera_horarios_base. intros H Hh.
  pose proof (intervalo_efetivo_nonzero config) as Hi.
  destruct (hora_do_dia d (inicio_manha config)) as [t1| |] eqn:E1;
    [|discriminate..]. exec_step.
  destruct (hora_do_dia d (fim_manha config)) as [t2| |] eqn:E2;
    [|discriminate..]. exec_step.
  destruct (gera_turno fuel t1 t2 _ []) as [bm| |] eqn:Em;
    [|discriminate..]. exec_step.
  destruct (hora_do_dia d (inicio_tarde config)) as [t3| |] eqn:E3;
    [|discriminate..]. exec_step.
  destruct (hora_do_dia d (fim_tarde config)) as [t4| |] eqn:E4;
    [|discriminate..]. exec_step.
  apply hora_do_dia_inv in E1 as (m1 & ? & -> & _).
  apply hora_do_dia_inv in E2 as (m2 & ? & -> & _).
  apply hora_do_dia_inv in E3 as (m3 & ? & -> & _).
  apply hora_do_dia_inv in E4 as (m4 & ? & -> & _).
  destruct (gera_turno_Ret_elem _ _ _ _ _ _ h Hi H Hh) as [Hm|Ht].
  - destruct (gera_turno_Ret_elem _ _ _ _ _ _ h Hi Em Hm) as [Hn|Hm'].
    + inversion Hn.
    + unfold PyTime.combine in *. lia.
  - unfold PyTime.combine in *. lia.
Qed.

Lemma date_of_in_day d h :
  PyTime.combine d 0 <= h < PyTime.combine d 1440 -> PyTime.date_of h = d.
Proof.
  unfold PyTime.combine, PyTime.date_of. intros [H1 H2].
  assert (h / 1440 = d - 1); [|lia].
  symmetry. apply Z.div_unique with (r := h - (d - 1) * 1440); lia.
Qed.

Lemma date_of_bounds t :
  PyTime.combine (PyTime.date_of t) 0 <= t
  < PyTime.combine (PyTime.date_of t) 1440.
Proof.
  unfold PyTime.combine, PyTime.date_of.
  pose proof (Z.div_mod t 1440 ltac:(lia)).
  pose proof (Z.mod_pos_bound t 1440 ltac:(lia)). lia.
Qed.

Lemma filtra_horarios_Ret duracao ags base acc hs s :
  filtra_horarios duracao ags base acc = Ret hs ->
  s ∈ hs ->
  s ∈ acc
  \/ exists h, h ∈ base /\ PyTime.strftime_HM h = s
       /\ PyTime.dt_add h duracao = Some (h + duracao)
       /\ tem_conflito h (h + duracao) ags = false.
Proof.
  revert acc. induction base as [|h base IH]; intros acc H Hs; simpl in H.
  - inversion H; subst hs. by left.
  - destruct (PyTime.dt_add h duracao) as [fim|] eqn:Ha; [|discriminate].
    apply dt_add_inv in Ha as Hfim. destruct Hfim as [-> _].
    destruct (tem_conflito h (h + duracao) ags) eqn:Ec.
    + destruct (IH _ H Hs) as [?|(h' & Hh' & ?)]; [by left|right].
      exists h'. split; [by right|done].
    + destruct (IH _ H Hs) as [Hin|(h' & Hh' & ?)].
      * apply elem_of_app in Hin as [?|Hin]; [by left|right].
        apply list_elem_of_singleton in Hin as ->.
        exists h. split; [left|done].
      * right. exists h'. split; [by right|done].
Qed.

Lemma agendamentos_dia_elem did d db a :
  a ∈ (query_filter (filtro_dia did d) db).*2
  <-> na_agenda db did a
      /\ PyTime.date_of (Agendamento.data_hora_inicio a) = d.
Proof.
  rewrite list_elem_of_fmap. unfold na_agenda. split.
  - intros ([id a'] & -> & H). apply query_filter_elem in H as [Hl Hf].
    unfold filtro_dia in Hf.
    rewrite !andb_true_iff, in_list_ativos, !Z.eqb_eq in Hf. simpl.
    destruct Hf as [[? ?] ?]. eauto 6.
  - intros [(id & Hl & Hd & Ha) Hdate]. exists (id, a). split; [done|].
    apply query_filter_elem. split; [done|]. unfold filtro_dia.
    rewrite !andb_true_iff, in_list_ativos, !Z.eqb_eq. done.
Qed.

Lemma horarios_disponiveis_Ret_inv fuel did d sid sv db hs :
  horarios_disponiveis fuel (Some did) (Data d) (Some sid) db
  = Ret (Horarios hs) ->
  servicos db !! sid = Some sv ->
  exists base,
    gera_horarios_base fuel (config_atual db) d = Ret base
    /\ filtra_horarios (Servico.duracao_minutos sv)
         (query_filter (filtro_dia did d) db).*2 base [] = Ret hs.
Proof.
  unfold horarios_disponiveis. intros H Hsv. rewrite Hsv in H.
  destruct (negb _); [discriminate|].
  destruct (negb _); [discriminate|].
  destruct (gera_horarios_base fuel (config_atual db) d) as [base| |];
    [|discriminate..]. exec_step.
  destruct (filtra_horarios _ _ base []) as [hs'| |] eqn:Ef;
    [|discriminate..]. exec_step.
  inversion H; subst hs'. eauto.
Qed.

(** C2, as the code has it. On one snapshot of the store, every time the
    availability route returns is a candidate of the requested date that
    passes the conflict test against the practitioner's pending or confirmed
    appointments that start on that date. It passes the conflict check of
    the booking routes, which has no date restriction, whenever no such
    appointment starting on another date overlaps it; in particular when the
    slot ends by midnight of the requested date and every such appointment
    ends by midnight of the date it starts on. *)
Theorem available_slot_passes_booking_check
  (fuel : nat) (did d sid : Z) (sv : Servico.t) (db : DB) (hs : list string)
  (Hroute : horarios_disponiveis fuel (Some did) (Data d) (Some sid) db
            = Ret (Horarios hs))
  (Hsv : servicos db !! sid = Some sv) :
  let duracao := Servico.duracao_minutos sv in
  forall s, s ∈ hs ->
    exists h,
      livre_no_dia db did d duracao s h
      /\ ((forall a, na_agenda db did a ->
             PyTime.date_of (Agendamento.data_hora_inicio a) <> d ->
             ~ sobrepoe h (h + duracao)
                 (Agendamento.data_hora_inicio a) (Agendamento.data_hora_fim a))
          -> conflito did h (h + duracao) db = None)
      /\ (h + duracao <= PyTime.combine d 1440 -> termina_no_dia db did ->
          conflito did h (h + duracao) db = None).
Proof.
  intros duracao s Hs.
  destruct (horarios_disponiveis_Ret_inv _ _ _ _ _ _ _ Hroute Hsv)
    as (base & Hbase & Hfil).
  destruct (filtra_horarios_Ret _ _ _ _ _ s Hfil Hs) as [Hnil|(h & Hh & Hstr & Hadd & Hc)];
    [inversion Hnil|].
  pose proof (gera_horarios_base_Ret_in_day _ _ _ _ h Hbase Hh) as Hday.
  pose proof (date_of_in_day _ _ Hday) as Hdate.
  assert (Hmesmo : forall a, na_agenda db did a ->
            PyTime.date_of (Agendamento.data_hora_inicio a) = d ->
            ~ sobrepoe h (h + duracao)
                (Agendamento.data_hora_inicio a) (Agendamento.data_hora_fim a)).
  { intros a Ha Hd Ho.
    assert (tem_conflito h (h + duracao)
              (query_filter (filtro_dia did d) db).*2 = true) as Ht.
    { apply tem_conflito_true. exists a. split; [|exact Ho].
      by apply agendamentos_dia_elem. }
    fold duracao in Hc. congruence. }
  assert (Houtro : (forall a, na_agenda db did a ->
             PyTime.date_of (Agendamento.data_hora_inicio a) <> d ->
             ~ sobrepoe h (h + duracao)
                 (Agendamento.data_hora_inicio a) (Agendamento.data_hora_fim a))
          -> conflito did h (h + duracao) db = None).
  { intros Hout. apply conflito_None. intros a Ha.
    destruct (decide (PyTime.date_of (Agendamento.data_hora_inicio a) = d));
      [by apply Hmesmo|by apply Hout]. }
  exists h. split; [|split].
  - unfold livre_no_dia. done.
  - exact Houtro.
  - intros Hfim Hdia. apply Houtro. intros a Ha Hne [Ho1 Ho2].
    pose proof (Hdia a Ha) as Hend.
    pose proof (date_of_bounds (Agendamento.data_hora_inicio a)) as Hb.
    unfold PyTime.combine in *.
    set (da := PyTime.date_of (Agendamento.data_hora_inicio a)) in *.
    destruct (Z.lt_ge_cases da d); [nia|].
    assert (d < da) by lia. nia.
Qed.

(** The scenario of the specification: 09:00 is left out, 08:30 and 09:30
    are offered. *)
Example horarios_com_consulta_9h :
  horarios_disponiveis 9 (Some 1) (Data segunda_feira) (Some 1) clinica_9h
  = Ret (Horarios grade_sem_9h).
Proof. vm_compute. reflexivity. Qed.

Lemma available_slot_passes_booking_check_witness :
  horarios_disponiveis 9 (Some 1) (Data segunda_feira) (Some 1) clinica_9h
  = Ret (Horarios grade_sem_9h)
  /\ servicos clinica_9h !! 1 = Some limpeza
  /\ exists h, livre_no_dia clinica_9h 1 segunda_feira 30 "08:30" h.
Proof.
  assert (Hroute : horarios_disponiveis 9 (Some 1) (Data segunda_feira)
                     (Some 1) clinica_9h = Ret (Horarios grade_sem_9h))
    by (vm_compute; reflexivity).
  assert (Hsv : servicos clinica_9h !! 1 = Some limpeza) by reflexivity.
  split; [exact Hroute|]. split; [exact Hsv|].
  destruct (available_slot_passes_booking_check 9 1 segunda_feira 1 limpeza
              clinica_9h grade_sem_9h Hroute Hsv "08:30") as (h & Hh & _).
  - right. left.
  - exists h. exact Hh.
Defined.

(** C2 as stated fails: the appointment that starts on Sunday is not among
    the appointments of Monday, so the read path offers Monday 00:00, while
    the conflict check of [agendar] finds it and refuses that slot. *)
Lemma read_path_misses_overnight_appointment :
  agendamentos clinica_virada !! 0
  = Some (Agendamento.mk (meia_noite - 15) (meia_noite + 15) "pendente" 1 1 1)
  /\ horarios_disponiveis 9 (Some 1) (Data segunda_feira) (Some 1)
       clinica_virada
     = Ret (Horarios [ "00:00"; "00:30"; "14:00"; "14:30"; "15:00"; "15:30";
                       "16:00"; "16:30"; "17:00"; "17:30" ])
  /\ PyTime.strftime_HM meia_noite = "00:00"
  /\ is_Some (conflito 1 meia_noite (meia_noite + 30) clinica_virada)
  /\ agendar semana_anterior 2 (pedido 1 1 meia_noite) clinica_virada
     = (Flash Horario_nao_disponivel, clinica_virada).
Proof.
  repeat split; try (vm_compute; reflexivity).
  vm_compute. eexists. reflexivity.
Qed.

(** * Properties of the other routes *)

(** ** What every operation keeps *)

Lemma agendar_efeito agora u form db : efeito db (agendar agora u form db).2.
Proof.
  unfold agendar.
  destruct (Form.servico_id form) as [sid|], (Form.dentista_id form) as [did|],
    (Form.data_hora form) as [| |t]; try apply efeito_nada.
  destruct (t <=? agora); [apply efeito_nada|].
  destruct (servicos db !! sid) as [sv|]; [|apply efeito_nada].
  destruct (PyTime.dt_add _ _) as [fim|]; [|apply efeito_nada].
  destruct (conflito did t fim db); [apply efeito_nada|].
  destruct (session_add_commit _ _) as [[id db']|] eqn:Hadd; [|apply efeito_nada].
  eapply efeito_insere; [exact Hadd|]. by left.
Qed.

Lemma admin_novo_agendamento_efeito p form db :
  efeito db (admin_novo_agendamento p form db).2.
Proof.
  unfold admin_novo_agendamento.
  destruct p as [pid|], (Form.servico_id form) as [sid|],
    (Form.dentista_id form) as [did|],
    (Form.data_hora form) as [| |t]; try apply efeito_nada.
  destruct (servicos db !! sid) as [sv|]; [|apply efeito_nada].
  destruct (PyTime.dt_add _ _) as [fim|]; [|apply efeito_nada].
  destruct (conflito did t fim db); [apply efeito_nada|].
  destruct (session_add_commit _ _) as [[id db']|] eqn:Hadd; [|apply efeito_nada].
  eapply efeito_insere; [exact Hadd|]. by right.
Qed.

Lemma executa_efeito op db : efeito db (executa op db).2.
Proof.
  destruct op as [agora u form|p form|u id|id s]; simpl.
  - apply agendar_efeito.
  - apply admin_novo_agendamento_efeito.
  - unfold cancelar_agendamento.
    destruct (agendamentos db !! id) as [a|] eqn:Hl; [|apply efeito_nada].
    destruct (negb _); [apply efeito_nada|].
    destruct (PyStr.in_list _ _); [apply efeito_nada|].
    apply efeito_status; auto.
  - unfold atualizar_status_agendamento.
    destruct (agendamentos db !! id) as [a|] eqn:Hl; [|apply efeito_nada].
    destruct s as [s|]; [|apply efeito_nada].
    destruct (PyStr.in_list s _) eqn:Hs; [|apply efeito_nada].
    apply efeito_status; [done|]. by apply in_list_novos.
Qed.

(** The routes of services, practitioners and calendar never touch the
    appointments or the patients. *)
Lemma executa_admin_agendamentos op db :
  (forall op', op <> Op_rota op') ->
  agendamentos (executa_admin op db) = agendamentos db
  /\ usuarios (executa_admin op db) = usuarios db.
Proof.
  intros Hop. destruct op as [op'|form|id form|id|id form|id|post]; simpl.
  - by destruct (Hop op').
  - unfold novo_servico. by destruct (servico_cabe form).
  - unfold editar_servico. destruct (servicos db !! id); [|done].
    by destruct (servico_cabe form).
  - unfold excluir_servico. destruct (servicos db !! id); [|done].
    by destruct (agendamentos_do_servico id db).
  - unfold editar_dentista. destruct (dentistas db !! id); [|done].
    by destruct (_ && _).
  - unfold excluir_dentista. destruct (dentistas db !! id); [|done].
    by destruct (agendamentos_do_dentista id db).
  - unfold admin_configuracoes, garante_configuracao.
    destruct post as [form|]; [destruct (configuracao_do_form form)|];
      by destruct (configuracoes db).
Qed.

Lemma query_filter_nil f db :
  query_filter f db = [] ->
  forall id a, agendamentos db !! id = Some a -> f a = false.
Proof.
  intros Hnil id a Hl. destruct (f a) eqn:E; [|done].
  assert ((id, a) ∈ query_filter f db) as Hin by by apply query_filter_elem.
  rewrite Hnil in Hin. inversion Hin.
Qed.

Lemma executa_admin_integridade op db :
  integridade_referencial db -> integridade_referencial (executa_admin op db).
Proof.
  intros Hint.
  destruct op as [op'|form|id form|id|id form|id|post]; simpl.
  - destruct (executa_efeito op' db) as [|a k db' Hadd _|k a s Hl _].
    + exact Hint.
    + apply session_add_commit_inv in Hadd as (Hu & Hd & Hs & -> & Hk & ->).
      intros j b Hj. simpl in *.
      destruct (decide (j = fresh (dom (agendamentos db)))) as [->|Hne].
      * rewrite lookup_insert_eq in Hj. by inversion Hj; subst b.
      * rewrite lookup_insert_ne in Hj by done. by eapply Hint.
    + intros j b Hj. simpl in *.
      destruct (decide (j = k)) as [->|Hne].
      * rewrite lookup_insert_eq in Hj. inversion Hj; subst b. simpl.
        by eapply Hint.
      * rewrite lookup_insert_ne in Hj by done. by eapply Hint.
  - unfold novo_servico. destruct (servico_cabe form); [|exact Hint].
    intros j b Hj. simpl in *. destruct (Hint j b Hj) as (Hu & Hd & Hs).
    repeat split; [done..|].
    destruct (decide (fresh (dom (servicos db)) = Agendamento.servico_id b))
      as [<-|Hne].
    + rewrite lookup_insert_eq. eauto.
    + by rewrite lookup_insert_ne.
  - unfold editar_servico. destruct (servicos db !! id) eqn:Hid; [|exact Hint].
    destruct (servico_cabe form); [|exact Hint].
    intros j b Hj. simpl in *. destruct (Hint j b Hj) as (Hu & Hd & Hs).
    repeat split; [done..|].
    destruct (decide (id = Agendamento.servico_id b)) as [<-|Hne].
    + rewrite lookup_insert_eq. eauto.
    + by rewrite lookup_insert_ne.
  - unfold excluir_servico. destruct (servicos db !! id) eqn:Hid; [|exact Hint].
    destruct (agendamentos_do_servico id db) eqn:Hq; [|exact Hint].
    intros j b Hj. simpl in *. destruct (Hint j b Hj) as (Hu & Hd & Hs).
    repeat split; [done..|].
    pose proof (query_filter_nil _ _ Hq j b Hj) as Hne. simpl in Hne.
    apply Z.eqb_neq in Hne. by rewrite lookup_delete_ne.
  - unfold editar_dentista. destruct (dentistas db !! id) eqn:Hid; [|exact Hint].
    destruct (_ && _); [|exact Hint].
    intros j b Hj. simpl in *. destruct (Hint j b Hj) as (Hu & Hd & Hs).
    repeat split; [done| |done].
    destruct (decide (id = Agendamento.dentista_id b)) as [<-|Hne].
    + rewrite lookup_insert_eq. eauto.
    + by rewrite lookup_insert_ne.
  - unfold excluir_dentista. destruct (dentistas db !! id) eqn:Hid; [|exact Hint].
    destruct (agendamentos_do_dentista id db) eqn:Hq; [|exact Hint].
    intros j b Hj. simpl in *. destruct (Hint j b Hj) as (Hu & Hd & Hs).
    repeat split; [done| |done].
    pose proof (query_filter_nil _ _ Hq j b Hj) as Hne. simpl in Hne.
    apply Z.eqb_neq in Hne. by rewrite lookup_delete_ne.
  - unfold admin_configuracoes, garante_configuracao.
    destruct post as [form|]; [destruct (configuracao_do_form form)|];
      by destruct (configuracoes db).
Qed.

(** X1. Referential integrity is kept by every sequence of operations: if
    every appointment references an existing patient, practitioner and
    service, it still does after any bookings, cancellations, status
    updates, service and practitioner edits and deletions and calendar
    updates; the deletion routes never remove a row that an appointment
    references. *)
Theorem referential_integrity_kept (ops : list operacao_admin) (db : DB)
  (Hint : integridade_referencial db) :
  integridade_referencial (executa_admin_todas ops db).
Proof.
  revert db Hint. induction ops as [|op ops IH]; intros db Hint; simpl.
  - exact Hint.
  - apply IH. by apply executa_admin_integridade.
Qed.

(** The small clinic with the 09:00 appointment keeps referential
    integrity. *)
Lemma clinica_9h_integridade : integridade_referencial clinica_9h.
Proof.
  intros id a Hl. simpl in Hl.
  apply lookup_singleton_Some in Hl as [<- <-]. simpl.
  repeat split; [set_solver|vm_compute; eauto..].
Qed.

Lemma referential_integrity_kept_witness :
  integridade_referencial clinica_9h
  /\ integridade_referencial (executa_admin_todas sessao_admin clinica_9h).
Proof.
  split; [exact clinica_9h_integridade|].
  exact (referential_integrity_kept sessao_admin clinica_9h
           clinica_9h_integridade).
Defined.

Lemma set_status_set_status s s' a :
  Agendamento.set_status s' (Agendamento.set_status s a)
  = Agendamento.set_status s' a.
Proof. reflexivity. Qed.

Lemma set_status_id a : Agendamento.set_status (Agendamento.status a) a = a.
Proof. by destruct a. Qed.

Lemma executa_admin_linha op db id a :
  agendamentos db !! id = Some a ->
  exists s, agendamentos (executa_admin op db) !! id
            = Some (Agendamento.set_status s a)
    /\ (s = Agendamento.status a
        \/ s = "confirmado" \/ s = "cancelado" \/ s = "concluido").
Proof.
  intros Hl.
  assert (Hsame : agendamentos (executa_admin op db) = agendamentos db ->
            exists s, agendamentos (executa_admin op db) !! id
                      = Some (Agendamento.set_status s a)
              /\ (s = Agendamento.status a
                  \/ s = "confirmado" \/ s = "cancelado" \/ s = "concluido")).
  { intros ->. exists (Agendamento.status a). rewrite set_status_id. auto. }
  destruct op as [op'|form|k form|k|k form|k|post];
    try (apply Hsame; apply executa_admin_agendamentos; discriminate).
  clear Hsame. simpl.
  destruct (executa_efeito op' db) as [|b k db' Hadd _|k b s Hk Hs].
  - exists (Agendamento.status a). rewrite set_status_id. auto.
  - apply session_add_commit_inv in Hadd as (_ & _ & _ & -> & Hk & ->).
    exists (Agendamento.status a). rewrite set_status_id. simpl.
    split; [|auto]. rewrite lookup_insert_ne; [done|]. congruence.
  - simpl. destruct (decide (k = id)) as [->|Hne].
    + rewrite lookup_insert_eq. rewrite Hl in Hk. inversion Hk; subst b.
      exists s. auto.
    + rewrite lookup_insert_ne by done.
      exists (Agendamento.status a). rewrite set_status_id. auto.
Qed.

Lemma executa_admin_todas_linha ops db id a :
  agendamentos db !! id = Some a ->
  exists s,
    agendamentos (executa_admin_todas ops db) !! id
    = Some (Agendamento.set_status s a)
    /\ (s = Agendamento.status a
        \/ s = "confirmado" \/ s = "cancelado" \/ s = "concluido").
Proof.
  revert db a. induction ops as [|op ops IH]; intros db a Hrow; simpl.
  - exists (Agendamento.status a). rewrite set_status_id. auto.
  - destruct (executa_admin_linha op db id a Hrow) as (s & Hs & Hcase).
    destruct (IH _ _ Hs) as (s' & Hs' & Hcase').
    exists s'. rewrite set_status_set_status in Hs'. split; [exact Hs'|].
    simpl in Hcase'. destruct Hcase' as [->|?]; auto.
Qed.

(** X2. No operation deletes or reschedules an appointment: a row that is
    in the store is still there, under the same key, after any sequence of
    operations, with the same start, end, patient, practitioner and service;
    only its status can differ, and then it is the row's own or one of
    Confirmed, Cancelled and Completed. In particular editing the duration
    of a service never changes the stored end of an appointment. *)
Theorem appointment_rows_persist (ops : list operacao_admin) (db : DB)
  (id : Z) (a : Agendamento.t)
  (Hrow : agendamentos db !! id = Some a) :
  exists s,
    agendamentos (executa_admin_todas ops db) !! id
    = Some (Agendamento.set_status s a)
    /\ (s = Agendamento.status a
        \/ s = "confirmado" \/ s = "cancelado" \/ s = "concluido").
Proof. by apply executa_admin_todas_linha. Qed.

Lemma appointment_rows_persist_witness :
  agendamentos clinica_9h !! 3
  = Some (Agendamento.mk as_9h (as_9h + 30) "confirmado" 2 1 1)
  /\ exists s,
       agendamentos (executa_admin_todas sessao_admin clinica_9h) !! 3
       = Some (Agendamento.mk as_9h (as_9h + 30) s 2 1 1).
Proof.
  assert (H : agendamentos clinica_9h !! 3
              = Some (Agendamento.mk as_9h (as_9h + 30) "confirmado" 2 1 1))
    by reflexivity.
  split; [exact H|].
  destruct (appointment_rows_persist sessao_admin clinica_9h 3 _ H)
    as (s & Hs & _).
  exists s. exact Hs.
Defined.

(** ** The status badge *)

Lemma get_status_badge_secondary a :
  get_status_badge a = "secondary" <-> ~ status_conhecido a.
Proof.
  unfold get_status_badge, status_conhecido, ativo, terminal, badges.
  destruct a as [i f s p d sv]. cbn [Agendamento.status dict_get].
  destruct (String.eqb_spec "pendente" s) as [<-|H1];
    [split; [discriminate|intros H; exfalso; apply H; auto]|].
  destruct (String.eqb_spec "confirmado" s) as [<-|H2];
    [split; [discriminate|intros H; exfalso; apply H; auto]|].
  destruct (String.eqb_spec "cancelado" s) as [<-|H3];
    [split; [discriminate|intros H; exfalso; apply H; auto]|].
  destruct (String.eqb_spec "concluido" s) as [<-|H4];
    [split; [discriminate|intros H; exfalso; apply H; auto]|].
  split; [|reflexivity]. intros _ [[?|?]|[?|?]]; congruence.
Qed.

Lemma executa_admin_status_conhecido op db :
  (forall id a, agendamentos db !! id = Some a -> status_conhecido a) ->
  forall id a, agendamentos (executa_admin op db) !! id = Some a ->
    status_conhecido a.
Proof.
  intros Hknown id a Hl.
  assert (Hsame : agendamentos (executa_admin op db) = agendamentos db ->
            status_conhecido a).
  { intros Heq. rewrite Heq in Hl. by eapply Hknown. }
  destruct op as [op'|form|k form|k|k form|k|post];
    try (apply Hsame; apply executa_admin_agendamentos; discriminate).
  clear Hsame. simpl in Hl.
  destruct (executa_efeito op' db) as [|b k db' Hadd Hb|k b s Hk Hs].
  - by eapply Hknown.
  - apply session_add_commit_inv in Hadd as (_ & _ & _ & -> & _ & ->).
    simpl in Hl.
    destruct (decide (id = fresh (dom (agendamentos db)))) as [->|Hne].
    + rewrite lookup_insert_eq in Hl. inversion Hl; subst. by left.
    + rewrite lookup_insert_ne in Hl by done. by eapply Hknown.
  - simpl in Hl. destruct (decide (id = k)) as [->|Hne].
    + rewrite lookup_insert_eq in Hl. inversion Hl; subst a.
      unfold status_conhecido, ativo, terminal. simpl.
      destruct Hs as [->|[->| ->]]; auto.
    + rewrite lookup_insert_ne in Hl by done. by eapply Hknown.
Qed.

(** X3. [get_status_badge] falls back to 'secondary' exactly for a status
    outside the four of the model, and no operation writes such a status: if
    every stored appointment is Pending, Confirmed, Cancelled or Completed,
    then after any sequence of operations every appointment still is, and
    its badge is never the fallback. *)
Theorem status_badge_never_fallback (ops : list operacao_admin) (db : DB)
  (Hknown : forall id a, agendamentos db !! id = Some a -> status_conhecido a) :
  (forall a, get_status_badge a = "secondary" <-> ~ status_conhecido a)
  /\ forall id a, agendamentos (executa_admin_todas ops db) !! id = Some a ->
       status_conhecido a /\ get_status_badge a <> "secondary".
Proof.
  split; [apply get_status_badge_secondary|].
  assert (forall id a, agendamentos (executa_admin_todas ops db) !! id = Some a ->
            status_conhecido a) as H.
  { revert db Hknown. induction ops as [|op ops IH]; intros db Hknown; simpl.
    - exact Hknown.
    - apply IH. by apply executa_admin_status_conhecido. }
  intros id a Hl. split; [by eapply H|].
  rewrite get_status_badge_secondary. intros Hn. apply Hn. by eapply H.
Qed.

Lemma status_badge_never_fallback_witness :
  (forall id a, agendamentos clinica_9h !! id = Some a -> status_conhecido a)
  /\ forall id a,
       agendamentos (executa_admin_todas sessao_admin clinica_9h) !! id = Some a ->
       status_conhecido a /\ get_status_badge a <> "secondary".
Proof.
  assert (H : forall id a, agendamentos clinica_9h !! id = Some a ->
                status_conhecido a).
  { intros id a Hl. simpl in Hl. apply lookup_singleton_Some in Hl as [_ <-].
    left. right. reflexivity. }
  split; [exact H|].
  exact (proj2 (status_badge_never_fallback sessao_admin clinica_9h H)).
Defined.

(** ** The agenda under every operation *)

Lemma agenda_consistente_ext db db' :
  agendamentos db' = agendamentos db ->
  agenda_consistente db -> agenda_consistente db'.
Proof.
  intros Heq Hinv i j a b Hij Hi Hj. rewrite Heq in Hi, Hj.
  by eapply Hinv.
Qed.

Lemma executa_admin_preserva op db :
  agenda_consistente db -> ~ reativa_admin op db ->
  agenda_consistente (executa_admin op db).
Proof.
  intros Hinv Hre.
  destruct op as [op'|form|k form|k|k form|k|post];
    try (eapply agenda_consistente_ext; [|exact Hinv];
         apply executa_admin_agendamentos; discriminate).
  simpl. by apply executa_preserva.
Qed.

(** X4. The agenda of every practitioner stays free of overlaps along any
    sequence of operations in which the administrator never sets a
    Cancelled or Completed appointment back to Confirmed: bookings on both
    routes, patient cancellations, the other status updates, and every
    edit or deletion of services, practitioners and calendar keep the
    Pending and Confirmed appointments of a practitioner pairwise
    non-overlapping. *)
Theorem agenda_stays_consistent (ops : list operacao_admin) (db : DB)
  (Hinv : agenda_consistente db)
  (Hops : sem_reativacao_admin ops db) :
  agenda_consistente (executa_admin_todas ops db).
Proof.
  revert db Hinv Hops. induction ops as [|op ops IH]; intros db Hinv Hops; simpl.
  - exact Hinv.
  - destruct Hops as [Hop Hops]. apply IH; [|exact Hops].
    by apply executa_admin_preserva.
Qed.

Lemma clinica_9h_consistente : agenda_consistente clinica_9h.
Proof.
  intros i j a b Hij Hi Hj. simpl in Hi, Hj.
  apply lookup_singleton_Some in Hi as [<- _].
  apply lookup_singleton_Some in Hj as [<- _]. done.
Qed.

Lemma agenda_stays_consistent_witness :
  agenda_consistente clinica_9h
  /\ sem_reativacao_admin sessao_admin clinica_9h
  /\ agenda_consistente (executa_admin_todas sessao_admin clinica_9h).
Proof.
  assert (Hops : sem_reativacao_admin sessao_admin clinica_9h)
    by (simpl; tauto).
  split; [exact clinica_9h_consistente|]. split; [exact Hops|].
  exact (agenda_stays_consistent sessao_admin clinica_9h
           clinica_9h_consistente Hops).
Defined.

(** ** When a booking is refused for a conflict *)

Lemma reserva_cases sid did t fim status u sucesso db :
  (forall id, sucesso id <> Horario_nao_disponivel) ->
  match conflito did t fim db with
  | Some _ => (Flash Horario_nao_disponivel, db)
  | None =>
      match session_add_commit (Agendamento.mk t fim status u did sid) db with
      | None => (Http500 IntegrityError, db)
      | Some (id, db') => (Flash (sucesso id), db')
      end
  end.1 = Flash Horario_nao_disponivel
  <-> is_Some (conflito did t fim db).
Proof.
  intros Hs. destruct (conflito did t fim db) as [c|]; simpl.
  - split; eauto.
  - split; [|intros [? ?]; discriminate].
    destruct (session_add_commit _ _) as [[id db']|]; simpl; [|discriminate].
    intros H. inversion H as [H']. by destruct (Hs id).
Qed.

(** X5. For a complete request whose service resolves and whose end is a
    representable datetime (and, on the patient route, whose start is after
    the submission time), each booking route answers SlotTaken exactly when
    some Pending or Confirmed appointment [a] of the requested practitioner
    satisfies [start < a.end] and [a.start < end], with
    [end = start + service.duration]; and it then stores nothing. *)
Theorem slot_taken_iff_overlap
  (agora u p sid did t fim : Z) (sv : Servico.t) (db : DB)
  (Hfuturo : agora < t)
  (Hsv : servicos db !! sid = Some sv)
  (Hfim : PyTime.dt_add t (Servico.duracao_minutos sv) = Some fim) :
  let ocupado :=
    exists a, na_agenda db did a
      /\ t < Agendamento.data_hora_fim a
      /\ Agendamento.data_hora_inicio a < fim in
  ((agendar agora u (pedido sid did t) db).1 = Flash Horario_nao_disponivel
   <-> ocupado)
  /\ ((admin_novo_agendamento (Some p) (pedido sid did t) db).1
      = Flash Horario_nao_disponivel <-> ocupado)
  /\ (ocupado ->
      agendar agora u (pedido sid did t) db = (Flash Horario_nao_disponivel, db)
      /\ admin_novo_agendamento (Some p) (pedido sid did t) db
         = (Flash Horario_nao_disponivel, db)).
Proof.
  intros ocupado.
  assert (Hoc : ocupado <-> is_Some (conflito did t fim db)).
  { unfold ocupado. rewrite conflito_is_Some. reflexivity. }
  assert (Hle : (t <=? agora) = false) by (apply Z.leb_gt; lia).
  unfold agendar, admin_novo_agendamento, pedido; simpl.
  rewrite Hle, Hsv, Hfim.
  split; [|split].
  - rewrite Hoc. by apply reserva_cases.
  - rewrite Hoc. by apply reserva_cases.
  - intros H. apply Hoc in H as [c Hc]. by rewrite Hc.
Qed.

Lemma slot_taken_iff_overlap_witness :
  semana_anterior < as_9h
  /\ servicos clinica_9h !! 1 = Some limpeza
  /\ agendar semana_anterior 1 (pedido 1 1 as_9h) clinica_9h
     = (Flash Horario_nao_disponivel, clinica_9h).
Proof.
  assert (H1 : semana_anterior < as_9h) by (vm_compute; reflexivity).
  assert (H2 : servicos clinica_9h !! 1 = Some limpeza) by reflexivity.
  assert (H3 : PyTime.dt_add as_9h (Servico.duracao_minutos limpeza)
               = Some (as_9h + 30)) by reflexivity.
  split; [exact H1|]. split; [exact H2|].
  apply (slot_taken_iff_overlap semana_anterior 1 1 1 1 as_9h (as_9h + 30)
           limpeza clinica_9h H1 H2 H3).
  exists (Agendamento.mk as_9h (as_9h + 30) "confirmado" 2 1 1).
  split.
  - exists 3. split; [reflexivity|]. split; [reflexivity|]. right. reflexivity.
  - simpl. unfold as_9h, as_8h30. lia.
Defined.

(** ** Services and practitioners *)

(** X6. The duration of a service is not validated: [novo_servico] stores
    whatever integer the form gives, zero and negative durations included.
    With a service of duration zero or less, a booking that
    succeeded does not occupy its slot: the same request for the same
    practitioner and start, by any existing patient, succeeds again, and the
    practitioner ends up with two Pending appointments over the same
    interval. *)
Theorem nonpositive_duration_double_books
  (agora u u' sid did t id : Z) (sv : Servico.t) (db db' : DB)
  (Hsv : servicos db !! sid = Some sv)
  (Hdur : Servico.duracao_minutos sv <= 0)
  (Hu' : u' ∈ usuarios db)
  (Hbook : agendar agora u (pedido sid did t) db
           = (Flash (Agendamento_realizado id), db')) :
  (forall form db0, servico_cabe form = true ->
     (novo_servico form db0).1 = Aviso Servico_cadastrado
     /\ servicos (novo_servico form db0).2 !! fresh (dom (servicos db0))
        = Some (Servico.mk
                  (PyForm.get_int (FormServico.duracao_minutos form) 30) true))
  /\ PyForm.get_int (Some "0") 30 = 0
  /\ PyForm.get_int (Some "-30") 30 = -30
  /\ exists id' db'',
       id' <> id
       /\ agendar agora u' (pedido sid did t) db'
          = (Flash (Agendamento_realizado id'), db'')
       /\ agendamentos db'' !! id
          = Some (Agendamento.mk t (t + Servico.duracao_minutos sv)
                    "pendente" u did sid)
       /\ agendamentos db'' !! id'
          = Some (Agendamento.mk t (t + Servico.duracao_minutos sv)
                    "pendente" u' did sid).
Proof.
  split; [|split; [reflexivity|split; [reflexivity|]]].
  { intros form db0 Hc. unfold novo_servico. rewrite Hc. simpl.
    split; [reflexivity|]. apply lookup_insert_eq. }
  apply agendar_sucesso in Hbook
    as (sv' & fim & Hfut & Hsv' & Hadd & -> & Hconf & Hins).
  rewrite Hsv in Hsv'. inversion Hsv'; subst sv'. clear Hsv'.
  apply session_add_commit_inv in Hins as (Hu & Hd & Hs & -> & Hfresh & ->).
  simpl in Hd, Hs.
  set (fim := t + Servico.duracao_minutos sv) in *.
  set (a := Agendamento.mk t fim "pendente" u did sid) in *.
  set (k := fresh (dom (agendamentos db))) in *.
  set (db1 := com_agendamentos (<[k := a]> (agendamentos db)) db).
  assert (Hle : (t <=? agora) = false) by (apply Z.leb_gt; lia).
  assert (Hc1 : conflito did t fim db1 = None).
  { apply conflito_None. intros b (j & Hj & Hbd & Hba).
    unfold db1 in Hj. simpl in Hj.
    destruct (decide (j = k)) as [->|Hne].
    - rewrite lookup_insert_eq in Hj. inversion Hj; subst b.
      unfold sobrepoe. simpl. lia.
    - rewrite lookup_insert_ne in Hj by done.
      apply conflito_None with (a := b) in Hconf; [done|]. exists j. auto. }
  set (a' := Agendamento.mk t fim "pendente" u' did sid).
  assert (Hadd1 : session_add_commit a' db1
                  = Some (fresh (dom (agendamentos db1)),
                          com_agendamentos
                            (<[fresh (dom (agendamentos db1)) := a']>
                               (agendamentos db1)) db1)).
  { unfold session_add_commit. simpl.
    rewrite (bool_decide_eq_true_2 _ Hu'), (bool_decide_eq_true_2 _ Hd),
      (bool_decide_eq_true_2 _ Hs). reflexivity. }
  assert (Hk1 : fresh (dom (agendamentos db1)) <> k).
  { intros Heq. apply (is_fresh (dom (agendamentos db1))). rewrite Heq.
    apply elem_of_dom. unfold db1. simpl. rewrite lookup_insert_eq. eauto. }
  eexists _, _. split; [exact Hk1|]. split; [|split].
  - unfold agendar, pedido; simpl. rewrite Hle.
    change (servicos db1) with (servicos db). rewrite Hsv, Hadd, Hc1.
    fold a'. rewrite Hadd1. reflexivity.
  - simpl. rewrite lookup_insert_ne by done. apply lookup_insert_eq.
  - simpl. apply lookup_insert_eq.
Qed.

Lemma nonpositive_duration_double_books_witness :
  servicos clinica_duracao_zero !! 3 = Some (Servico.mk 0 true)
  /\ exists id' db'',
       id' <> 0
       /\ agendar semana_anterior 2 (pedido 3 1 as_8h30)
            (agendar semana_anterior 1 (pedido 3 1 as_8h30)
               clinica_duracao_zero).2
          = (Flash (Agendamento_realizado id'), db'')
       /\ agendamentos db'' !! 0
          = Some (Agendamento.mk as_8h30 (as_8h30 + 0) "pendente" 1 1 3)
       /\ agendamentos db'' !! id'
          = Some (Agendamento.mk as_8h30 (as_8h30 + 0) "pendente" 2 1 3).
Proof.
  assert (Hsv : servicos clinica_duracao_zero !! 3 = Some (Servico.mk 0 true))
    by reflexivity.
  split; [exact Hsv|].
  refine (proj2 (proj2 (proj2
    (nonpositive_duration_double_books semana_anterior 1 2 3 1 as_8h30 0
       (Servico.mk 0 true) clinica_duracao_zero
       (agendar semana_anterior 1 (pedido 3 1 as_8h30) clinica_duracao_zero).2
       Hsv _ _ _)))).
  - simpl. lia.
  - vm_compute. set_solver.
  - vm_compute. reflexivity.
Defined.

(** X7. A service or a practitioner that an appointment references can
    never be deleted afterwards: since appointments are never removed,
    whatever operations follow, [excluir_servico] and [excluir_dentista]
    refuse and leave the store unchanged, also when the appointment has
    been cancelled or completed in the meantime. *)
Theorem referenced_rows_block_deletion (ops : list operacao_admin) (db : DB)
  (id : Z) (a : Agendamento.t)
  (Hrow : agendamentos db !! id = Some a) :
  let db' := executa_admin_todas ops db in
  (excluir_servico (Agendamento.servico_id a) db').1 <> Aviso Servico_excluido
  /\ (excluir_servico (Agendamento.servico_id a) db').2 = db'
  /\ (excluir_dentista (Agendamento.dentista_id a) db').1
     <> Aviso Dentista_excluido
  /\ (excluir_dentista (Agendamento.dentista_id a) db').2 = db'.
Proof.
  intros db'.
  destruct (executa_admin_todas_linha ops db id a Hrow) as (s & Hs & _).
  fold db' in Hs.
  assert (Hsv : (id, Agendamento.set_status s a)
                ∈ agendamentos_do_servico (Agendamento.servico_id a) db').
  { apply query_filter_elem. split; [done|]. simpl. apply Z.eqb_refl. }
  assert (Hd : (id, Agendamento.set_status s a)
               ∈ agendamentos_do_dentista (Agendamento.dentista_id a) db').
  { apply query_filter_elem. split; [done|]. simpl. apply Z.eqb_refl. }
  unfold excluir_servico, excluir_dentista.
  destruct (servicos db' !! _); destruct (dentistas db' !! _);
    destruct (agendamentos_do_servico _ db');
    destruct (agendamentos_do_dentista _ db');
    try (by inversion Hsv); try (by inversion Hd); done.
Qed.

Lemma referenced_rows_block_deletion_witness :
  agendamentos clinica_9h !! 3
  = Some (Agendamento.mk as_9h (as_9h + 30) "confirmado" 2 1 1)
  /\ (excluir_dentista 1
        (executa_admin_todas
           [Op_rota (Op_atualizar_status_agendamento 3 (Some "cancelado"))]
           clinica_9h)).1
     <> Aviso Dentista_excluido.
Proof.
  assert (H : agendamentos clinica_9h !! 3
              = Some (Agendamento.mk as_9h (as_9h + 30) "confirmado" 2 1 1))
    by reflexivity.
  split; [exact H|].
  apply (referenced_rows_block_deletion
           [Op_rota (Op_atualizar_status_agendamento 3 (Some "cancelado"))]
           clinica_9h 3 _ H).
Defined.

Lemma query_filter_nil_iff f db :
  query_filter f db = []
  <-> forall id a, agendamentos db !! id = Some a -> f a = false.
Proof.
  split; [apply query_filter_nil|].
  intros H. destruct (query_filter f db) as [|[id a] l] eqn:E; [done|].
  assert ((id, a) ∈ query_filter f db) as Hin by (rewrite E; left).
  apply query_filter_elem in Hin as [Hl Hf]. rewrite (H id a Hl) in Hf.
  discriminate.
Qed.

Lemma servico_inexistente_agendar agora u sid did t db :
  agora < t -> servicos db !! sid = None ->
  agendar agora u (pedido sid did t) db = (Flash Servico_nao_encontrado, db).
Proof.
  intros Hlt Hs. unfold agendar, pedido; simpl.
  apply Z.leb_gt in Hlt. by rewrite Hlt, Hs.
Qed.

Lemma servico_inexistente_horarios fuel did d sid db :
  did <> 0 -> sid <> 0 -> servicos db !! sid = None ->
  horarios_disponiveis fuel (Some did) (Data d) (Some sid) db
  = Ret Erro_servico_nao_encontrado.
Proof.
  intros Hd Hs Hsv. unfold horarios_disponiveis; simpl.
  apply Z.eqb_neq in Hd, Hs. by rewrite Hd, Hs, Hsv.
Qed.

(** X8. [excluir_servico] deletes exactly when the service exists and no
    appointment, whatever its status, references it; in every other case
    the store is unchanged. After a deletion only that service is gone, a
    booking request for it (with a start after the submission time) is
    answered NotFound, and so is an availability request for it. *)
Theorem excluir_servico_outcome (id : Z) (db : DB) :
  let db' := (excluir_servico id db).2 in
  ((excluir_servico id db).1 = Aviso Servico_excluido
   <-> is_Some (servicos db !! id)
       /\ forall k a, agendamentos db !! k = Some a ->
            Agendamento.servico_id a <> id)
  /\ ((excluir_servico id db).1 <> Aviso Servico_excluido -> db' = db)
  /\ ((excluir_servico id db).1 = Aviso Servico_excluido ->
      servicos db' = delete id (servicos db)
      /\ agendamentos db' = agendamentos db
      /\ dentistas db' = dentistas db
      /\ (forall agora u did t, agora < t ->
            agendar agora u (pedido id did t) db'
            = (Flash Servico_nao_encontrado, db'))
      /\ (forall fuel did d, did <> 0 -> id <> 0 ->
            horarios_disponiveis fuel (Some did) (Data d) (Some id) db'
            = Ret Erro_servico_nao_encontrado)).
Proof.
  intros db'. unfold db', excluir_servico.
  destruct (servicos db !! id) as [sv|] eqn:Hsv.
  - destruct (agendamentos_do_servico id db) as [|r l] eqn:Hq; cbn [fst snd].
    + split; [|split; [done|]].
      * split; [intros _|done]. split; [eauto|].
        intros k a Hk. apply Z.eqb_neq.
        apply (query_filter_nil _ _ Hq k a Hk).
      * intros _. split; [reflexivity|]. split; [reflexivity|].
        split; [reflexivity|]. split.
        -- intros. apply servico_inexistente_agendar; [done|].
           cbn [servicos com_servicos]. apply lookup_delete_eq.
        -- intros. apply servico_inexistente_horarios; [done..|].
           cbn [servicos com_servicos]. apply lookup_delete_eq.
    + split; [|split; [done|discriminate]].
      split; [discriminate|]. intros [_ H]. exfalso.
      assert (agendamentos_do_servico id db = []) as Hnil.
      { apply query_filter_nil_iff. intros k a Hk. apply Z.eqb_neq. by eapply H. }
      congruence.
  - cbn [fst snd]. split; [|split; [done|discriminate]].
    split; [discriminate|]. intros [[? ?] _]. discriminate.
Qed.

(** X9. [editar_servico], when the store accepts the form, replaces the
    duration of that service by the integer of the form (30 when the field
    is missing or is no integer) and leaves every appointment and every
    other service as they were; a booking made afterwards for that service
    ends at [start + the new duration]. *)
Theorem edited_duration_applies_to_new_bookings
  (id : Z) (form : FormServico.t) (db : DB)
  (Hid : is_Some (servicos db !! id))
  (Hcabe : servico_cabe form = true) :
  let n := PyForm.get_int (FormServico.duracao_minutos form) 30 in
  let db' := (editar_servico id form db).2 in
  (editar_servico id form db).1 = Aviso Servico_atualizado
  /\ agendamentos db' = agendamentos db
  /\ servicos db' !! id = Some (Servico.mk n (FormServico.ativo form))
  /\ (forall j, j <> id -> servicos db' !! j = servicos db !! j)
  /\ (FormServico.duracao_minutos form = None -> n = 30)
  /\ (forall s, FormServico.duracao_minutos form = Some s ->
        PyStr.py_int s = None -> n = 30)
  /\ forall agora u did t k db'',
       agendar agora u (pedido id did t) db'
       = (Flash (Agendamento_realizado k), db'') ->
       agendamentos db'' !! k
       = Some (Agendamento.mk t (t + n) "pendente" u did id).
Proof.
  intros n db'. unfold db', editar_servico.
  destruct Hid as [sv Hsv]. rewrite Hsv, Hcabe. simpl.
  repeat split.
  - apply lookup_insert_eq.
  - intros j Hj. by apply lookup_insert_ne.
  - unfold n. by intros ->.
  - unfold n, PyForm.get_int. intros s -> Hs. rewrite Hs.
    by destruct (_ <? _)%nat.
  - intros agora u did t k db'' Hb.
    apply agendar_sucesso in Hb as (sv' & fim & _ & Hsv' & _ & -> & _ & Hins).
    simpl in Hsv'. rewrite lookup_insert_eq in Hsv'. inversion Hsv'; subst sv'.
    apply session_add_commit_inv in Hins as (_ & _ & _ & -> & _ & ->).
    simpl. apply lookup_insert_eq.
Qed.

Lemma edited_duration_applies_to_new_bookings_witness :
  is_Some (servicos clinica !! 1)
  /\ servico_cabe form_servico_45 = true
  /\ servicos (editar_servico 1 form_servico_45 clinica).2 !! 1
     = Some (Servico.mk 45 true).
Proof.
  assert (H1 : is_Some (servicos clinica !! 1)) by (vm_compute; eauto).
  assert (H2 : servico_cabe form_servico_45 = true) by reflexivity.
  split; [exact H1|]. split; [exact H2|].
  apply (edited_duration_applies_to_new_bookings 1 form_servico_45 clinica
           H1 H2).
Defined.

(** ** The calendar *)

Lemma configuracao_do_form_Some form config :
  configuracao_do_form form = Some config ->
  Configuracao.intervalo_consultas config
  = Some (PyForm.get_int (FormConfig.intervalo_consultas form) 30)
  /\ (forall dia, dias_habilitados config dia = Some (dia_do_form form dia))
  /\ Configuracao.hora_inicio_manha config
     = Pg.varchar 5 (default "08:00" (FormConfig.hora_inicio_manha form))
  /\ Configuracao.hora_fim_manha config
     = Pg.varchar 5 (default "12:00" (FormConfig.hora_fim_manha form))
  /\ Configuracao.hora_inicio_tarde config
     = Pg.varchar 5 (default "14:00" (FormConfig.hora_inicio_tarde form))
  /\ Configuracao.hora_fim_tarde config
     = Pg.varchar 5 (default "18:00" (FormConfig.hora_fim_tarde form)).
Proof.
  unfold configuracao_do_form.
  destruct (Pg.varchar 200 _) as [n1|]; [|discriminate].
  destruct (Pg.varchar 20 _) as [n2|]; [|discriminate].
  destruct (Pg.varchar 300 _) as [n3|]; [|discriminate].
  destruct (Pg.varchar 5 (default "08:00" _)) as [s1|]; [|discriminate].
  destruct (Pg.varchar 5 (default "12:00" _)) as [s2|]; [|discriminate].
  destruct (Pg.varchar 5 (default "14:00" _)) as [s3|]; [|discriminate].
  destruct (Pg.varchar 5 (default "18:00" _)) as [s4|]; [|discriminate].
  simpl. destruct (Pg.int4 _); [|discriminate].
  intros H; inversion H; subst config; simpl.
  repeat split; try reflexivity.
  intros dia. unfold dias_habilitados, dia_do_form; simpl.
  destruct dia as [|p|p]; try reflexivity;
    repeat (destruct p as [p|p|]; try reflexivity).
Qed.

Lemma admin_configuracoes_salva form db db' :
  (length (configuracoes db) <= 1)%nat ->
  admin_configuracoes (Some form) db = (Aviso Configuracoes_atualizadas, db') ->
  exists config,
    configuracao_do_form form = Some config
    /\ config_atual db' = config
    /\ configuracoes db' = [config]
    /\ servicos db' = servicos db /\ dentistas db' = dentistas db
    /\ agendamentos db' = agendamentos db /\ usuarios db' = usuarios db.
Proof.
  intros Huma. unfold admin_configuracoes.
  destruct (configuracao_do_form form) as [config|]; [|discriminate].
  intros H; inversion H; subst db'. exists config.
  unfold garante_configuracao.
  destruct (configuracoes db) as [|c [|c' l]] eqn:E; simpl in *;
    rewrite ?E; simpl; [done..|lia].
Qed.



(** X11. The interval of the calendar form is not validated. On a calendar
    table of at most one row, when [admin_configuracoes] has saved a form
    whose interval is a negative integer, the interval in force is that
    integer, and for every date whose
    weekday is checked and on which a shift starts before it ends, the
    availability route no longer answers: it raises OverflowError, for
    every practitioner and every existing service. *)
Theorem saved_negative_interval_breaks_availability
  (form : FormConfig.t) (db db' : DB) (d ini_m fim_m ini_t fim_t : Z)
  (Huma : (length (configuracoes db) <= 1)%nat)
  (Hsave : admin_configuracoes (Some form) db
           = (Aviso Configuracoes_atualizadas, db'))
  (Hneg : PyForm.get_int (FormConfig.intervalo_consultas form) 30 < 0)
  (Hdia : dia_do_form form (PyTime.weekday d) = true)
  (H1 : hora_do_dia d (inicio_manha (config_atual db')) = Ret ini_m)
  (H2 : hora_do_dia d (fim_manha (config_atual db')) = Ret fim_m)
  (H3 : hora_do_dia d (inicio_tarde (config_atual db')) = Ret ini_t)
  (H4 : hora_do_dia d (fim_tarde (config_atual db')) = Ret fim_t)
  (Hent : ini_m < fim_m \/ ini_t < fim_t) :
  intervalo_efetivo (config_atual db')
  = PyForm.get_int (FormConfig.intervalo_consultas form) 30
  /\ exists fuel0, forall fuel did sid,
       (fuel0 <= fuel)%nat ->
       did <> 0 -> sid <> 0 -> is_Some (servicos db !! sid) ->
       horarios_disponiveis fuel (Some did) (Data d) (Some sid) db'
       = Lanca OverflowError.
Proof.
  apply admin_configuracoes_salva in Hsave
    as (config & Hform & Hcfg & Hrows & Hs & _); [|exact Huma].
  apply configuracao_do_form_Some in Hform as (Hint & Hdias & _).
  assert (Hi : intervalo_efetivo (config_atual db')
               = PyForm.get_int (FormConfig.intervalo_consultas form) 30).
  { rewrite Hcfg. unfold intervalo_efetivo, or_int. rewrite Hint.
    destruct (Z.eqb_spec (PyForm.get_int (FormConfig.intervalo_consultas form) 30) 0);
      [lia|done]. }
  split; [exact Hi|].
  destruct (gera_horarios_base_neg_overflows (config_atual db') d
              ini_m fim_m ini_t fim_t H1 H2 H3 H4) as [fuel0 Hfuel0];
    [simpl; lia|done|].
  exists fuel0. intros fuel did sid Hf Hdid Hsid [sv Hsv].
  rewrite (horarios_disponiveis_aberta fuel did d sid sv db').
  - rewrite Hfuel0 by done. reflexivity.
  - done.
  - done.
  - by rewrite Hs.
  - by rewrite Hcfg, Hdias, Hdia.
Qed.

Lemma saved_negative_interval_breaks_availability_witness :
  (admin_configuracoes (Some (form_config_intervalo "-30")) clinica).1
  = Aviso Configuracoes_atualizadas
  /\ PyForm.get_int (Some "-30") 30 < 0
  /\ exists fuel0, forall fuel did sid,
       (fuel0 <= fuel)%nat ->
       did <> 0 -> sid <> 0 -> is_Some (servicos clinica !! sid) ->
       horarios_disponiveis fuel (Some did) (Data segunda_feira) (Some sid)
         (admin_configuracoes (Some (form_config_intervalo "-30")) clinica).2
       = Lanca OverflowError.
Proof.
  assert (Hneg : PyForm.get_int (Some "-30") 30 < 0) by reflexivity.
  split; [reflexivity|]. split; [exact Hneg|].
  refine (proj2 (saved_negative_interval_breaks_availability
    (form_config_intervalo "-30") clinica _ segunda_feira
    (PyTime.combine segunda_feira 480) (PyTime.combine segunda_feira 720)
    (PyTime.combine segunda_feira 840) (PyTime.combine segunda_feira 1080)
    (le_n 1) _ Hneg _ _ _ _ _ _)).
  - vm_compute. reflexivity.
  - reflexivity.
  - reflexivity.
  - reflexivity.
  - reflexivity.
  - reflexivity.
  - left. reflexivity.
Defined.

(** ** More on the availability route *)

(** X12. With an empty [configuracoes] table the route works on a transient
    [Configuracao()], whose weekday flags are all unset, so every date is
    answered as closed, for every practitioner and existing service. One
    visit of [admin_configuracoes] inserts the row with the column defaults,
    after which the calendar in force is the default one, open from Monday
    to Friday. *)
Theorem empty_calendar_table_closes_every_day (db : DB)
  (Hvazia : configuracoes db = []) :
  (forall fuel did d sid,
     did <> 0 -> sid <> 0 -> is_Some (servicos db !! sid) ->
     horarios_disponiveis fuel (Some did) (Data d) (Some sid) db
     = Ret Clinica_fechada)
  /\ config_atual (admin_configuracoes None db).2 = config_padrao
  /\ forall d, bool_truthy
                 (dias_habilitados (config_atual (admin_configuracoes None db).2)
                    (PyTime.weekday d))
               = (PyTime.weekday d <? 5).
Proof.
  split; [|split].
  - intros fuel did d sid Hdid Hsid [sv Hsv].
    unfold horarios_disponiveis; simpl.
    apply Z.eqb_neq in Hdid, Hsid. rewrite Hdid, Hsid, Hsv. simpl.
    unfold config_atual. rewrite Hvazia. simpl.
    assert (dias_habilitados Configuracao.novo (PyTime.weekday d) = None
            \/ dias_habilitados Configuracao.novo (PyTime.weekday d)
               = Some false) as [-> | ->]; [|reflexivity..].
    unfold dias_habilitados.
    destruct (PyTime.weekday d) as [|p|p]; auto;
      repeat (destruct p as [p|p|]; auto).
  - unfold admin_configuracoes, garante_configuracao. by rewrite Hvazia.
  - intros d. unfold admin_configuracoes, garante_configuracao.
    rewrite Hvazia. cbn [snd]. unfold config_atual. simpl.
    assert (0 <= PyTime.weekday d < 7) as Hw
      by (unfold PyTime.weekday; apply Z.mod_pos_bound; lia).
    destruct (PyTime.weekday d) as [|p|p]; [reflexivity| |lia].
    repeat (destruct p as [p|p|]; try reflexivity; try lia).
Qed.

Lemma empty_calendar_table_closes_every_day_witness :
  configuracoes (com_configuracoes [] clinica) = []
  /\ horarios_disponiveis 9 (Some 1) (Data segunda_feira) (Some 1)
       (com_configuracoes [] clinica)
     = Ret Clinica_fechada.
Proof.
  split; [reflexivity|].
  apply (empty_calendar_table_closes_every_day (com_configuracoes [] clinica)
           eq_refl); [lia|lia|vm_compute; eauto].
Defined.

(** X13. The availability route never looks the practitioner up. For a
    practitioner id that is not in the practitioners table (under
    referential integrity no appointment references it) the answer is the
    one computed on an empty agenda, so every candidate of the day is
    offered; the only NotFound the route gives is for a service that does
    not resolve. *)
Theorem availability_ignores_unknown_practitioner
  (fuel : nat) (did : Z) (data : data_arg) (sid : option Z) (db : DB)
  (Hint : integridade_referencial db)
  (Hdid : dentistas db !! did = None) :
  horarios_disponiveis fuel (Some did) data sid db
  = horarios_disponiveis fuel (Some did) data sid (com_agendamentos ∅ db)
  /\ (horarios_disponiveis fuel (Some did) data sid db
      = Ret Erro_servico_nao_encontrado ->
      exists s, sid = Some s /\ servicos db !! s = None).
Proof.
  assert (Hq : forall d, query_filter (filtro_dia did d) db = []).
  { intros d. apply (proj2 (query_filter_nil_iff _ _)). intros k a Hk.
    destruct (Hint k a Hk) as (_ & [dt Hd] & _).
    unfold filtro_dia.
    destruct (Z.eqb_spec (Agendamento.dentista_id a) did) as [Heq|]; [|done].
    rewrite Heq in Hd. congruence. }
  unfold horarios_disponiveis.
  destruct data as [| |d], sid as [s|]; simpl;
    try (split; [reflexivity|discriminate]).
  - destruct (negb _); (split; [reflexivity|discriminate]).
  - destruct (negb _); [split; [reflexivity|discriminate]|].
    destruct (servicos db !! s) as [sv|] eqn:Hsv; [|split; eauto].
    change (config_atual (com_agendamentos ∅ db)) with (config_atual db).
    destruct (negb (bool_truthy _)); [split; [reflexivity|discriminate]|].
    rewrite Hq.
    replace (query_filter (filtro_dia did d) (com_agendamentos ∅ db))
      with ([] : list (Z * Agendamento.t)) by reflexivity.
    split; [reflexivity|].
    destruct (gera_horarios_base fuel (config_atual db) d) as [b| |];
      [|discriminate..].
    exec_step. destruct (filtra_horarios _ _ b []); discriminate.
Qed.

Lemma availability_ignores_unknown_practitioner_witness :
  integridade_referencial clinica_9h
  /\ dentistas clinica_9h !! 99 = None
  /\ horarios_disponiveis 9 (Some 99) (Data segunda_feira) (Some 1) clinica_9h
     = horarios_disponiveis 9 (Some 99) (Data segunda_feira) (Some 1)
         (com_agendamentos ∅ clinica_9h).
Proof.
  assert (H : dentistas clinica_9h !! 99 = None) by reflexivity.
  split; [exact clinica_9h_integridade|]. split; [exact H|].
  exact (proj1 (availability_ignores_unknown_practitioner 9 99
                  (Data segunda_feira) (Some 1) clinica_9h
                  clinica_9h_integridade H)).
Defined.

(** X14. The times the availability route prints are read back by
    [parse_hora], the parser of the calendar's own times, as the same hour
    and minute: for every datetime [t], [parse_hora] of [t.strftime('%H:%M')]
    is the hour and minute of [t], and building the time of day from it on
    the date of [t] gives [t] again. So two datetimes of one day never
    print alike. *)
Theorem parse_hora_reads_back_strftime (t : Z) :
  parse_hora (PyTime.strftime_HM t) = (t mod 1440 / 60, t mod 1440 mod 60)
  /\ hora_do_dia (PyTime.date_of t) (parse_hora (PyTime.strftime_HM t)) = Ret t
  /\ forall t', PyTime.date_of t' = PyTime.date_of t ->
       PyTime.strftime_HM t' = PyTime.strftime_HM t -> t' = t.
Proof.
  split; [apply parse_hora_strftime|]. split; [apply hora_do_dia_strftime|].
  intros t'. apply strftime_HM_inj.
Qed.

Lemma map_seq_sorted (s i : Z) (a n : nat) :
  0 < i ->
  StronglySorted Z.lt
    (List.map (fun k => s + Z.of_nat k * i) (seq a n)).
Proof.
  intros Hi. revert a. induction n as [|n IH]; intros a; simpl.
  - constructor.
  - constructor; [apply IH|].
    apply Forall_forall. intros x Hx.
    apply list_elem_of_In, in_map_iff in Hx as (k & <- & Hk).
    apply in_seq in Hk. nia.
Qed.

Lemma slots_turno_sorted inicio fim intervalo :
  0 < intervalo -> StronglySorted Z.lt (slots_turno inicio fim intervalo).
Proof. intros Hi. by apply map_seq_sorted. Qed.

Lemma sublist_sorted (l1 l2 : list Z) :
  l1 `sublist_of` l2 -> StronglySorted Z.lt l2 -> StronglySorted Z.lt l1.
Proof.
  induction 1 as [|x l1 l2 Hsub IH|x l1 l2 Hsub IH]; intros Hs.
  - constructor.
  - apply StronglySorted_inv in Hs as [Hs Hx]. constructor; [by apply IH|].
    rewrite Forall_forall in *. intros y Hy. apply Hx.
    by eapply elem_of_sublist.
  - apply StronglySorted_inv in Hs as [Hs _]. by apply IH.
Qed.

Lemma sorted_NoDup (l : list Z) : StronglySorted Z.lt l -> NoDup l.
Proof.
  induction 1 as [|x l Hs IH Hx]; constructor; [|done].
  intros Hin. rewrite Forall_forall in Hx. specialize (Hx x Hin). lia.
Qed.

Lemma filtra_horarios_sublist duracao ags base acc hs :
  filtra_horarios duracao ags base acc = Ret hs ->
  exists l, l `sublist_of` base /\ hs = acc ++ (PyTime.strftime_HM <$> l).
Proof.
  revert acc. induction base as [|h base IH]; intros acc H; simpl in H.
  - inversion H. exists []. split; [constructor|]. by rewrite app_nil_r.
  - destruct (PyTime.dt_add h duracao) as [fim|]; [|discriminate].
    destruct (tem_conflito h fim ags).
    + destruct (IH _ H) as (l & Hl & ->). exists l. split; [|done].
      by constructor.
    + destruct (IH _ H) as (l & Hl & ->). exists (h :: l). split.
      * by constructor.
      * by rewrite <- app_assoc.
Qed.

Lemma gera_horarios_base_Ret_slots fuel config d ini_m fim_m ini_t fim_t base :
  hora_do_dia d (inicio_manha config) = Ret ini_m ->
  hora_do_dia d (fim_manha config) = Ret fim_m ->
  hora_do_dia d (inicio_tarde config) = Ret ini_t ->
  hora_do_dia d (fim_tarde config) = Ret fim_t ->
  gera_horarios_base fuel config d = Ret base ->
  (0 < intervalo_efetivo config
   /\ base = slots_turno ini_m fim_m (intervalo_efetivo config)
             ++ slots_turno ini_t fim_t (intervalo_efetivo config))
  \/ (intervalo_efetivo config < 0 /\ base = []).
Proof.
  intros H1 H2 H3 H4 Hb.
  rewrite (gera_horarios_base_turnos config d ini_m fim_m ini_t fim_t
             H1 H2 H3 H4) in Hb.
  destruct (gera_turno fuel ini_m fim_m _ []) as [bm| |] eqn:Em;
    [|discriminate..].
  exec_step.
  pose proof (intervalo_efetivo_nonzero config) as Hnz.
  destruct (Z.lt_ge_cases 0 (intervalo_efetivo config)) as [Hpos|Hneg].
  - left. split; [done|].
    apply gera_turno_Ret_pos in Em; [|done]. apply gera_turno_Ret_pos in Hb;
      [|done]. subst. reflexivity.
  - right. split; [lia|].
    apply gera_turno_Ret_neg in Em; [|lia]. apply gera_turno_Ret_neg in Hb;
      [|lia]. by subst.
Qed.

(** X15. When the morning shift ends no later than the afternoon shift
    starts, the times the availability route returns are in strictly
    ascending order and without repetition: they are the ['%H:%M'] of a
    strictly increasing selection of the candidates, all on the requested
    date. *)
Theorem returned_times_ascending
  (fuel : nat) (did d sid : Z) (sv : Servico.t) (db : DB) (hs : list string)
  (ini_m fim_m ini_t fim_t : Z)
  (Hroute : horarios_disponiveis fuel (Some did) (Data d) (Some sid) db
            = Ret (Horarios hs))
  (Hsv : servicos db !! sid = Some sv)
  (H1 : hora_do_dia d (inicio_manha (config_atual db)) = Ret ini_m)
  (H2 : hora_do_dia d (fim_manha (config_atual db)) = Ret fim_m)
  (H3 : hora_do_dia d (inicio_tarde (config_atual db)) = Ret ini_t)
  (H4 : hora_do_dia d (fim_tarde (config_atual db)) = Ret fim_t)
  (Hord : fim_m <= ini_t) :
  exists l,
    hs = PyTime.strftime_HM <$> l
    /\ StronglySorted Z.lt l
    /\ (forall h, h ∈ l -> PyTime.date_of h = d)
    /\ NoDup hs.
Proof.
  destruct (horarios_disponiveis_Ret_inv _ _ _ _ _ _ _ Hroute Hsv)
    as (base & Hbase & Hfil).
  destruct (filtra_horarios_sublist _ _ _ _ _ Hfil) as (l & Hsub & Hhs).
  simpl in Hhs.
  assert (Hsorted : StronglySorted Z.lt base).
  { destruct (gera_horarios_base_Ret_slots _ _ _ _ _ _ _ _ H1 H2 H3 H4 Hbase)
      as [[Hpos ->]|[_ ->]]; [|constructor].
    apply StronglySorted_app_2; [|by apply slots_turno_sorted..].
    intros x y Hx Hy.
    apply slots_turno_elem in Hx as (k & Hk & -> & Hlt); [|done].
    apply slots_turno_elem in Hy as (k' & Hk' & -> & Hlt'); [|done]. nia. }
  assert (Hday : forall h, h ∈ l -> PyTime.date_of h = d).
  { intros h Hh. apply date_of_in_day.
    eapply gera_horarios_base_Ret_in_day; [exact Hbase|].
    by eapply elem_of_sublist. }
  assert (Hl : StronglySorted Z.lt l) by by eapply sublist_sorted.
  exists l. split; [done|]. split; [done|]. split; [done|].
  rewrite Hhs. apply NoDup_fmap_2_strong; [|by apply sorted_NoDup].
  intros x y Hx Hy Heq. apply strftime_HM_inj; [|done].
  by rewrite (Hday x Hx), (Hday y Hy).
Qed.

Lemma returned_times_ascending_witness :
  horarios_disponiveis 9 (Some 1) (Data segunda_feira) (Some 1) clinica_9h
  = Ret (Horarios grade_sem_9h)
  /\ NoDup grade_sem_9h.
Proof.
  assert (Hroute : horarios_disponiveis 9 (Some 1) (Data segunda_feira)
                     (Some 1) clinica_9h = Ret (Horarios grade_sem_9h))
    by (vm_compute; reflexivity).
  split; [exact Hroute|].
  destruct (returned_times_ascending 9 1 segunda_feira 1 limpeza clinica_9h
              grade_sem_9h
              (PyTime.combine segunda_feira 480)
              (PyTime.combine segunda_feira 720)
              (PyTime.combine segunda_feira 840)
              (PyTime.combine segunda_feira 1080)
              Hroute eq_refl eq_refl eq_refl eq_refl eq_refl)
    as (l & _ & _ & _ & Hnd).
  - unfold PyTime.combine. lia.
  - exact Hnd.
Defined.

(** ** The listing routes *)

#[local] Instance inicio_le_total : Total inicio_le.
Proof. intros r1 r2. unfold inicio_le. lia. Qed.

#[local] Instance inicio_le_trans : Transitive inicio_le.
Proof. intros r1 r2 r3. unfold inicio_le. lia. Qed.

#[local] Instance inicio_ge_total : Total inicio_ge.
Proof. intros r1 r2. unfold inicio_ge. lia. Qed.

#[local] Instance inicio_ge_trans : Transitive inicio_ge.
Proof. intros r1 r2 r3. unfold inicio_ge. lia. Qed.

Lemma order_by_inicio_elem l r : r ∈ order_by_inicio l <-> r ∈ l.
Proof. unfold order_by_inicio. by rewrite merge_sort_Permutation. Qed.

Lemma order_by_inicio_desc_elem l r : r ∈ order_by_inicio_desc l <-> r ∈ l.
Proof. unfold order_by_inicio_desc. by rewrite merge_sort_Permutation. Qed.

Lemma query_filter_NoDup f db : NoDup (query_filter f db).
Proof.
  unfold query_filter.
  assert (forall l : list (Z * Agendamento.t),
            NoDup l -> NoDup (List.filter (fun r => f r.2) l)) as H.
  { induction 1 as [|x l Hx Hl IH]; simpl; [constructor|].
    destruct (f x.2); [|done]. constructor; [|done].
    intros Hin. apply Hx. apply list_elem_of_In, filter_In in Hin as [Hin _].
    by apply list_elem_of_In. }
  apply H. apply NoDup_map_to_list.
Qed.

Lemma filter_length_le {A} (f g : A -> bool) (l : list A) :
  (forall x, f x = true -> g x = true) ->
  (length (List.filter f l) <= length (List.filter g l))%nat.
Proof.
  intros H. induction l as [|x l IH]; simpl; [done|].
  destruct (f x) eqn:Ef.
  - rewrite (H x Ef). simpl. lia.
  - destruct (g x); simpl; lia.
Qed.

(** X16. [paciente_dashboard] shows at most five appointments, each one of
    the logged-in patient and not started yet, by ascending start, and they
    are the earliest ones: an appointment of the patient that has not
    started and is not shown starts no earlier than each of the five shown.
    The count of confirmed appointments never exceeds the total count. *)
Theorem dashboard_next_five (agora_us u : Z) (db : DB) :
  let '(proximos, total, confirmados) := paciente_dashboard agora_us u db in
  (length proximos <= 5)%nat
  /\ StronglySorted inicio_le proximos
  /\ NoDup proximos
  /\ (forall id a, (id, a) ∈ proximos ->
        agendamentos db !! id = Some a
        /\ Agendamento.paciente_id a = u
        /\ agora_us <= Agendamento.data_hora_inicio a * minuto_us)
  /\ (forall id a,
        agendamentos db !! id = Some a ->
        Agendamento.paciente_id a = u ->
        agora_us <= Agendamento.data_hora_inicio a * minuto_us ->
        (id, a) ∈ proximos
        \/ (length proximos = 5%nat
            /\ forall r, r ∈ proximos ->
                 Agendamento.data_hora_inicio r.2
                 <= Agendamento.data_hora_inicio a))
  /\ (confirmados <= total)%nat.
Proof.
  unfold paciente_dashboard.
  set (f := fun ag => (Agendamento.paciente_id ag =? u)
                      && (Agendamento.data_hora_inicio ag * minuto_us
                          >=? agora_us)).
  set (s := order_by_inicio (query_filter f db)).
  assert (Hs : StronglySorted inicio_le s).
  { unfold s, order_by_inicio. apply StronglySorted_merge_sort; apply _. }
  assert (Hf : forall a, f a = true
            <-> Agendamento.paciente_id a = u
                /\ agora_us <= Agendamento.data_hora_inicio a * minuto_us).
  { intros a. unfold f. rewrite andb_true_iff, Z.eqb_eq, Z.geb_le. tauto. }
  rewrite <- (take_drop 5 s) in Hs.
  split; [rewrite length_take; lia|].
  split; [by eapply StronglySorted_app_1_l|].
  split.
  { eapply sublist_NoDup; [|apply sublist_take].
    unfold s, order_by_inicio. rewrite merge_sort_Permutation.
    apply query_filter_NoDup. }
  split; [|split].
  - intros id a Hin. apply elem_of_take in Hin as (i & Hin & _).
    apply list_elem_of_lookup_2 in Hin. unfold s in Hin.
    apply (proj1 (order_by_inicio_elem _ _)) in Hin.
    apply query_filter_elem in Hin as [Hl Hfa]. apply Hf in Hfa. tauto.
  - intros id a Hl Hu Hfut.
    assert ((id, a) ∈ s) as Hin.
    { unfold s. apply (proj2 (order_by_inicio_elem _ _)).
      apply query_filter_elem. split; [done|]. by apply Hf. }
    rewrite <- (take_drop 5 s) in Hin. apply elem_of_app in Hin as [Hin|Hin];
      [by left|right].
    split.
    + rewrite length_take. apply list_elem_of_lookup in Hin as [i Hi].
      apply lookup_lt_Some in Hi. rewrite length_drop in Hi. lia.
    + intros r Hr.
      exact (StronglySorted_app_1_elem_of _ _ _ _ _ Hs Hr Hin).
  - apply filter_length_le. intros [id a]. simpl.
    rewrite andb_true_iff. tauto.
Qed.

Lemma order_by_inicio_desc_spec f db :
  let l := order_by_inicio_desc (query_filter f db) in
  StronglySorted inicio_ge l /\ NoDup l
  /\ forall id a, (id, a) ∈ l <-> agendamentos db !! id = Some a /\ f a = true.
Proof.
  split; [|split].
  - unfold order_by_inicio_desc. apply StronglySorted_merge_sort; apply _.
  - unfold order_by_inicio_desc. rewrite merge_sort_Permutation.
    apply query_filter_NoDup.
  - intros id a. rewrite order_by_inicio_desc_elem. apply query_filter_elem.
Qed.

(** X17. [meus_agendamentos] lists every appointment of the logged-in
    patient and no appointment of anybody else, each one once, latest start
    first. [ver_paciente] answers 404 exactly for an id that is no user, and
    otherwise shows the administrator that same list for the patient of the
    page. *)
Theorem patient_history_own_rows (u : Z) (db : DB) :
  StronglySorted inicio_ge (meus_agendamentos u db)
  /\ NoDup (meus_agendamentos u db)
  /\ (forall id a,
        (id, a) ∈ meus_agendamentos u db
        <-> agendamentos db !! id = Some a /\ Agendamento.paciente_id a = u)
  /\ (ver_paciente u db = None <-> u ∉ usuarios db)
  /\ (u ∈ usuarios db -> ver_paciente u db = Some (meus_agendamentos u db)).
Proof.
  unfold meus_agendamentos, ver_paciente.
  destruct (order_by_inicio_desc_spec
              (fun ag => Agendamento.paciente_id ag =? u) db) as (Hs & Hn & He).
  split; [exact Hs|]. split; [exact Hn|]. split; [|split].
  - intros id a. rewrite He, Z.eqb_eq. tauto.
  - case_bool_decide; split; intros; done.
  - intros Hu. by rewrite bool_decide_eq_true_2.
Qed.

Lemma admin_agenda_Some hoje fd dent st db l :
  admin_agenda hoje fd dent st db = Some l ->
  exists d,
    match dent with
    | FDt_ausente => d = None
    | FDt_invalido => False
    | FDt n => d = Some n /\ Pg.int4 n = true
    end
    /\ l = order_by_inicio
             (query_filter
                (filtro_agenda (data_do_filtro hoje fd) d (arg_truthy st)) db).
Proof.
  unfold admin_agenda. intros H.
  destruct dent as [| |n]; [exists None| |exists (Some n)].
  - destruct (match arg_truthy st with Some s => Pg.sem_nul s | None => true end);
      [|done]. by injection H as <-.
  - done.
  - destruct (Pg.int4 n); [|done].
    destruct (match arg_truthy st with Some s => Pg.sem_nul s | None => true end);
      [|done]. by injection H as <-.
Qed.

(** X18. When [admin_agenda] answers, its rows are sorted by ascending
    start, each stored appointment appears at most once, and an appointment
    is listed exactly when it passes the filters in force: with no [data]
    argument only the appointments starting today, with an empty or
    unparseable [data] argument the appointments of every date, and the
    practitioner and status filters only when their arguments are not
    empty. *)
Theorem agenda_filters_in_force (hoje : Z) (fd : filtro_data)
  (dent : filtro_dentista) (st : option string) (db : DB)
  (l : list (Z * Agendamento.t)) :
  admin_agenda hoje fd dent st db = Some l ->
  StronglySorted inicio_le l
  /\ NoDup l
  /\ forall id a,
       (id, a) ∈ l
       <-> agendamentos db !! id = Some a
           /\ match fd with
              | FD_ausente =>
                  PyTime.date_of (Agendamento.data_hora_inicio a) = hoje
              | FD d => PyTime.date_of (Agendamento.data_hora_inicio a) = d
              | FD_vazia | FD_invalida => True
              end
           /\ match dent with
              | FDt n => Agendamento.dentista_id a = n
              | FDt_ausente | FDt_invalido => True
              end
           /\ match st with
              | Some (String c r) => Agendamento.status a = String c r
              | Some EmptyString | None => True
              end.
Proof.
  intros H. apply admin_agenda_Some in H as (d & Hd & ->).
  split; [|split].
  - unfold order_by_inicio. apply StronglySorted_merge_sort; apply _.
  - unfold order_by_inicio. rewrite merge_sort_Permutation.
    apply query_filter_NoDup.
  - intros id a. rewrite order_by_inicio_elem, query_filter_elem.
    unfold filtro_agenda. rewrite !andb_true_iff.
    assert (match data_do_filtro hoje fd with
            | Some d0 => PyTime.date_of (Agendamento.data_hora_inicio a) =? d0
            | None => true
            end = true
            <-> match fd with
                | FD_ausente =>
                    PyTime.date_of (Agendamento.data_hora_inicio a) = hoje
                | FD d0 => PyTime.date_of (Agendamento.data_hora_inicio a) = d0
                | FD_vazia | FD_invalida => True
                end) as ->.
    { destruct fd; simpl; rewrite ?Z.eqb_eq; tauto. }
    assert (match d with
            | Some did => Agendamento.dentista_id a =? did
            | None => true
            end = true
            <-> match dent with
                | FDt n => Agendamento.dentista_id a = n
                | FDt_ausente | FDt_invalido => True
                end) as ->.
    { destruct dent as [| |n]; [subst d; tauto|done|].
      destruct Hd as [-> _]. by rewrite Z.eqb_eq. }
    assert (match arg_truthy st with
            | Some s => String.eqb (Agendamento.status a) s
            | None => true
            end = true
            <-> match st with
                | Some (String c r) => Agendamento.status a = String c r
                | Some EmptyString | None => True
                end) as ->.
    { destruct st as [[|c r]|]; simpl; rewrite ?String.eqb_eq; tauto. }
    tauto.
Qed.

Lemma agenda_filters_in_force_witness :
  admin_agenda segunda_feira FD_ausente (FDt 1) (Some "confirmado") clinica_9h
  = Some [(3, Agendamento.mk as_9h (as_9h + 30) "confirmado" 2 1 1)]
  /\ StronglySorted inicio_le
       [(3, Agendamento.mk as_9h (as_9h + 30) "confirmado" 2 1 1)].
Proof.
  assert (H : admin_agenda segunda_feira FD_ausente (FDt 1)
                (Some "confirmado") clinica_9h
              = Some [(3, Agendamento.mk as_9h (as_9h + 30) "confirmado" 2 1 1)])
    by (vm_compute; reflexivity).
  split; [exact H|].
  exact (proj1 (agenda_filters_in_force _ _ _ _ _ _ H)).
Defined.

(** ** Users *)

Lemma list_ascii_of_substring n m s :
  list_ascii_of_string (String.substring n m s)
  = take m (drop n (list_ascii_of_string s)).
Proof.
  revert n m. induction s as [|c s IH]; intros [|n] [|m]; simpl; try done;
    rewrite IH; by rewrite ?drop_0.
Qed.

Lemma length_list_ascii_of_string s :
  length (list_ascii_of_string s) = String.length s.
Proof. induction s as [|c s IH]; simpl; [done|]. by rewrite IH. Qed.

Lemma lstrip_head l :
  match PyForm.lstrip l with
  | c :: _ => PyForm.is_space c = false
  | [] => True
  end.
Proof.
  induction l as [|c l IH]; simpl; [done|].
  destruct (PyForm.is_space c) eqn:E; [done|]. exact E.
Qed.

Lemma strip_last s :
  match last (list_ascii_of_string (PyForm.strip s)) with
  | Some c => PyForm.is_space c = false
  | None => True
  end.
Proof.
  unfold PyForm.strip. rewrite list_ascii_of_string_of_list_ascii.
  pose proof (lstrip_head (rev (PyForm.lstrip (list_ascii_of_string s)))) as H.
  destruct (PyForm.lstrip (rev (PyForm.lstrip (list_ascii_of_string s))))
    as [|c r]; [done|].
  simpl. rewrite last_snoc. exact H.
Qed.

(** A stripped string is stored in a [String(n)] column as it is, or
    refused: it has no trailing spaces for the store to cut. *)
Lemma varchar_strip n s v : Pg.varchar n (PyForm.strip s) = Some v -> v = PyForm.strip s.
Proof.
  unfold Pg.varchar. pose proof (strip_last s) as Hl.
  set (t := PyForm.strip s) in *.
  destruct (negb (Pg.sem_nul t)); [done|].
  destruct (String.length t <=? n)%nat eqn:En; [by intros [= <-]|].
  apply Nat.leb_gt in En.
  destruct (Pg.so_espacos _) eqn:Es; [|done]. exfalso.
  unfold Pg.so_espacos in Es. rewrite list_ascii_of_substring in Es.
  rewrite <- length_list_ascii_of_string in *.
  rewrite take_ge in Es by (rewrite length_drop; lia).
  set (l := list_ascii_of_string t) in *.
  rewrite <- (take_drop n l) in Hl.
  destruct (drop n l) as [|c r] eqn:Ed.
  { apply (f_equal length) in Ed. rewrite length_drop in Ed. simpl in Ed. lia. }
  rewrite last_app in Hl.
  destruct (last (c :: r)) as [d|] eqn:El.
  - apply last_Some_elem_of, list_elem_of_In in El.
    rewrite forallb_forall in Es. specialize (Es d El).
    apply Ascii.eqb_eq in Es. subst d. done.
  - by apply last_None in El.
Qed.

Lemma head_filter_None {A} (f : A -> bool) (l : list A) :
  head (List.filter f l) = None <-> forall x, x ∈ l -> f x = false.
Proof.
  induction l as [|x l IH]; simpl.
  - split; [|done]. intros _ y Hy. by apply elem_of_nil in Hy.
  - destruct (f x) eqn:E; simpl.
    + split; [done|]. intros H.
      assert (f x = false) by (apply H, elem_of_cons; by left).
      congruence.
    + rewrite IH. split.
      * intros H y Hy. apply elem_of_cons in Hy as [->|Hy]; auto.
      * intros H y Hy. apply H, elem_of_cons. by right.
Qed.

Lemma head_filter_Some {A} (f : A -> bool) (l : list A) x :
  head (List.filter f l) = Some x -> x ∈ l /\ f x = true.
Proof.
  intros H. apply head_Some_elem_of in H.
  apply list_elem_of_In, filter_In in H as [H1 H2].
  split; [by apply list_elem_of_In|done].
Qed.

Lemma usuario_por_email_None e us :
  usuario_por_email e us = None
  <-> forall id u, us !! id = Some u -> Usuario.email u <> e.
Proof.
  unfold usuario_por_email. rewrite head_filter_None. split.
  - intros H id u Hu He. specialize (H (id, u)). simpl in H.
    rewrite (proj2 (String.eqb_eq _ _) He) in H.
    assert (true = false); [|done]. apply H. by apply elem_of_map_to_list.
  - intros H [id u] Hin. apply elem_of_map_to_list in Hin. simpl.
    apply String.eqb_neq. by eapply H.
Qed.

Lemma usuario_por_email_Some e us id u :
  usuario_por_email e us = Some (id, u) ->
  us !! id = Some u /\ Usuario.email u = e.
Proof.
  unfold usuario_por_email. intros H. apply head_filter_Some in H as [H1 H2].
  apply elem_of_map_to_list in H1. simpl in H2. apply String.eqb_eq in H2. done.
Qed.

Lemma usuario_por_email_unico e us id u :
  us !! id = Some u -> Usuario.email u = e ->
  (forall j v, us !! j = Some v -> Usuario.email v = e -> j = id) ->
  usuario_por_email e us = Some (id, u).
Proof.
  intros Hu He Huniq.
  destruct (usuario_por_email e us) as [[j v]|] eqn:E.
  - apply usuario_por_email_Some in E as [Hj Hv].
    pose proof (Huniq j v Hj Hv) as ->. congruence.
  - exfalso. by eapply (proj1 (usuario_por_email_None e us) E).
Qed.

Lemma usuario_por_cpf_None c us :
  usuario_por_cpf c us = None
  <-> forall id u, us !! id = Some u -> Usuario.cpf u <> Some c.
Proof.
  unfold usuario_por_cpf. rewrite head_filter_None. split.
  - intros H id u Hu Hc. specialize (H (id, u)). simpl in H.
    unfold tem_cpf in H. rewrite Hc, String.eqb_refl in H.
    assert (true = false); [|done]. apply H. by apply elem_of_map_to_list.
  - intros H [id u] Hin. apply elem_of_map_to_list in Hin. simpl.
    specialize (H id u Hin). unfold tem_cpf.
    destruct (Usuario.cpf u) as [c'|]; [|done].
    apply String.eqb_neq. congruence.
Qed.

Lemma unico_spec u us :
  unico u us = true
  <-> forall j v, us !! j = Some v ->
        Usuario.email v <> Usuario.email u
        /\ match Usuario.cpf u with
           | Some c => Usuario.cpf v <> Some c
           | None => True
           end.
Proof.
  unfold unico. rewrite forallb_forall. split.
  - intros H j v Hv. specialize (H (j, v)). simpl in H.
    rewrite andb_true_iff, negb_true_iff, String.eqb_neq in H.
    destruct H as [H1 H2].
    { apply list_elem_of_In. by apply elem_of_map_to_list. }
    split; [done|]. destruct (Usuario.cpf u) as [c|]; [|done].
    unfold tem_cpf in H2. intros Hc. rewrite Hc, String.eqb_refl in H2. done.
  - intros H [j v] Hin. apply list_elem_of_In, elem_of_map_to_list in Hin.
    destruct (H j v Hin) as [H1 H2]. simpl.
    rewrite andb_true_iff, negb_true_iff, String.eqb_neq. split; [done|].
    destruct (Usuario.cpf u) as [c|]; [|done]. unfold tem_cpf.
    destruct (Usuario.cpf v) as [c'|]; [|done]. simpl.
    apply negb_true_iff, String.eqb_neq. congruence.
Qed.

Lemma erros_cadastro_nil nome email cpf senha confirmar us :
  erros_cadastro nome email cpf senha confirmar us = Some [] ->
  (3 <= String.length nome)%nat
  /\ PyForm.contains "@" email = true
  /\ Pg.sem_nul email = true
  /\ usuario_por_email email us = None
  /\ (cpf = "" \/ usuario_por_cpf cpf us = None)
  /\ (6 <= String.length senha)%nat
  /\ match confirmar with Some c => senha = c | None => True end.
Proof.
  unfold erros_cadastro.
  remember (if String.eqb email "" || negb (PyForm.contains "@" email)
            then Some [Email_invalido]
            else if negb (Pg.sem_nul email) then None
            else if bool_decide (is_Some (usuario_por_email email us))
                 then Some [Email_ja_cadastrado]
                 else Some []) as ee eqn:Eee.
  remember (if String.eqb cpf "" then Some []
            else if negb (Pg.sem_nul cpf) then None
            else if bool_decide (is_Some (usuario_por_cpf cpf us))
                 then Some [Cpf_ja_cadastrado]
                 else Some []) as ec eqn:Eec.
  destruct ee as [le|]; [|done]. destruct ec as [lc|]; [|done]. simpl.
  intros [= H]. apply app_eq_nil in H as [Hn H].
  apply app_eq_nil in H as [-> H]. apply app_eq_nil in H as [-> H].
  apply app_eq_nil in H as [Hs Hc].
  split.
  { destruct (String.eqb nome "" || (String.length nome <? 3)%nat) eqn:E;
      [done|]. apply orb_false_iff in E as [_ E]. by apply Nat.ltb_ge in E. }
  destruct (String.eqb email "" || negb (PyForm.contains "@" email)) eqn:Ee;
    [done|].
  apply orb_false_iff in Ee as [_ Ee]. apply negb_false_iff in Ee.
  destruct (Pg.sem_nul email) eqn:Enul; simpl in Eee; [|done].
  split; [done|]. split; [done|]. split.
  { destruct (usuario_por_email email us) as [r|]; [|done].
    rewrite bool_decide_eq_true_2 in Eee by eauto. done. }
  split.
  { destruct (String.eqb cpf "") eqn:Ec; [left; by apply String.eqb_eq|right].
    destruct (negb (Pg.sem_nul cpf)); [done|].
    destruct (usuario_por_cpf cpf us) as [r|]; [|done].
    rewrite bool_decide_eq_true_2 in Eec by eauto. done. }
  split.
  - destruct (String.length senha <? 6)%nat eqn:E; [done|].
    by apply Nat.ltb_ge in E.
  - destruct confirmar as [c|]; [|done].
    destruct (String.eqb senha c) eqn:E; [|done]. by apply String.eqb_eq.
Qed.

Lemma armazena_novo_usuario `{Senhas} salt n e t c senha u' :
  armazena_usuario
    (novo_usuario salt (PyForm.strip n) (PyForm.strip e) (PyForm.strip t)
       (PyForm.strip c) senha) = Some u' ->
  Usuario.nome u' = PyForm.strip n
  /\ Usuario.email u' = PyForm.strip e
  /\ Pg.varchar 256 (generate_password_hash salt senha)
     = Some (Usuario.senha_hash u')
  /\ Usuario.perfil u' = "paciente"
  /\ Usuario.telefone u' = Some (PyForm.strip t)
  /\ Usuario.cpf u'
     = (if String.eqb (PyForm.strip c) "" then None else Some (PyForm.strip c))
  /\ Usuario.ativo u' = Some true.
Proof.
  unfold armazena_usuario, novo_usuario. cbn [Usuario.nome Usuario.email
    Usuario.senha_hash Usuario.perfil Usuario.telefone Usuario.cpf
    Usuario.ativo].
  destruct (Pg.varchar 100 (PyForm.strip n)) as [n'|] eqn:En; [|done].
  apply varchar_strip in En as ->. cbn [mbind option_bind].
  destruct (Pg.varchar 100 (PyForm.strip e)) as [e'|] eqn:Ee; [|done].
  apply varchar_strip in Ee as ->. cbn [mbind option_bind].
  destruct (Pg.varchar 256 _) as [h|] eqn:Eh; [|done]. cbn [mbind option_bind].
  change (Pg.varchar 20 "paciente") with (Some "paciente").
  cbn [mbind option_bind varchar_opcional].
  destruct (Pg.varchar 20 (PyForm.strip t)) as [t'|] eqn:Et;
    cbn [mbind option_bind]; [|done].
  apply varchar_strip in Et as ->.
  destruct (String.eqb (PyForm.strip c) "") eqn:Ec;
    cbn [varchar_opcional mbind option_bind].
  - by intros [= <-].
  - destruct (Pg.varchar 14 (PyForm.strip c)) as [c'|] eqn:Ec';
      cbn [mbind option_bind]; [|done].
    apply varchar_strip in Ec' as ->.
    by intros [= <-].
Qed.

Lemma cadastra_falha `{Senhas} salt form confirmar us :
  (cadastra salt form confirmar us).1 <> Cadastro_realizado ->
  (cadastra salt form confirmar us).2 = us.
Proof.
  unfold cadastra.
  destruct (erros_cadastro _ _ _ _ _ _) as [[|e l]|]; try done.
  unfold insere_usuario. destruct (armazena_usuario _) as [u'|]; [|done].
  destruct (unico u' us); done.
Qed.

Lemma cadastra_resultado `{Senhas} salt form confirmar us r us' :
  cadastra salt form confirmar us = (r, us') ->
  r <> Excecao_unicidade
  /\ (r = Cadastro_realizado ->
      exists u',
        us !! fresh (dom us) = None
        /\ us' = <[fresh (dom us) := u']> us
        /\ Usuario.nome u' = PyForm.strip (FormCadastro.nome form)
        /\ Usuario.email u' = PyForm.strip (FormCadastro.email form)
        /\ Pg.varchar 256
             (generate_password_hash salt (FormCadastro.senha form))
           = Some (Usuario.senha_hash u')
        /\ Usuario.perfil u' = "paciente"
        /\ Usuario.ativo u' = Some true
        /\ (3 <= String.length (Usuario.nome u'))%nat
        /\ PyForm.contains "@" (Usuario.email u') = true
        /\ Pg.sem_nul (Usuario.email u') = true
        /\ (6 <= String.length (FormCadastro.senha form))%nat
        /\ match confirmar with
           | Some c => FormCadastro.senha form = c
           | None => True
           end
        /\ (forall j v, us !! j = Some v ->
              Usuario.email v <> Usuario.email u'
              /\ (Usuario.cpf u' <> None -> Usuario.cpf v <> Usuario.cpf u'))).
Proof.
  unfold cadastra.
  destruct (erros_cadastro _ _ _ _ _ _) as [[|e l]|] eqn:Ee;
    [|intros [= <- <-]; done|intros [= <- <-]; done].
  apply erros_cadastro_nil in Ee as (Hn & Hat & Hnul & Hem & Hcpf & Hs & Hc).
  unfold insere_usuario. destruct (armazena_usuario _) as [u'|] eqn:Ea;
    [|intros [= <- <-]; done].
  apply armazena_novo_usuario in Ea as (En & Email & Eh & Ep & _ & Ecpf & Eat).
  assert (forall j v, us !! j = Some v ->
            Usuario.email v <> Usuario.email u'
            /\ (Usuario.cpf u' <> None -> Usuario.cpf v <> Usuario.cpf u'))
    as Hfresh.
  { intros j v Hv. split.
    - rewrite Email. by eapply (proj1 (usuario_por_email_None _ _) Hem).
    - rewrite Ecpf. destruct (String.eqb _ "") eqn:E; [done|]. intros _.
      destruct Hcpf as [Hcpf|Hcpf].
      + rewrite Hcpf in E. done.
      + by eapply (proj1 (usuario_por_cpf_None _ _) Hcpf). }
  assert (unico u' us = true) as ->.
  { apply unico_spec. intros j v Hv. destruct (Hfresh j v Hv) as [H1 H2].
    split; [done|]. destruct (Usuario.cpf u') as [c|] eqn:E; [|done].
    rewrite <- E in *. by apply H2; rewrite E. }
  intros [= <- <-]. split; [done|]. intros _. exists u'.
  split.
  { apply not_elem_of_dom. apply is_fresh. }
  split; [done|]. split; [done|]. split; [done|]. split; [done|].
  split; [done|]. split; [done|]. split; [by rewrite En|].
  split; [by rewrite Email|]. split; [by rewrite Email|].
  split; [done|]. split; [done|]. exact Hfresh.
Qed.

Lemma admin_insert_mesmo_perfil (us : tabela_usuarios) k p p' id :
  us !! k = Some p -> Usuario.perfil p' = Usuario.perfil p ->
  (exists u', <[k := p']> us !! id = Some u' /\ Usuario.is_admin u' = true)
  <-> (exists u, us !! id = Some u /\ Usuario.is_admin u = true).
Proof.
  intros Hk Hp. unfold Usuario.is_admin. destruct (decide (id = k)) as [->|Hne].
  - rewrite lookup_insert_eq. split.
    + intros (u' & [= <-] & Hu). exists p. by rewrite <- Hp.
    + intros (u & Hu & Ha). exists p'. split; [done|]. congruence.
  - by rewrite lookup_insert_ne.
Qed.

Lemma admin_insert_novo (us : tabela_usuarios) k p' id :
  us !! k = None -> Usuario.perfil p' = "paciente" ->
  (exists u', <[k := p']> us !! id = Some u' /\ Usuario.is_admin u' = true)
  <-> (exists u, us !! id = Some u /\ Usuario.is_admin u = true).
Proof.
  intros Hk Hp. unfold Usuario.is_admin. destruct (decide (id = k)) as [->|Hne].
  - rewrite lookup_insert_eq, Hk. split.
    + intros (u' & [= <-] & Hu). rewrite Hp in Hu. done.
    + by intros (u & ? & _).
  - by rewrite lookup_insert_ne.
Qed.

Lemma cadastra_admin `{Senhas} salt form confirmar us id :
  (exists u', (cadastra salt form confirmar us).2 !! id = Some u'
              /\ Usuario.is_admin u' = true)
  <-> (exists u, us !! id = Some u /\ Usuario.is_admin u = true).
Proof.
  destruct (cadastra salt form confirmar us) as [r us'] eqn:E.
  assert (r = Cadastro_realizado \/ r <> Cadastro_realizado) as [->|Hr]
    by (destruct r; (by left) || (by right)).
  - apply cadastra_resultado in E as [_ E].
    destruct (E eq_refl) as (u' & Hf & -> & _ & _ & _ & Hp & _).
    by apply admin_insert_novo.
  - pose proof (cadastra_falha salt form confirmar us) as Hf.
    rewrite E in Hf. simpl in *. by rewrite Hf.
Qed.

Lemma editar_paciente_linha `{Senhas} id post salt us r us' :
  editar_paciente id post salt us = (r, us') ->
  us' = us
  \/ exists p p', us !! id = Some p /\ us' = <[id := p']> us
                  /\ Usuario.email p' = Usuario.email p
                  /\ Usuario.cpf p' = Usuario.cpf p
                  /\ Usuario.perfil p' = Usuario.perfil p.
Proof.
  unfold editar_paciente. destruct (us !! id) as [p|] eqn:Ep;
    [|intros [= _ <-]; by left].
  destruct post as [form|]; [|intros [= _ <-]; by left].
  destruct (Pg.varchar 100 _) as [n'|]; cbn [mbind option_bind];
    [|intros [= _ <-]; by left].
  destruct (Pg.varchar 20 _) as [t'|]; cbn [mbind option_bind];
    [|intros [= _ <-]; by left].
  destruct (negb (String.eqb _ "") && _);
    [destruct (Pg.varchar 256 _) as [h|]|]; cbn [mbind option_bind];
    try (intros [= _ <-]; by left);
    (intros [= _ <-]; right; exists p; eexists; split; [done|];
     split; [reflexivity|]; done).
Qed.

Lemma executa_usuarios_admin `{Senhas} op us id :
  (exists u', executa_usuarios op us !! id = Some u'
              /\ Usuario.is_admin u' = true)
  <-> (exists u, us !! id = Some u /\ Usuario.is_admin u = true).
Proof.
  destruct op as [aut post salt|post salt|k post salt|k]; simpl.
  - unfold register. destruct aut; [done|]. destruct post as [form|]; [|done].
    apply cadastra_admin.
  - unfold novo_paciente. destruct post as [form|]; [|done].
    apply cadastra_admin.
  - destruct (editar_paciente k post salt us) as [r us'] eqn:E.
    apply editar_paciente_linha in E as [->|(p & p' & Hp & -> & _ & _ & Hpf)];
      [done|]. simpl. by eapply admin_insert_mesmo_perfil.
  - unfold toggle_paciente_status. destruct (us !! k) as [p|] eqn:Ep; [|done].
    by eapply admin_insert_mesmo_perfil.
Qed.

(** X19. No request to [register], [novo_paciente], [editar_paciente] or
    [toggle_paciente_status] makes or unmakes an administrator: after any
    sequence of them the users for which [is_admin] holds, the ones
    [admin_required] lets through, are those of before. *)
Theorem no_route_grants_admin `{Senhas} (ops : list operacao_usuarios)
  (us : tabela_usuarios) (id : Z) :
  (exists u', executa_usuarios_todas ops us !! id = Some u'
              /\ admin_required (Some u') = true)
  <-> (exists u, us !! id = Some u /\ admin_required (Some u) = true).
Proof.
  unfold executa_usuarios_todas, admin_required. revert us.
  induction ops as [|op ops IH]; intros us; simpl; [done|].
  rewrite IH. apply executa_usuarios_admin.
Qed.

(** X20. The unique constraints of [usuarios] never reject the insert of
    [register] or of [novo_paciente]: the validations run before, on the
    stripped email and CPF, which are stored as they are, so a duplicate is
    answered with its message and never with an IntegrityError. *)
Theorem unique_constraint_never_fires `{Senhas} (autenticado : bool)
  (post : option FormCadastro.t) (salt : string) (us : tabela_usuarios) :
  (register autenticado post salt us).1 <> Excecao_unicidade
  /\ (novo_paciente post salt us).1 <> Excecao_unicidade.
Proof.
  unfold register, novo_paciente. split.
  - destruct autenticado; [done|]. destruct post as [form|]; [|done].
    destruct (cadastra _ _ _ _) as [r us'] eqn:E.
    by apply cadastra_resultado in E as [E _].
  - destruct post as [form|]; [|done].
    destruct (cadastra _ _ _ _) as [r us'] eqn:E.
    by apply cadastra_resultado in E as [E _].
Qed.

Lemma usuario_por_email_iff e us j v :
  emails_unicos us ->
  usuario_por_email e us = Some (j, v)
  <-> us !! j = Some v /\ Usuario.email v = e.
Proof.
  intros Hu. split; [apply usuario_por_email_Some|].
  intros [Hj He]. apply usuario_por_email_unico; [done..|].
  intros k w Hk Hw. eapply Hu; [done..|congruence].
Qed.

Lemma emails_unicos_insert_mesmo (us : tabela_usuarios) k p p' :
  emails_unicos us -> us !! k = Some p ->
  Usuario.email p' = Usuario.email p ->
  emails_unicos (<[k := p']> us).
Proof.
  intros Hu Hk He i j u v.
  destruct (decide (i = k)) as [->|Hi], (decide (j = k)) as [->|Hj];
    rewrite ?lookup_insert_eq, ?lookup_insert_ne by done; [done|..].
  - intros [= <-] Hv Hev. symmetry. eapply Hu; [done..|congruence].
  - intros Hv [= <-] Hev. eapply Hu; [done..|congruence].
  - apply Hu.
Qed.

Lemma emails_unicos_insert_novo (us : tabela_usuarios) k p' :
  emails_unicos us ->
  (forall j v, us !! j = Some v -> Usuario.email v <> Usuario.email p') ->
  emails_unicos (<[k := p']> us).
Proof.
  intros Hu Hn i j u v.
  destruct (decide (i = k)) as [->|Hi], (decide (j = k)) as [->|Hj];
    rewrite ?lookup_insert_eq, ?lookup_insert_ne by done; [done|..].
  - intros [= <-] Hv Hev. exfalso. by eapply Hn.
  - intros Hv [= <-] Hev. exfalso. by eapply Hn.
  - apply Hu.
Qed.

Lemma login_congr `{Senhas} aut post us1 us2 :
  (forall e,
     (fun r : Z * Usuario.t =>
        (r.1, Usuario.senha_hash r.2, bool_truthy (Usuario.ativo r.2)))
       <$> usuario_por_email e us1
     = (fun r : Z * Usuario.t =>
          (r.1, Usuario.senha_hash r.2, bool_truthy (Usuario.ativo r.2)))
         <$> usuario_por_email e us2) ->
  login aut post us1 = login aut post us2.
Proof.
  intros Heq. unfold login. destruct aut; [done|].
  destruct post as [[email_form senha]|]; [|done].
  destruct (negb (Pg.sem_nul _)); [done|].
  specialize (Heq (PyForm.strip email_form)).
  destruct (usuario_por_email _ us1) as [[i u]|],
           (usuario_por_email _ us2) as [[j v]|]; simpl in Heq; try done.
  injection Heq as -> -> ->. done.
Qed.

(** X21. Deactivating an account locks it out and nothing else. For a
    table with unique emails and an active user [id]: after
    [toggle_paciente_status id] no login with that user's email succeeds,
    whatever the password; a login with any other email is answered as
    before; and a second [toggle_paciente_status id] makes every login be
    answered as before the first. The user need not be a patient. *)
Theorem deactivated_account_cannot_log_in `{Senhas} (us us' : tabela_usuarios)
  (id : Z) (u : Usuario.t) :
  emails_unicos us ->
  us !! id = Some u ->
  bool_truthy (Usuario.ativo u) = true ->
  toggle_paciente_status id us = Some us' ->
  (forall aut email_form senha id',
     PyForm.strip email_form = Usuario.email u ->
     login aut (Some (email_form, senha)) us' <> Login_ok id')
  /\ (forall aut email_form senha,
        PyForm.strip email_form <> Usuario.email u ->
        login aut (Some (email_form, senha)) us'
        = login aut (Some (email_form, senha)) us)
  /\ exists us'',
       toggle_paciente_status id us' = Some us''
       /\ forall aut post, login aut post us'' = login aut post us.
Proof.
  intros Hu Hid Hat. unfold toggle_paciente_status at 1. rewrite Hid, Hat.
  intros [= <-]. set (u1 := Usuario.set_ativo (Some false) u).
  assert (Hu1 : emails_unicos (<[id := u1]> us))
    by (by eapply emails_unicos_insert_mesmo).
  split; [|split].
  - intros aut email_form senha id' He. unfold login.
    destruct aut; [done|]. destruct (negb (Pg.sem_nul _)); [done|].
    rewrite He.
    rewrite (proj2 (usuario_por_email_iff (Usuario.email u) _ id u1 Hu1))
      by (by rewrite lookup_insert_eq).
    simpl. by destruct (check_password_hash _ _).
  - intros aut email_form senha He. unfold login.
    destruct aut; [done|]. destruct (negb (Pg.sem_nul _)); [done|].
    assert (usuario_por_email (PyForm.strip email_form) (<[id := u1]> us)
            = usuario_por_email (PyForm.strip email_form) us) as ->; [|done].
    destruct (usuario_por_email _ us) as [[j v]|] eqn:E.
    + apply usuario_por_email_iff in E as [Hj Hv]; [|done].
      apply usuario_por_email_iff; [done|]. split; [|done].
      rewrite lookup_insert_ne; [done|]. intros <-. congruence.
    + apply usuario_por_email_None. intros j v Hj Hv.
      destruct (decide (j = id)) as [->|Hne].
      * rewrite lookup_insert_eq in Hj. injection Hj as <-. by apply He.
      * rewrite lookup_insert_ne in Hj by done.
        by eapply (proj1 (usuario_por_email_None _ _) E).
  - unfold toggle_paciente_status. rewrite lookup_insert_eq.
    eexists. split; [done|]. rewrite insert_insert_eq.
    intros aut post. apply login_congr. intros e.
    set (u2 := Usuario.set_ativo _ u1).
    assert (Hu2 : emails_unicos (<[id := u2]> us))
      by (by eapply emails_unicos_insert_mesmo).
    destruct (usuario_por_email e us) as [[j v]|] eqn:E.
    + apply usuario_por_email_iff in E as [Hj Hv]; [|done].
      destruct (decide (j = id)) as [->|Hne].
      * assert (v = u) as -> by congruence.
        rewrite (proj2 (usuario_por_email_iff e _ id u2 Hu2))
          by (by rewrite lookup_insert_eq).
        simpl. by rewrite Hat.
      * rewrite (proj2 (usuario_por_email_iff e _ j v Hu2))
          by (by rewrite lookup_insert_ne).
        done.
    + assert (usuario_por_email e (<[id := u2]> us) = None) as ->; [|done].
      apply usuario_por_email_None. intros j v Hj Hv.
      destruct (decide (j = id)) as [->|Hne].
      * rewrite lookup_insert_eq in Hj. injection Hj as <-.
        by eapply (proj1 (usuario_por_email_None _ _) E).
      * rewrite lookup_insert_ne in Hj by done.
        by eapply (proj1 (usuario_por_email_None _ _) E).
Qed.

(** X22. A visitor whose registration succeeds can log in at once with the
    email and password typed in the form, as a user that is no
    administrator; the email may be typed with blanks around it in both
    forms. This holds for a password hasher that accepts the password a
    digest was made from and whose digests fit the 256 characters of
    [senha_hash], as werkzeug's do. *)
Theorem registered_patient_can_log_in `{Senhas} (form : FormCadastro.t)
  (salt : string) (us us' : tabela_usuarios) :
  (forall s p, check_password_hash (generate_password_hash s p) p = true) ->
  (forall s p, (String.length (generate_password_hash s p) <= 256)%nat) ->
  register false (Some form) salt us = (Cadastro_realizado, us') ->
  exists id u,
    us !! id = None
    /\ us' = <[id := u]> us
    /\ admin_required (Some u) = false
    /\ login false
         (Some (FormCadastro.email form, FormCadastro.senha form)) us'
       = Login_ok id.
Proof.
  intros Hcheck Hlen Hreg. unfold register in Hreg.
  apply cadastra_resultado in Hreg as [_ Hreg].
  destruct (Hreg eq_refl)
    as (u' & Hf & -> & _ & He & Hh & Hp & Hat & _ & _ & Hnul & _ & _ & Hn).
  exists (fresh (dom us)), u'. split; [done|]. split; [done|]. split.
  { unfold admin_required, Usuario.is_admin. by rewrite Hp. }
  assert (Usuario.senha_hash u'
          = generate_password_hash salt (FormCadastro.senha form)) as Hhash.
  { unfold Pg.varchar in Hh. destruct (negb (Pg.sem_nul _)); [done|].
    rewrite (proj2 (Nat.leb_le _ _) (Hlen _ _)) in Hh. congruence. }
  unfold login. rewrite <- He, Hnul. cbn [negb].
  rewrite (usuario_por_email_unico _ _ (fresh (dom us)) u').
  - by rewrite Hhash, Hcheck, Hat.
  - by rewrite lookup_insert_eq.
  - done.
  - intros j v Hj Hv. destruct (decide (j = fresh (dom us))) as [->|Hne];
      [done|]. rewrite lookup_insert_ne in Hj by done.
    by destruct (Hn j v Hj).
Qed.

Lemma senhas_exemplo_check s p :
  @check_password_hash senhas_exemplo
    (@generate_password_hash senhas_exemplo s p) p = true.
Proof. simpl. apply String.eqb_refl. Qed.

Lemma senhas_exemplo_length s p :
  (String.length (@generate_password_hash senhas_exemplo s p) <= 256)%nat.
Proof.
  simpl. rewrite <- length_list_ascii_of_string, list_ascii_of_substring.
  rewrite length_take. lia.
Qed.

Lemma registered_patient_can_log_in_witness :
  (@register senhas_exemplo false (Some form_bruno) "sal" usuarios_exemplo).1
  = Cadastro_realizado
  /\ exists id u,
       usuarios_exemplo !! id = None
       /\ (@register senhas_exemplo false (Some form_bruno) "sal"
             usuarios_exemplo).2 = <[id := u]> usuarios_exemplo
       /\ admin_required (Some u) = false
       /\ @login senhas_exemplo false (Some (" bruno@email.com ", "senha123"))
            (@register senhas_exemplo false (Some form_bruno) "sal"
               usuarios_exemplo).2
          = Login_ok id.
Proof.
  destruct (@register senhas_exemplo false (Some form_bruno) "sal"
              usuarios_exemplo) as [r us'] eqn:E.
  assert (r = Cadastro_realizado) as ->
    by (apply (f_equal fst) in E; vm_compute in E; congruence).
  split; [reflexivity|].
  exact (@registered_patient_can_log_in senhas_exemplo form_bruno "sal"
           usuarios_exemplo us' senhas_exemplo_check senhas_exemplo_length E).
Defined.

(** X23. A registration is all or nothing. When [register] answers that the
    registration was made, the table has gained exactly one row, an active
    patient whose name and email are the stripped ones of the form, under an
    email that contains an at sign and that no row had, with a password of
    at least six characters typed twice alike; with any other answer of
    [register] or of [novo_paciente] the table is left as it was. *)
Theorem registration_all_or_nothing `{Senhas} (autenticado : bool)
  (post : option FormCadastro.t) (salt : string) (us : tabela_usuarios) :
  ((register autenticado post salt us).1 = Cadastro_realizado ->
   exists form id u,
     autenticado = false /\ post = Some form
     /\ us !! id = None
     /\ (register autenticado post salt us).2 = <[id := u]> us
     /\ Usuario.nome u = PyForm.strip (FormCadastro.nome form)
     /\ Usuario.email u = PyForm.strip (FormCadastro.email form)
     /\ Usuario.perfil u = "paciente"
     /\ Usuario.ativo u = Some true
     /\ (3 <= String.length (Usuario.nome u))%nat
     /\ PyForm.contains "@" (Usuario.email u) = true
     /\ (6 <= String.length (FormCadastro.senha form))%nat
     /\ FormCadastro.senha form = FormCadastro.confirmar_senha form
     /\ forall j v, us !! j = Some v -> Usuario.email v <> Usuario.email u)
  /\ ((register autenticado post salt us).1 <> Cadastro_realizado ->
      (register autenticado post salt us).2 = us)
  /\ ((novo_paciente post salt us).1 <> Cadastro_realizado ->
      (novo_paciente post salt us).2 = us).
Proof.
  unfold register, novo_paciente. split; [|split].
  - destruct autenticado; [done|]. destruct post as [form|]; [|done].
    destruct (cadastra _ _ _ _) as [r us'] eqn:E. simpl. intros ->.
    apply cadastra_resultado in E as [_ E].
    destruct (E eq_refl)
      as (u' & Hf & -> & Hn & He & _ & Hp & Hat & Hl & Hc & _ & Hs & Hcf & Hu).
    exists form, (fresh (dom us)), u'.
    repeat (split; [done|]). intros j v Hj. by destruct (Hu j v Hj).
  - destruct autenticado; [done|]. destruct post as [form|]; [|done].
    apply cadastra_falha.
  - destruct post as [form|]; [|done]. apply cadastra_falha.
Qed.

Lemma cadastra_identidade `{Senhas} salt form confirmar us :
  (emails_unicos us -> emails_unicos (cadastra salt form confirmar us).2)
  /\ forall id u, us !! id = Some u ->
       (cadastra salt form confirmar us).2 !! id = Some u.
Proof.
  destruct (cadastra salt form confirmar us) as [r us'] eqn:E.
  assert (r = Cadastro_realizado \/ r <> Cadastro_realizado) as [->|Hr]
    by (destruct r; (by left) || (by right)).
  - apply cadastra_resultado in E as [_ E].
    destruct (E eq_refl)
      as (u' & Hf & -> & _ & _ & _ & _ & _ & _ & _ & _ & _ & _ & Hn).
    simpl. split.
    + intros Hu. apply emails_unicos_insert_novo; [done|].
      intros j v Hj. by destruct (Hn j v Hj).
    + intros id u Hid. rewrite lookup_insert_ne; [done|]. congruence.
  - pose proof (cadastra_falha salt form confirmar us) as Hf.
    rewrite E in Hf. simpl in *. by rewrite Hf.
Qed.

Lemma executa_usuarios_identidade `{Senhas} op us :
  (emails_unicos us -> emails_unicos (executa_usuarios op us))
  /\ forall id u, us !! id = Some u ->
       exists u', executa_usuarios op us !! id = Some u'
                  /\ Usuario.email u' = Usuario.email u
                  /\ Usuario.cpf u' = Usuario.cpf u
                  /\ Usuario.perfil u' = Usuario.perfil u.
Proof.
  assert (forall us' : tabela_usuarios,
            (forall id u, us !! id = Some u -> us' !! id = Some u) ->
            forall id u, us !! id = Some u ->
              exists u', us' !! id = Some u'
                         /\ Usuario.email u' = Usuario.email u
                         /\ Usuario.cpf u' = Usuario.cpf u
                         /\ Usuario.perfil u' = Usuario.perfil u) as Hsame.
  { intros us' Hs id u Hid. exists u. by rewrite (Hs id u Hid). }
  assert (forall k p p',
            us !! k = Some p ->
            Usuario.email p' = Usuario.email p ->
            Usuario.cpf p' = Usuario.cpf p ->
            Usuario.perfil p' = Usuario.perfil p ->
            forall id u, us !! id = Some u ->
              exists u', <[k := p']> us !! id = Some u'
                         /\ Usuario.email u' = Usuario.email u
                         /\ Usuario.cpf u' = Usuario.cpf u
                         /\ Usuario.perfil u' = Usuario.perfil u) as Hupd.
  { intros k p p' Hk He Hc Hp id u Hid.
    destruct (decide (id = k)) as [->|Hne].
    - rewrite lookup_insert_eq. exists p'. split; [done|].
      assert (u = p) as -> by congruence. done.
    - rewrite lookup_insert_ne by done. by exists u. }
  destruct op as [aut post salt|post salt|k post salt|k]; simpl.
  - unfold register. destruct aut; [by split; [|apply Hsame]|].
    destruct post as [form|]; [|by split; [|apply Hsame]].
    destruct (cadastra_identidade salt form
                (Some (FormCadastro.confirmar_senha form)) us) as [H1 H2].
    split; [done|]. by apply Hsame.
  - unfold novo_paciente. destruct post as [form|]; [|by split; [|apply Hsame]].
    destruct (cadastra_identidade salt form None us) as [H1 H2].
    split; [done|]. by apply Hsame.
  - destruct (editar_paciente k post salt us) as [r us'] eqn:E.
    apply editar_paciente_linha in E
      as [->|(p & p' & Hp & -> & He & Hc & Hpf)]; simpl.
    + by split; [|apply Hsame].
    + split; [intros Hu; by eapply emails_unicos_insert_mesmo|].
      by eapply Hupd.
  - unfold toggle_paciente_status. destruct (us !! k) as [p|] eqn:Ep.
    + split; [intros Hu; by eapply emails_unicos_insert_mesmo|].
      by eapply Hupd.
    + by split; [|apply Hsame].
Qed.

(** X24. The identity of an account is fixed. After any sequence of requests
    to [register], [novo_paciente], [editar_paciente] and
    [toggle_paciente_status], every user of before is still there with the
    same email, CPF and profile, and the emails of the table are still
    pairwise different if they were. *)
Theorem account_identity_is_fixed `{Senhas} (ops : list operacao_usuarios)
  (us : tabela_usuarios) :
  emails_unicos us ->
  emails_unicos (executa_usuarios_todas ops us)
  /\ forall id u, us !! id = Some u ->
       exists u', executa_usuarios_todas ops us !! id = Some u'
                  /\ Usuario.email u' = Usuario.email u
                  /\ Usuario.cpf u' = Usuario.cpf u
                  /\ Usuario.perfil u' = Usuario.perfil u.
Proof.
  unfold executa_usuarios_todas. revert us.
  induction ops as [|op ops IH]; intros us Hu; simpl.
  - split; [done|]. intros id u Hid. by exists u.
  - destruct (executa_usuarios_identidade op us) as [H1 H2].
    destruct (IH _ (H1 Hu)) as [H3 H4]. split; [done|].
    intros id u Hid. destruct (H2 id u Hid) as (u1 & Hu1 & He & Hc & Hp).
    destruct (H4 id u1 Hu1) as (u2 & Hu2 & He2 & Hc2 & Hp2).
    exists u2. split; [done|]. split; [|split]; congruence.
Qed.

Lemma usuarios_exemplo_emails : emails_unicos usuarios_exemplo.
Proof.
  intros i j u v Hi Hj He. unfold usuarios_exemplo in *.
  apply lookup_insert_Some in Hi as [[<- <-]|[Hi1 Hi]];
    apply lookup_insert_Some in Hj as [[<- <-]|[Hj1 Hj]]; try done.
  - apply lookup_singleton_Some in Hj as [<- <-]. done.
  - apply lookup_singleton_Some in Hi as [<- <-]. done.
  - apply lookup_singleton_Some in Hi as [<- <-].
    apply lookup_singleton_Some in Hj as [<- <-]. done.
Qed.

Lemma deactivated_account_cannot_log_in_witness :
  toggle_paciente_status 2 usuarios_exemplo
  = Some (<[2 := Usuario.mk "Ana Souza" "ana@email.com" "segredo1" "paciente"
                   (Some "") None (Some false)]> usuarios_exemplo)
  /\ forall aut email_form senha id',
       PyForm.strip email_form = "ana@email.com" ->
       @login senhas_exemplo aut (Some (email_form, senha))
         (<[2 := Usuario.mk "Ana Souza" "ana@email.com" "segredo1" "paciente"
                   (Some "") None (Some false)]> usuarios_exemplo)
       <> Login_ok id'.
Proof.
  assert (H : toggle_paciente_status 2 usuarios_exemplo
              = Some (<[2 := Usuario.mk "Ana Souza" "ana@email.com" "segredo1"
                               "paciente" (Some "") None (Some false)]>
                        usuarios_exemplo)) by reflexivity.
  split; [exact H|].
  exact (proj1 (@deactivated_account_cannot_log_in senhas_exemplo
                  usuarios_exemplo _ 2
                  (Usuario.mk "Ana Souza" "ana@email.com" "segredo1" "paciente"
                     (Some "") None (Some true))
                  usuarios_exemplo_emails eq_refl eq_refl H)).
Defined.

Lemma account_identity_is_fixed_witness :
  emails_unicos usuarios_exemplo
  /\ emails_unicos
       (@executa_usuarios_todas senhas_exemplo
          [Op_register false (Some form_bruno) "sal";
           Op_toggle_paciente_status 2;
           Op_editar_paciente 1
             (Some (FormPaciente.mk "Administrador" "" "nova senha" true))
             "sal"]
          usuarios_exemplo).
Proof.
  split; [exact usuarios_exemplo_emails|].
  exact (proj1 (@account_identity_is_fixed senhas_exemplo _ usuarios_exemplo
                  usuarios_exemplo_emails)).
Defined.

(** ** Calendar times that do not parse *)

Lemma split_aux_length sep cur l :
  length (PyStr.split_aux sep cur l)
  = S (length (List.filter (Ascii.eqb sep) l)).
Proof.
  revert cur. induction l as [|c l IH]; intros cur; simpl; [done|].
  rewrite (Ascii.eqb_sym sep c).
  destruct (Ascii.eqb c sep); simpl; by rewrite IH.
Qed.

(** X25. A calendar time is only read when it holds exactly one colon: a
    stored text with no colon, or with two or more, is taken by
    [parse_hora] as 08:00, whatever it says, and so is one with a piece
    that [int] refuses. *)
Theorem malformed_shift_time_reads_as_eight (hora_str : string) :
  length (List.filter (Ascii.eqb ":") (list_ascii_of_string hora_str)) <> 1%nat
  \/ (exists h m, PyStr.split ":" hora_str = [h; m]
                  /\ (PyStr.py_int h = None \/ PyStr.py_int m = None)) ->
  parse_hora hora_str = (8, 0).
Proof.
  unfold parse_hora. intros [Hn|(h & m & -> & Hint)].
  - pose proof (split_aux_length ":" [] (list_ascii_of_string hora_str)) as Hl.
    fold (PyStr.split ":" hora_str) in Hl.
    destruct (PyStr.split ":" hora_str) as [|h [|m [|x l]]]; try done.
    simpl in Hl. congruence.
  - destruct Hint as [->| ->]; [done|]. by destruct (PyStr.py_int h).
Qed.

Lemma malformed_shift_time_reads_as_eight_witness :
  parse_hora "12h00" = (8, 0) /\ parse_hora "12:00:00" = (8, 0)
  /\ parse_hora "12:mm" = (8, 0).
Proof.
  split; [|split].
  - apply malformed_shift_time_reads_as_eight. left. vm_compute. lia.
  - apply malformed_shift_time_reads_as_eight. left. vm_compute. lia.
  - apply malformed_shift_time_reads_as_eight. right.
    exists "12", "mm". split; [reflexivity|]. right. reflexivity.
Defined.
